(** * Proxmoxia client: path builder, transport and authentication

    A shallow embedding of [src/proxmox_mcp/vendor/proxmoxia/__init__.py].

    Python objects live in a heap (a list indexed by address); every
    constructor call appends to it and an attribute assignment overwrites
    one cell.  The HTTP layer ([requests]) is the environment: a function
    from the request that is sent to what comes back.  *)

From Stdlib Require Import ZArith Ascii String List Bool Lia.
From stdpp Require Import base option list strings pretty.

Set Warnings "-register-all".

Local Open Scope string_scope.
Local Open Scope Z_scope.
Local Open Scope list_scope.

(** ** Python values *)

(** Decoded JSON documents and keyword-argument values.  A float is kept
    by its IEEE-754 bit pattern: the client never computes with it. *)
Inductive pyval : Type :=
| PyNone
| PyBool (b : bool)
| PyInt (z : Z)
| PyFloat (bits : Z)
| PyStr (s : string)
| PyList (l : list pyval)
| PyDict (kv : list (string * pyval)).

(** A [dict] with string keys, in insertion order, keys unique. *)
Definition pydict (V : Type) : Type := list (string * V).

(** [d.get(k)] *)
Fixpoint dict_get {V : Type} (k : string) (d : pydict V) : option V :=
  match d with
  | [] => None
  | (k', v) :: d' => if String.eqb k k' then Some v else dict_get k d'
  end.

(** [d[k] = v] *)
Fixpoint dict_set {V : Type} (k : string) (v : V) (d : pydict V) : pydict V :=
  match d with
  | [] => [(k, v)]
  | (k', v') :: d' =>
      if String.eqb k k' then (k, v) :: d' else (k', v') :: dict_set k v d'
  end.

(** [bool(v)] *)
Definition truthy (v : pyval) : bool :=
  match v with
  | PyNone => false
  | PyBool b => b
  | PyInt z => negb (z =? 0)
  | PyFloat bits => negb ((bits =? 0) || (bits =? 2 ^ 63))
  | PyStr s => negb (String.eqb s "")
  | PyList l => match l with [] => false | _ => true end
  | PyDict kv => match kv with [] => false | _ => true end
  end.

(** [bool(s)] for an [Optional[str]] *)
Definition truthy_ostr (o : option string) : bool :=
  match o with
  | None => false
  | Some s => negb (String.eqb s "")
  end.

(** Positional arguments given to a path step: what callers pass are
    names and numeric ids. *)
Inductive pyarg : Type :=
| AStr (s : string)
| AInt (z : Z)
| ABool (b : bool)
| ANone.

(** [str(arg)] *)
Definition py_str (a : pyarg) : string :=
  match a with
  | AStr s => s
  | AInt z => pretty z
  | ABool true => "True"
  | ABool false => "False"
  | ANone => "None"
  end.

(** ** [urllib.parse.quote]

    A Python [str] is held as its UTF-8 bytes, which is what [quote]
    works on.  Letters, digits and [_.-~] are never escaped; the default
    [safe] argument adds ["/"]. *)

Definition in_range (lo hi a : ascii) : bool :=
  ((nat_of_ascii lo <=? nat_of_ascii a)%nat && (nat_of_ascii a <=? nat_of_ascii hi)%nat).

Definition always_safe (a : ascii) : bool :=
  in_range "A" "Z" a || in_range "a" "z" a || in_range "0" "9" a
  || Ascii.eqb a "_" || Ascii.eqb a "." || Ascii.eqb a "-" || Ascii.eqb a "~".

Fixpoint str_mem (a : ascii) (s : string) : bool :=
  match s with
  | EmptyString => false
  | String b s' => Ascii.eqb a b || str_mem a s'
  end.

Definition hex_digit (n : nat) : ascii :=
  match n with
  | 0 => "0" | 1 => "1" | 2 => "2" | 3 => "3" | 4 => "4" | 5 => "5"
  | 6 => "6" | 7 => "7" | 8 => "8" | 9 => "9" | 10 => "A" | 11 => "B"
  | 12 => "C" | 13 => "D" | 14 => "E" | _ => "F"
  end%nat%char.

(** ["%{:02X}".format(byte)] *)
Definition percent (a : ascii) : string :=
  let n := nat_of_ascii a in
  String "%" (String (hex_digit (n / 16)) (String (hex_digit (n mod 16)) EmptyString)).

Definition quote_byte (safe : string) (a : ascii) : string :=
  if always_safe a || str_mem a safe then String a EmptyString else percent a.

Fixpoint quote_from (safe : string) (s : string) : string :=
  match s with
  | EmptyString => EmptyString
  | String a s' => quote_byte safe a +:+ quote_from safe s'
  end.

Definition quote (s : string) : string := quote_from "/" s.

(** ["/".join(parts)] *)
Fixpoint join (sep : string) (parts : list string) : string :=
  match parts with
  | [] => ""
  | [p] => p
  | p :: rest => p +:+ sep +:+ join sep rest
  end.

(** [needle in hay] for a one-character needle. *)
Definition contains_char (needle : ascii) (hay : string) : bool := str_mem needle hay.

(** [s.split(sep)] for a one-character separator. *)
Fixpoint split_on (sep : ascii) (s : string) : list string :=
  match s with
  | EmptyString => [EmptyString]
  | String a s' =>
      if Ascii.eqb a sep then EmptyString :: split_on sep s'
      else match split_on sep s' with
           | [] => [String a EmptyString]
           | p :: ps => String a p :: ps
           end
  end.

(** ** Errors

    The classes the module defines, and the built-in exceptions that can
    leave it.  [ProxmoxError] is the base class raised as such (for a
    malformed body); its two subclasses are separate constructors, so a
    result [Raise ProxmoxError] means the base class exactly. *)
Inductive exn : Type :=
| ProxmoxError
| ProxmoxAuthError
| ProxmoxConnectionError
| ProxmoxTypeError
| JSONDecodeError
| AttributeError
| KeyError
| TypeError.

Inductive result (A : Type) : Type :=
| Ret (a : A)
| Raise (e : exn).
Arguments Ret {A} a.
Arguments Raise {A} e.

(** ** [ProxmoxAuthToken] *)

Record ProxmoxAuthToken : Type := {
  ticket : option string;
  csrf : option string;
  token_header : option string
}.

(** [ProxmoxAuthToken.apply] *)
Definition apply (self : ProxmoxAuthToken) (headers : pydict string) : pydict string :=
  let headers :=
    match token_header self with
    | Some h => if truthy_ostr (Some h) then dict_set "Authorization" h headers else headers
    | None => headers
    end in
  let headers :=
    match ticket self with
    | Some t => if truthy_ostr (Some t) then dict_set "Cookie" ("PVEAuthCookie=" +:+ t) headers else headers
    | None => headers
    end in
  match csrf self with
  | Some c => if truthy_ostr (Some c) then dict_set "CSRFPreventionToken" c headers else headers
  | None => headers
  end.

(** ** The HTTP layer *)

(** Addresses are positions in the heap. *)
Abbreviation addr := nat.

(** One call of [session.request] / [session.post]. *)
Record request : Type := {
  method : string;
  url : string;
  params : option (pydict pyval);
  data : option (pydict pyval);
  headers : pydict string;
  verify : bool;
  timeout : Z;
  via : addr
}.

(** What comes back: a status line and a body, decoded by [response.json()]
    ([None] when the body is not JSON). *)
Record response : Type := {
  status_code : Z;
  json : option pyval
}.

(** A [requests.RequestException] other than [HTTPError] (DNS failure,
    refused connection, timeout), or a response. *)
Inductive reply : Type :=
| NetworkFailure
| Answer (r : response).

(** [response.raise_for_status()], as [requests] defines it: [HTTPError]
    is raised when [400 <= status_code < 500] (client error) or
    [500 <= status_code < 600] (server error), and nothing happens for
    any other status. *)
Definition raise_for_status (r : response) : bool :=
  (400 <=? status_code r) && (status_code r <? 600).

(** ** Objects *)

Inductive transport_class : Type :=
| ClsConnectorAPI
| ClsConnector
| ClsProxmox
| ClsNode.

(** Instances of [ConnectorAPI] and its subclasses; [conn] and [node] are
    the attributes [Proxmox] and [Node] add. *)
Record transport : Type := {
  cls : transport_class;
  host : string;
  port : Z;
  verify_ssl : bool;
  baseurl : string;
  session : addr;
  _auth : option ProxmoxAuthToken;
  conn : option addr;
  node : option string
}.

Inductive attr_class : Type :=
| ClsAttrMethod
| ClsAttrGetMethod
| ClsAttrPostMethod
| ClsAttrPutMethod
| ClsAttrDeleteMethod.

(** Instances of [AttrMethod] and its subclasses. *)
Record attr : Type := {
  acls : attr_class;
  parent : addr;
  method_name : string
}.

Inductive obj : Type :=
| OSession
| OTransport (t : transport)
| OAttr (a : attr).

(** The heap and the log of requests handed to the HTTP layer. *)
Record world : Type := {
  heap : list obj;
  log : list request
}.

(** ** Computations: state, exceptions, and [None] when a call is applied
    to an address that does not hold an object of the class the method
    belongs to, or leaves the fragment modelled here. *)
Definition M (A : Type) : Type := world -> option (world * result A).

Definition ret {A : Type} (a : A) : M A := fun w => Some (w, Ret a).
Definition raise {A : Type} (e : exn) : M A := fun w => Some (w, Raise e).
Definition stuck {A : Type} : M A := fun _ => None.

Definition bind {A B : Type} (m : M A) (k : A -> M B) : M B :=
  fun w =>
    match m w with
    | None => None
    | Some (w', Raise e) => Some (w', Raise e)
    | Some (w', Ret a) => k a w'
    end.

Notation "'let!' x := m 'in' k" := (bind m (fun x => k))
  (at level 10, x name, m at level 100, k at level 200).

Definition get_heap : M (list obj) := fun w => Some (w, Ret (heap w)).

(** A new object takes the next address. *)
Definition alloc (o : obj) : M addr :=
  fun w => Some ({| heap := heap w ++ [o]; log := log w |}, Ret (length (heap w))).

Definition get_transport (a : addr) : M transport :=
  fun w => match heap w !! a with
           | Some (OTransport t) => Some (w, Ret t)
           | _ => None
           end.

Definition get_attr (a : addr) : M attr :=
  fun w => match heap w !! a with
           | Some (OAttr x) => Some (w, Ret x)
           | _ => None
           end.

Definition put_transport (a : addr) (t : transport) : M unit :=
  fun w => Some ({| heap := <[a := OTransport t]> (heap w); log := log w |}, Ret tt).

Definition set_auth (tok : option ProxmoxAuthToken) (t : transport) : transport :=
  {| cls := cls t; host := host t; port := port t; verify_ssl := verify_ssl t;
     baseurl := baseurl t; session := session t; _auth := tok;
     conn := conn t; node := node t |}.

(** [x or None] and [x or {}] on a dictionary argument. *)
Definition or_None (kwargs : pydict pyval) : option (pydict pyval) :=
  match kwargs with
  | [] => None
  | _ => Some kwargs
  end.

Definition or_empty (params : option (pydict pyval)) : pydict pyval :=
  match params with
  | Some (b :: d) => b :: d
  | _ => []
  end.

Definition in_401_403 (status : Z) : bool := (status =? 401) || (status =? 403).

Section Client.

(** The environment: what the HTTP layer does with each request. *)
Variable net : request -> reply.

(** [session.request(...)] and [session.post(...)]: the call is logged and
    the environment answers. *)
Definition send (req : request) : M reply :=
  fun w => Some ({| heap := heap w; log := log w ++ [req] |}, Ret (net req)).

(** ** [ConnectorAPI] *)

(** [ConnectorAPI.__init__], run on the new instance of class [c]: the
    instance is followed in the heap by the session it creates. *)
Definition ConnectorAPI___init__ (c : transport_class) (hostname : string)
    (port_ : Z) (verify_ssl_ : bool) : M addr :=
  let! h := get_heap in
  let self := length h in
  let! _ := alloc (OTransport
      {| cls := c; host := hostname; port := port_; verify_ssl := verify_ssl_;
         baseurl := "https://" +:+ hostname +:+ ":" +:+ pretty port_ +:+ "/api2/json";
         session := S self; _auth := None; conn := None; node := None |}) in
  let! _ := alloc OSession in
  ret self.

(** [ConnectorAPI._request] *)
Definition ConnectorAPI__request (self : addr) (method_ filter_path : string)
    (params_ : option (pydict pyval)) : M pyval :=
  let! t := get_transport self in
  let url_ := baseurl t +:+ "/" +:+ filter_path in
  let headers_ : pydict string := [("Accept", "application/json")] in
  let headers_ :=
    match _auth t with
    | Some a => apply a headers_
    | None => headers_
    end in
  let! rep := send
      {| method := method_; url := url_;
         params := if String.eqb method_ "GET" then params_ else None;
         data := if negb (String.eqb method_ "GET") then params_ else None;
         headers := headers_; verify := verify_ssl t; timeout := 30;
         via := session t |} in
  match rep with
  | NetworkFailure => raise ProxmoxConnectionError
  | Answer r =>
      if raise_for_status r then
        if in_401_403 (status_code r) then raise ProxmoxAuthError
        else raise ProxmoxConnectionError
      else
        match json r with
        | None => raise ProxmoxError
        | Some (PyDict payload) =>
            ret (match dict_get "data" payload with
                 | Some v => v
                 | None => PyNone
                 end)
        | Some _ => raise AttributeError
        end
  end.

(** [ConnectorAPI.get] *)
Definition ConnectorAPI_get (self : addr) (filter_path : string)
    (arguments : option (pydict pyval)) : M pyval :=
  ConnectorAPI__request self "GET" filter_path arguments.

(** [ConnectorAPI.post] *)
Definition ConnectorAPI_post (self : addr) (filter_path : string)
    (params_ : option (pydict pyval)) : M pyval :=
  ConnectorAPI__request self "POST" filter_path (Some (or_empty params_)).

(** [ConnectorAPI.put] *)
Definition ConnectorAPI_put (self : addr) (filter_path : string)
    (params_ : option (pydict pyval)) : M pyval :=
  ConnectorAPI__request self "PUT" filter_path (Some (or_empty params_)).

(** [ConnectorAPI.delete] *)
Definition ConnectorAPI_delete (self : addr) (filter_path : string)
    (params_ : option (pydict pyval)) : M pyval :=
  ConnectorAPI__request self "DELETE" filter_path (Some (or_empty params_)).

(** ** [Connector] *)

(** The methods below exist on [Connector] only. *)
Definition get_connector (self : addr) : M transport :=
  let! t := get_transport self in
  match cls t with
  | ClsConnector => ret t
  | _ => stuck
  end.

(** [Connector.get_auth_token].  The two fields of the reply are stored
    in fields declared [Optional[str]]; a reply that puts another JSON
    type there is outside the typed fragment. *)
Definition Connector_get_auth_token (self : addr) (username password : string)
    : M ProxmoxAuthToken :=
  let! t := get_connector self in
  let url_ := baseurl t +:+ "/access/ticket" in
  let! rep := send
      {| method := "POST"; url := url_; params := None;
         data := Some [("username", PyStr username); ("password", PyStr password)];
         headers := []; verify := verify_ssl t; timeout := 30;
         via := session t |} in
  match rep with
  | NetworkFailure => raise ProxmoxConnectionError
  | Answer r =>
      if raise_for_status r then raise ProxmoxAuthError
      else
        match json r with
        | None => raise JSONDecodeError
        | Some (PyDict payload) =>
            let data_ := match dict_get "data" payload with
                         | Some v => v
                         | None => PyNone
                         end in
            if negb (truthy data_) then raise ProxmoxAuthError
            else
              match data_ with
              | PyDict d =>
                  match dict_get "ticket" d with
                  | None => raise KeyError
                  | Some tk =>
                      match dict_get "CSRFPreventionToken" d with
                      | None => raise KeyError
                      | Some cs =>
                          match tk, cs with
                          | PyStr tk, PyStr cs =>
                              let token := {| ticket := Some tk; csrf := Some cs;
                                              token_header := None |} in
                              let! _ := put_transport self (set_auth (Some token) t) in
                              ret token
                          | _, _ => stuck
                          end
                      end
                  end
              | _ => raise TypeError
              end
        | Some _ => raise AttributeError
        end
  end.

(** [Connector.use_api_token] *)
Definition Connector_use_api_token (self : addr)
    (username token_name token_value : string) : M ProxmoxAuthToken :=
  let! t := get_connector self in
  if negb (contains_char "@" username) then raise ProxmoxAuthError
  else
    let header := "PVEAPIToken=" +:+ username +:+ "!" +:+ token_name
                  +:+ "=" +:+ token_value in
    let token := {| ticket := None; csrf := None; token_header := Some header |} in
    let! _ := put_transport self (set_auth (Some token) t) in
    ret token.

(** ** [Proxmox] *)

(** [Proxmox.__init__], run on the new instance of class [c] ([Proxmox]
    itself or a subclass). *)
Definition Proxmox___init__ (c : transport_class) (conn_ : addr) : M addr :=
  let! ct := get_transport conn_ in
  let! self := ConnectorAPI___init__ c (host ct) (port ct) (verify_ssl ct) in
  let! t := get_transport self in
  let! _ := put_transport self
      {| cls := cls t; host := host t; port := port t; verify_ssl := verify_ssl t;
         baseurl := baseurl t; session := session ct; _auth := _auth ct;
         conn := Some conn_; node := node t |} in
  ret self.

(** [Proxmox(conn)] *)
Definition Proxmox (conn_ : addr) : M addr := Proxmox___init__ ClsProxmox conn_.

(** [Proxmox.__getattr__] *)
Definition Proxmox___getattr__ (self : addr) (key : string) : M addr :=
  alloc (OAttr {| acls := ClsAttrMethod; parent := self; method_name := key |}).

(** ** [AttrMethod] and its four subclasses *)

(** [AttrMethod.__getattr__] *)
Definition AttrMethod___getattr__ (self : addr) (key : string) : M addr :=
  let! a := get_attr self in
  let encoded := quote key in
  if String.eqb encoded "post" then
    alloc (OAttr {| acls := ClsAttrPostMethod; parent := parent a; method_name := method_name a |})
  else if String.eqb encoded "put" then
    alloc (OAttr {| acls := ClsAttrPutMethod; parent := parent a; method_name := method_name a |})
  else if String.eqb encoded "delete" then
    alloc (OAttr {| acls := ClsAttrDeleteMethod; parent := parent a; method_name := method_name a |})
  else if String.eqb encoded "get" then
    alloc (OAttr {| acls := ClsAttrGetMethod; parent := parent a; method_name := method_name a |})
  else
    alloc (OAttr {| acls := ClsAttrMethod; parent := parent a;
                    method_name := join "/" [method_name a; encoded] |}).

(** What a call returns: a path builder, or the data of a reply. *)
Inductive value : Type :=
| VObj (a : addr)
| VData (v : pyval).

(** [AttrMethod.__call__] *)
Definition AttrMethod___call__ (self : addr) (args : list pyarg)
    (kwargs : pydict pyval) : M value :=
  let! a := get_attr self in
  match args with
  | _ :: _ =>
      let segments := method_name a :: map (fun arg => quote (py_str arg)) args in
      let! r := alloc (OAttr {| acls := ClsAttrMethod; parent := parent a;
                                method_name := join "/" segments |}) in
      ret (VObj r)
  | [] =>
      let! d := ConnectorAPI_get (parent a) (method_name a) (or_None kwargs) in
      ret (VData d)
  end.

(** [AttrGetMethod.__call__] *)
Definition AttrGetMethod___call__ (self : addr) (kwargs : pydict pyval) : M value :=
  let! a := get_attr self in
  let! d := ConnectorAPI_get (parent a) (method_name a) (or_None kwargs) in
  ret (VData d).

(** [AttrPostMethod.__call__] *)
Definition AttrPostMethod___call__ (self : addr) (kwargs : pydict pyval) : M value :=
  let! a := get_attr self in
  let! d := ConnectorAPI_post (parent a) (method_name a) (or_None kwargs) in
  ret (VData d).

(** [AttrPutMethod.__call__] *)
Definition AttrPutMethod___call__ (self : addr) (kwargs : pydict pyval) : M value :=
  let! a := get_attr self in
  let! d := ConnectorAPI_put (parent a) (method_name a) (or_None kwargs) in
  ret (VData d).

(** [AttrDeleteMethod.__call__] *)
Definition AttrDeleteMethod___call__ (self : addr) (kwargs : pydict pyval) : M value :=
  let! a := get_attr self in
  let! d := ConnectorAPI_delete (parent a) (method_name a) (or_None kwargs) in
  ret (VData d).

(** ** [Node] *)

(** [Node(conn, node)] *)
Definition Node (conn_ : addr) (node_ : string) : M addr :=
  let! self := Proxmox___init__ ClsNode conn_ in
  let! t := get_transport self in
  let! _ := put_transport self
      {| cls := cls t; host := host t; port := port t; verify_ssl := verify_ssl t;
         baseurl := baseurl t +:+ "/nodes/" +:+ node_; session := session t;
         _auth := _auth t; conn := conn t; node := Some node_ |} in
  ret self.

(** ** Chains

    Python runs [__getattr__] only for a name that ordinary lookup does
    not find.  The names bound on the instances and classes of this module
    are listed; a name of the form [__x__] is left to the interpreter.
    Reading one of them is not a path step and is outside the model. *)

Definition dunder (key : string) : bool :=
  String.prefix "__" key && String.prefix "__" (String.rev key).

Definition transport_names (c : transport_class) : list string :=
  ["host"; "port"; "verify_ssl"; "baseurl"; "session"; "_auth";
   "_request"; "get"; "post"; "put"; "delete"]
  ++ match c with
     | ClsProxmox => ["conn"]
     | ClsNode => ["conn"; "node"]
     | ClsConnector => ["get_auth_token"; "use_api_token"]
     | ClsConnectorAPI => []
     end.

Definition attr_names : list string := ["parent"; "method_name"].

Definition bound_name (names : list string) (key : string) : bool :=
  dunder key || existsb (String.eqb key) names.

(** [v.key] *)
Definition py_getattr (v : value) (key : string) : M value :=
  match v with
  | VData _ => stuck
  | VObj a =>
      let! h := get_heap in
      match h !! a with
      | Some (OTransport t) =>
          if bound_name (transport_names (cls t)) key then stuck
          else
            match cls t with
            | ClsProxmox | ClsNode =>
                let! r := Proxmox___getattr__ a key in ret (VObj r)
            | _ => raise AttributeError
            end
      | Some (OAttr _) =>
          if bound_name attr_names key then stuck
          else let! r := AttrMethod___getattr__ a key in ret (VObj r)
      | _ => stuck
      end
  end.

(** [v(args..., kwargs...)].  Python binds the arguments before the body
    of [__call__] runs: the receiver is bound to the parameter [self], so
    a keyword argument named [self] is a second value for it and the call
    raises [TypeError]; the subclasses' [__call__] takes keyword arguments
    only, so a positional argument raises [TypeError] there; a transport
    is not callable. *)
Definition py_call (v : value) (args : list pyarg) (kwargs : pydict pyval) : M value :=
  match v with
  | VData _ => stuck
  | VObj a =>
      let! h := get_heap in
      match h !! a with
      | Some (OAttr x) =>
          match dict_get "self" kwargs with
          | Some _ => raise TypeError
          | None =>
              match acls x, args with
              | ClsAttrMethod, _ => AttrMethod___call__ a args kwargs
              | ClsAttrGetMethod, [] => AttrGetMethod___call__ a kwargs
              | ClsAttrPostMethod, [] => AttrPostMethod___call__ a kwargs
              | ClsAttrPutMethod, [] => AttrPutMethod___call__ a kwargs
              | ClsAttrDeleteMethod, [] => AttrDeleteMethod___call__ a kwargs
              | _, _ :: _ => raise TypeError
              end
          end
      | Some (OTransport _) => raise TypeError
      | _ => stuck
      end
  end.

Inductive step : Type :=
| SAttr (key : string)
| SCall (args : list pyarg) (kwargs : pydict pyval).

Definition run_step (v : value) (s : step) : M value :=
  match s with
  | SAttr key => py_getattr v key
  | SCall args kwargs => py_call v args kwargs
  end.

(** [v.s1.s2 ... sn], left to right. *)
Fixpoint run_chain (v : value) (steps : list step) : M value :=
  match steps with
  | [] => ret v
  | s :: rest => let! v' := run_step v s in run_chain v' rest
  end.

End Client.

(** ** The four verbs of the transport, for statements about all of them *)

Inductive verb : Type :=
| GET
| POST
| PUT
| DELETE.

Definition transport_call (net : request -> reply) (v : verb) :
    addr -> string -> option (pydict pyval) -> M pyval :=
  match v with
  | GET => ConnectorAPI_get net
  | POST => ConnectorAPI_post net
  | PUT => ConnectorAPI_put net
  | DELETE => ConnectorAPI_delete net
  end.

(** The request [_request] hands to the session, as a function of the
    transport's fields and the call's arguments. *)
Definition sent_request (t : transport) (method_ filter_path : string)
    (params_ : option (pydict pyval)) : request :=
  {| method := method_;
     url := baseurl t +:+ "/" +:+ filter_path;
     params := if String.eqb method_ "GET" then params_ else None;
     data := if negb (String.eqb method_ "GET") then params_ else None;
     headers := match _auth t with
                | Some a => apply a [("Accept", "application/json")]
                | None => [("Accept", "application/json")]
                end;
     verify := verify_ssl t; timeout := 30; via := session t |}.

(** The request each verb sends: [get] passes its arguments on, the
    others replace a missing or empty dictionary by an empty one. *)
Definition verb_request (t : transport) (v : verb) (filter_path : string)
    (params_ : option (pydict pyval)) : request :=
  match v with
  | GET => sent_request t "GET" filter_path params_
  | POST => sent_request t "POST" filter_path (Some (or_empty params_))
  | PUT => sent_request t "PUT" filter_path (Some (or_empty params_))
  | DELETE => sent_request t "DELETE" filter_path (Some (or_empty params_))
  end.

Definition logged (w : world) (req : request) : world :=
  {| heap := heap w; log := log w ++ [req] |}.

(** The request [get_auth_token] posts. *)
Definition ticket_request (t : transport) (username password : string) : request :=
  {| method := "POST"; url := baseurl t +:+ "/access/ticket"; params := None;
     data := Some [("username", PyStr username); ("password", PyStr password)];
     headers := []; verify := verify_ssl t; timeout := 30; via := session t |}.

(** ** A small world to run things in: a connector for [pve.local] at
    address 0, its session at 1, a [Proxmox] root over it at 2. *)

Definition demo_connector : transport :=
  {| cls := ClsConnector; host := "pve.local"; port := 8006; verify_ssl := true;
     baseurl := "https://pve.local:8006/api2/json"; session := 1%nat;
     _auth := None; conn := None; node := None |}.

Definition demo_root : transport :=
  {| cls := ClsProxmox; host := "pve.local"; port := 8006; verify_ssl := true;
     baseurl := "https://pve.local:8006/api2/json"; session := 1%nat;
     _auth := None; conn := Some 0%nat; node := None |}.

Definition demo_world : world :=
  {| heap := [OTransport demo_connector; OSession; OTransport demo_root; OSession];
     log := [] |}.

(** A server that answers every request with the same status and body. *)
Definition always (status : Z) (body : option pyval) : request -> reply :=
  fun _ => Answer {| status_code := status; json := body |}.


(** ** A [Node] seen as a plain [Proxmox] root

    [Node] adds one attribute and rewrites [baseurl]; it overrides no
    method.  Forgetting the class and the extra attribute turns a [Node]
    into a [Proxmox] instance with the same fields. *)

Definition generic_transport (t : transport) : transport :=
  match cls t with
  | ClsNode =>
      {| cls := ClsProxmox; host := host t; port := port t; verify_ssl := verify_ssl t;
         baseurl := baseurl t; session := session t; _auth := _auth t;
         conn := conn t; node := None |}
  | _ => t
  end.

Definition as_generic (o : obj) : obj :=
  match o with
  | OTransport t => OTransport (generic_transport t)
  | _ => o
  end.

Definition generic_view (w : world) : world :=
  {| heap := as_generic <$> heap w; log := log w |}.

Definition set_baseurl (u : string) (t : transport) : transport :=
  {| cls := cls t; host := host t; port := port t; verify_ssl := verify_ssl t;
     baseurl := u; session := session t; _auth := _auth t;
     conn := conn t; node := node t |}.

(** A root of a path chain: an instance of [Proxmox] or of [Node]. *)
Definition is_root (t : transport) : Prop :=
  cls t = ClsProxmox \/ cls t = ClsNode.

(** The outcome of a run, seen through the view. *)
Definition viewed {A : Type} (o : option (world * result A)) : option (world * result A) :=
  match o with
  | Some (w', res) => Some (generic_view w', res)
  | None => None
  end.

(** A computation runs the same way on [w] and on its view when the run
    on the view is the view of the run on [w]: the same result, the same
    requests, the viewed objects, and no run on one side without a run on
    the other. *)
Definition same_on_view {A : Type} (m : M A) (w : world) : Prop :=
  m (generic_view w) = viewed (m w).

(** The values a path step returns: an [AttrMethod] of any class, or
    data. *)
Definition builder_or_data (v : value) (w : world) : Prop :=
  match v with
  | VData _ => True
  | VObj a => exists x : attr, heap w !! a = Some (OAttr x)
  end.

(** Chains that begin by reading [.node]. *)
Definition starts_with_node (steps : list step) : bool :=
  match steps with
  | SAttr key :: _ => String.eqb key "node"
  | _ => false
  end.

(** [n.node] on a [Node]: the instance attribute that [Node.__init__]
    binds.  Ordinary lookup finds it, so [__getattr__] does not run. *)
Definition Node_node (self : addr) : M value :=
  let! t := get_transport self in
  match cls t, node t with
  | ClsNode, Some node_ => ret (VData (PyStr node_))
  | _, _ => stuck
  end.

(** ** Further vocabulary *)

(** Every character of [s] satisfies [p]. *)
Fixpoint str_forall (p : ascii -> bool) (s : string) : bool :=
  match s with
  | EmptyString => true
  | String a s' => p a && str_forall p s'
  end.

(** The characters [quote] leaves as they are. *)
Definition unescaped (a : ascii) : bool := always_safe a || str_mem a "/".

(** The four names [AttrMethod.__getattr__] tests for. *)
Definition is_verb_name (s : string) : bool :=
  String.eqb s "post" || String.eqb s "put" || String.eqb s "delete" || String.eqb s "get".

(** The class [AttrMethod.__getattr__] instantiates for a name. *)
Definition class_of_name (key : string) : attr_class :=
  if String.eqb key "post" then ClsAttrPostMethod
  else if String.eqb key "put" then ClsAttrPutMethod
  else if String.eqb key "delete" then ClsAttrDeleteMethod
  else if String.eqb key "get" then ClsAttrGetMethod
  else ClsAttrMethod.

(** The path a step that extends a path leads to, from path [m]. *)
Definition seg_path (m : string) (s : step) : string :=
  match s with
  | SAttr key => join "/" [m; quote key]
  | SCall args _ => join "/" (m :: map (fun arg => quote (py_str arg)) args)
  end.

(** Whether the keyword arguments of a call hold one named [self], which
    the call cannot bind beside its receiver. *)
Definition binds_self (kwargs : pydict pyval) : bool :=
  match dict_get "self" kwargs with
  | Some _ => true
  | None => false
  end.

(** The steps that extend a path: naming an attribute that is neither
    bound on [AttrMethod] nor a verb, and calling with positional
    arguments and no keyword argument named [self]. *)
Definition extends_path (s : step) : bool :=
  match s with
  | SAttr key => negb (bound_name attr_names key) && negb (is_verb_name key)
  | SCall (_ :: _) kwargs => negb (binds_self kwargs)
  | SCall [] _ => false
  end.

(** The attribute that selects each verb, and the class it leads to. *)
Definition verb_attr (v : verb) : string :=
  match v with
  | GET => "get"
  | POST => "post"
  | PUT => "put"
  | DELETE => "delete"
  end.

Definition verb_class (v : verb) : attr_class :=
  match v with
  | GET => ClsAttrGetMethod
  | POST => ClsAttrPostMethod
  | PUT => ClsAttrPutMethod
  | DELETE => ClsAttrDeleteMethod
  end.

(** A data result as a chain returns it. *)
Definition as_data (r : result pyval) : result value :=
  match r with
  | Ret d => Ret (VData d)
  | Raise e => Raise e
  end.

(** ** [scripts/proxmoxia_agent.py] *)

(** [v[k]] for a string key: only a [dict] can be indexed by one. *)
Definition subscript (v : pyval) (k : string) : result pyval :=
  match v with
  | PyDict d =>
      match dict_get k d with
      | Some x => Ret x
      | None => Raise KeyError
      end
  | _ => Raise TypeError
  end.

(** [v.get(k, default)]: only a [dict] has the method. *)
Definition get_default (v : pyval) (k : string) (default : pyval) : result pyval :=
  match v with
  | PyDict d =>
      match dict_get k d with
      | Some x => Ret x
      | None => Ret default
      end
  | _ => Raise AttributeError
  end.

Definition lift {A : Type} (r : result A) : M A := fun w => Some (w, r).

Module ProxmoxiaAgent.

(** What [load_config] finds at a path (a missing file, a file that is
    not JSON, a JSON document) and what it can raise: the built-in
    exceptions of the client's model and the two it raises itself, with
    their messages. *)
Inductive file : Type :=
| NoFile
| NotJson
| Json (v : pyval).

Inductive config_exn : Type :=
| Builtin (e : exn)
| FileNotFoundError (msg : string)
| RuntimeError (msg : string).

Inductive loaded : Type :=
| Loaded (data : pyval)
| Failed (e : config_exn).

(** [data["auth"]["token_value"] = token_value; return data], where
    [data["auth"]] is the dictionary [auth]. *)
Definition store_token (data : pyval) (auth : pydict pyval) (token_value : pyval) : loaded :=
  match data with
  | PyDict d => Loaded (PyDict (dict_set "auth" (PyDict (dict_set "token_value" token_value auth)) d))
  | _ => Failed (Builtin TypeError)
  end.

(** [load_config], over the files [fs] and the environment [env]. *)
Definition load_config (fs : string -> file) (env : string -> option string)
    (config_path : string) : loaded :=
  match fs config_path with
  | NoFile => Failed (FileNotFoundError ("Config file not found: " +:+ config_path))
  | NotJson => Failed (Builtin JSONDecodeError)
  | Json data =>
      match subscript data "auth" with
      | Raise e => Failed (Builtin e)
      | Ret (PyDict auth) =>
          let token_value := match dict_get "token_value" auth with
                             | Some v => v
                             | None => PyNone
                             end in
          if truthy token_value then store_token data auth token_value
          else
            let env_var := match dict_get "token_env_var" auth with
                           | Some v => v
                           | None => PyNone
                           end in
            if negb (truthy env_var) then
              Failed (RuntimeError "No token_value or token_env_var configured")
            else
              match env_var with
              | PyStr name =>
                  match env name with
                  | Some s =>
                      if truthy (PyStr s) then store_token data auth (PyStr s)
                      else Failed (RuntimeError
                                     ("Environment variable " +:+ name +:+ " is not set"))
                  | None => Failed (RuntimeError
                                      ("Environment variable " +:+ name +:+ " is not set"))
                  end
              | _ => Failed (Builtin TypeError)
              end
      | Ret _ => Failed (Builtin AttributeError)
      end
  end.

(** [connect].  The configuration values go into fields and format
    strings typed [str], [int] and [bool]; a configuration that holds
    another JSON type there is outside the typed fragment. *)
Definition connect (cfg : pyval) : M addr :=
  let! prox_cfg := lift (subscript cfg "proxmox") in
  let! auth_cfg := lift (subscript cfg "auth") in
  let! host_ := lift (subscript prox_cfg "host") in
  let! port_ := lift (get_default prox_cfg "port" (PyInt 8006)) in
  let! verify_ := lift (get_default prox_cfg "verify_ssl" (PyBool true)) in
  match host_, port_, verify_ with
  | PyStr h, PyInt p, PyBool b =>
      let! connector := ConnectorAPI___init__ ClsConnector h p b in
      let! user := lift (subscript auth_cfg "user") in
      let! token_name := lift (subscript auth_cfg "token_name") in
      let! token_value := lift (subscript auth_cfg "token_value") in
      match user, token_name, token_value with
      | PyStr u, PyStr tn, PyStr tv =>
          let! _ := Connector_use_api_token connector u tn tv in
          Proxmox connector
      | _, _, _ => stuck
      end
  | _, _, _ => stuck
  end.

(** [for x in v], also what [list.extend(v)] goes through: the elements
    of a list, the keys of a dictionary.  A [str] iterates by code point,
    which is outside the model; nothing else iterates. *)
Definition iterate (v : pyval) : M (list pyval) :=
  match v with
  | PyList l => ret l
  | PyDict kv => ret (map (fun kx => PyStr (fst kx)) kv)
  | PyStr _ => stuck
  | _ => raise TypeError
  end.

(** [client.conn]: bound on [Proxmox] and [Node] instances only. *)
Definition client_conn (client : addr) : M addr :=
  let! t := get_transport client in
  match conn t with
  | Some c => ret c
  | None => raise AttributeError
  end.

(** A chain that ended in a call that executes holds data. *)
Definition data_of (v : value) : M pyval :=
  match v with
  | VData d => ret d
  | VObj _ => stuck
  end.

Section Commands.

Variable net : request -> reply.

(** [Node(client.conn, node).qemu()] *)
Definition node_qemu (client : addr) (node_ : string) : M pyval :=
  let! c := client_conn client in
  let! n := Node c node_ in
  let! r := run_chain net (VObj n) [SAttr "qemu"; SCall [] []] in
  data_of r.

(** The body of the loop of [cmd_vms], over the entries still to visit
    and the list collected so far; a ["node"] that is not a string is
    outside the typed fragment. *)
Fixpoint cmd_vms_loop (client : addr) (entries : list pyval) (vms : list pyval)
    : M (list pyval) :=
  match entries with
  | [] => ret vms
  | entry :: rest =>
      let! c := client_conn client in
      let! name := lift (subscript entry "node") in
      match name with
      | PyStr node_ =>
          let! n := Node c node_ in
          let! r := run_chain net (VObj n) [SAttr "qemu"; SCall [] []] in
          let! d := data_of r in
          let! l := iterate d in
          cmd_vms_loop client rest (vms ++ l)
      | _ => stuck
      end
  end.

(** The [else] branch of [cmd_vms]: every node of [client.nodes()]. *)
Definition cmd_vms_all (client : addr) : M pyval :=
  let! r := run_chain net (VObj client) [SAttr "nodes"; SCall [] []] in
  let! d := data_of r in
  let! entries := iterate d in
  let! vms := cmd_vms_loop client entries [] in
  ret (PyList vms).

(** [cmd_vms], up to the value it prints. *)
Definition cmd_vms (client : addr) (node_ : option string) : M pyval :=
  match node_ with
  | Some n => if truthy_ostr (Some n) then node_qemu client n else cmd_vms_all client
  | None => cmd_vms_all client
  end.

End Commands.

End ProxmoxiaAgent.

(** The server answers [req] without an HTTP error, with a JSON object
    whose ["data"] is [d]. *)
Definition answers (net : request -> reply) (req : request) (d : pyval) : Prop :=
  exists (r : response) (payload : pydict pyval),
    net req = Answer r /\ raise_for_status r = false
    /\ json r = Some (PyDict payload) /\ dict_get "data" payload = Some d.

(** The request of [Node(conn, name).qemu()], for a connector [ct]. *)
Definition qemu_request_of (ct : transport) (name : string) : request :=
  {| method := "GET";
     url := (("https://" +:+ host ct +:+ ":" +:+ pretty (port ct) +:+ "/api2/json")
             +:+ "/nodes/" +:+ name) +:+ "/" +:+ "qemu";
     params := None; data := None;
     headers := match _auth ct with
                | Some a => apply a [("Accept", "application/json")]
                | None => [("Accept", "application/json")]
                end;
     verify := verify_ssl ct; timeout := 30; via := session ct |}.

(** ** [proxmox_mcp/agent/adapter.py] *)

Module Adapter.

(** [AdapterActionPlan] *)
Record AdapterActionPlan : Type := {
  action : string;
  parameters : pydict pyval;
  dry_run : bool;
  notes : option string;
  evidence : list string
}.

(** [{... , **m}]: the entries of [m] are stored in order over the
    entries already there. *)
Definition dict_update (d m : pydict pyval) : pydict pyval :=
  fold_left (fun acc kv => dict_set (fst kv) (snd kv) acc) m d.

(** [ProxmoxAgentAdapter.plan_vm_creation] *)
Definition plan_vm_creation (node_ : string) (vm_id : Z) (name : string)
    (cpu memory_mb disk_gb : Z) (dry_run_ : bool)
    (metadata : option (pydict pyval)) : AdapterActionPlan :=
  {| action := "create_vm";
     parameters :=
       dict_update
         [("node", PyStr node_); ("vmid", PyInt vm_id); ("name", PyStr name);
          ("cpu", PyInt cpu); ("memory_mb", PyInt memory_mb); ("disk_gb", PyInt disk_gb)]
         (match metadata with
          | Some (b :: m) => b :: m
          | _ => []
          end);
     dry_run := dry_run_;
     notes := Some "Plan generated by ProxmoxAgentAdapter";
     evidence := [] |}.

Inductive adapter_exn : Type :=
| RuntimeError (msg : string)
| NotImplementedError (msg : string).

(** [ProxmoxAgentAdapter.execute_plan] *)
Definition execute_plan (plan : AdapterActionPlan) : adapter_exn :=
  NotImplementedError
    ("Execution for action '" +:+ action plan
     +:+ "' is not implemented yet. Use plan objects for approvals/logging only.").

Section Connection.

(** The client is whatever the factory makes; [None] is Python's [None].
    The factory is called with the adapter's configuration, which never
    changes: what it does at its k-th call is the environment. *)
Variable Client : Type.
Variable Error : Type.

Inductive made : Type :=
| Made (c : option Client)
| Broke (e : Error).

Variable factory : nat -> made.

(** The adapter's [_api], and the number of calls of the factory so far. *)
Record adapter : Type := {
  _api : option Client;
  calls : nat
}.

(** [ProxmoxAgentAdapter.connect] *)
Definition connect (force : bool) (a : adapter) : adapter * made :=
  match _api a with
  | Some c =>
      if negb force then (a, Made (Some c))
      else
        match factory (calls a) with
        | Made r => ({| _api := r; calls := S (calls a) |}, Made r)
        | Broke e => ({| _api := _api a; calls := S (calls a) |}, Broke e)
        end
  | None =>
      match factory (calls a) with
      | Made r => ({| _api := r; calls := S (calls a) |}, Made r)
      | Broke e => ({| _api := _api a; calls := S (calls a) |}, Broke e)
      end
  end.

(** [ProxmoxAgentAdapter.api] *)
Definition api (a : adapter) : Client + adapter_exn :=
  match _api a with
  | None => inr (RuntimeError "Adapter is not connected. Call connect() first.")
  | Some c => inl c
  end.

End Connection.

End Adapter.

(** ** More of the small world: the builder [root.nodes] at address 4,
    a server for the ticket request, and a server for a cluster with one
    node and one machine. *)

Definition demo_nodes : attr :=
  {| acls := ClsAttrMethod; parent := 2%nat; method_name := "nodes" |}.

Definition demo_built : world :=
  {| heap := heap demo_world ++ [OAttr demo_nodes]; log := [] |}.

Definition demo_ticket : pyval :=
  PyDict [("data", PyDict [("ticket", PyStr "T"); ("CSRFPreventionToken", PyStr "C")])].

Definition demo_cluster (req : request) : reply :=
  if String.eqb (url req) "https://pve.local:8006/api2/json/nodes"
  then Answer {| status_code := 200;
                 json := Some (PyDict [("data", PyList [PyDict [("node", PyStr "pve1")]])]) |}
  else Answer {| status_code := 200;
                 json := Some (PyDict [("data", PyList [PyDict [("vmid", PyInt 100)]])]) |}.

Definition demo_files (path : string) : ProxmoxiaAgent.file :=
  if String.eqb path "with-token.json"
  then ProxmoxiaAgent.Json
         (PyDict [("auth", PyDict [("user", PyStr "api@pve"); ("token_value", PyStr "abc123")])])
  else if String.eqb path "with-variable.json"
  then ProxmoxiaAgent.Json
         (PyDict [("auth", PyDict [("user", PyStr "api@pve"); ("token_env_var", PyStr "PVE_TOKEN")])])
  else ProxmoxiaAgent.NoFile.

Definition demo_env (name : string) : option string :=
  if String.eqb name "PVE_TOKEN" then Some "s3cret" else None.

(** * Properties *)

Example quote_plain : quote "qemu" = "qemu".
Proof. reflexivity. Qed.

Example quote_space : quote "my node" = "my%20node".
Proof. reflexivity. Qed.

Example quote_slash : quote "a/b?c" = "a/b%3Fc".
Proof. reflexivity. Qed.

Example py_str_int : py_str (AInt 100) = "100".
Proof. reflexivity. Qed.

Example split_ex : split_on "/" "nodes/a/b" = ["nodes"; "a"; "b"].
Proof. reflexivity. Qed.

(** ** The heap under allocation *)

Lemma lookup_alloc_old (h : list obj) (o x : obj) (i : addr) :
  h !! i = Some x -> (h ++ [o]) !! i = Some x.
Proof. intros H. by apply lookup_app_l_Some. Qed.

Lemma lookup_alloc_new (h : list obj) (o : obj) :
  (h ++ [o]) !! length h = Some o.
Proof. by apply list_lookup_middle. Qed.

Lemma lookup_old_lt (h : list obj) (x : obj) (i : addr) :
  h !! i = Some x -> (i < length h)%nat.
Proof. intros H. by eapply lookup_lt_Some. Qed.

(** ** Steps of a chain, one equation each *)

Section Steps.

Variable net : request -> reply.

Lemma getattr_root (w : world) (r : addr) (t : transport) (key : string) :
  heap w !! r = Some (OTransport t) ->
  is_root t ->
  bound_name (transport_names (cls t)) key = false ->
  py_getattr (VObj r) key w =
    Some ({| heap := heap w ++ [OAttr {| acls := ClsAttrMethod; parent := r;
                                         method_name := key |}];
             log := log w |},
          Ret (VObj (length (heap w)))).
Proof.
  intros Hr Hc Hk. unfold py_getattr, bind, get_heap. rewrite Hr, Hk.
  by destruct Hc as [-> | ->].
Qed.

Lemma getattr_segment (w : world) (self : addr) (a : attr) (key : string) :
  heap w !! self = Some (OAttr a) ->
  bound_name attr_names key = false ->
  String.eqb (quote key) "post" = false ->
  String.eqb (quote key) "put" = false ->
  String.eqb (quote key) "delete" = false ->
  String.eqb (quote key) "get" = false ->
  py_getattr (VObj self) key w =
    Some ({| heap := heap w ++ [OAttr {| acls := ClsAttrMethod; parent := parent a;
                                         method_name := method_name a +:+ "/" +:+ quote key |}];
             log := log w |},
          Ret (VObj (length (heap w)))).
Proof.
  intros Hs Hk H1 H2 H3 H4.
  unfold py_getattr, AttrMethod___getattr__, bind, get_heap, get_attr.
  rewrite Hs, Hk. cbn [heap]. rewrite Hs, H1, H2, H3, H4. reflexivity.
Qed.

Lemma call_extend (w : world) (self : addr) (a : attr) (arg : pyarg)
    (args : list pyarg) (kwargs : pydict pyval) :
  heap w !! self = Some (OAttr a) ->
  AttrMethod___call__ net self (arg :: args) kwargs w =
    Some ({| heap := heap w ++ [OAttr {| acls := ClsAttrMethod; parent := parent a;
               method_name := join "/" (method_name a
                                :: map (fun x => quote (py_str x)) (arg :: args)) |}];
             log := log w |},
          Ret (VObj (length (heap w)))).
Proof.
  intros Hs. unfold AttrMethod___call__, bind, get_attr. rewrite Hs. reflexivity.
Qed.

Lemma py_call_building (w : world) (self : addr) (a : attr) (args : list pyarg)
    (kwargs : pydict pyval) :
  heap w !! self = Some (OAttr a) ->
  acls a = ClsAttrMethod ->
  dict_get "self" kwargs = None ->
  py_call net (VObj self) args kwargs w = AttrMethod___call__ net self args kwargs w.
Proof.
  intros Hs Hc Hk. unfold py_call, bind, get_heap. rewrite Hs, Hk, Hc. reflexivity.
Qed.

Lemma py_call_self_keyword (w : world) (self : addr) (a : attr) (args : list pyarg)
    (kwargs : pydict pyval) (x : pyval) :
  heap w !! self = Some (OAttr a) ->
  dict_get "self" kwargs = Some x ->
  py_call net (VObj self) args kwargs w = Some (w, Raise TypeError).
Proof.
  intros Hs Hk. unfold py_call, bind, get_heap. by rewrite Hs, Hk.
Qed.

Lemma request_eq (w : world) (self : addr) (t : transport)
    (method_ filter_path : string) (params_ : option (pydict pyval)) :
  heap w !! self = Some (OTransport t) ->
  ConnectorAPI__request net self method_ filter_path params_ w =
    let req := sent_request t method_ filter_path params_ in
    Some (logged w req,
          match net req with
          | NetworkFailure => Raise ProxmoxConnectionError
          | Answer r =>
              if raise_for_status r then
                if in_401_403 (status_code r) then Raise ProxmoxAuthError
                else Raise ProxmoxConnectionError
              else
                match json r with
                | None => Raise ProxmoxError
                | Some (PyDict payload) =>
                    Ret (match dict_get "data" payload with
                         | Some v => v
                         | None => PyNone
                         end)
                | Some _ => Raise AttributeError
                end
          end).
Proof.
  intros Hs. unfold ConnectorAPI__request, bind, get_transport, send.
  rewrite Hs. cbn [heap log]. fold (sent_request t method_ filter_path params_).
  unfold logged.
  destruct (net (sent_request t method_ filter_path params_)) as [|r]; [reflexivity|].
  destruct (raise_for_status r).
  - by destruct (in_401_403 (status_code r)).
  - by destruct (json r) as [[]|].
Qed.

Lemma transport_call_eq (w : world) (self : addr) (t : transport) (v : verb)
    (filter_path : string) (params_ : option (pydict pyval)) :
  heap w !! self = Some (OTransport t) ->
  transport_call net v self filter_path params_ w =
    let req := verb_request t v filter_path params_ in
    Some (logged w req,
          match net req with
          | NetworkFailure => Raise ProxmoxConnectionError
          | Answer r =>
              if raise_for_status r then
                if in_401_403 (status_code r) then Raise ProxmoxAuthError
                else Raise ProxmoxConnectionError
              else
                match json r with
                | None => Raise ProxmoxError
                | Some (PyDict payload) =>
                    Ret (match dict_get "data" payload with
                         | Some v => v
                         | None => PyNone
                         end)
                | Some _ => Raise AttributeError
                end
          end).
Proof.
  intros Hs.
  destruct v; cbn [transport_call verb_request];
    unfold ConnectorAPI_get, ConnectorAPI_post, ConnectorAPI_put, ConnectorAPI_delete;
    by rewrite (request_eq _ _ t).
Qed.

End Steps.

(** ** The chain [root.nodes("pve").qemu()] *)

Section Chains.

Variable net : request -> reply.

(** C1.  On every root (an instance of [Proxmox] or of [Node]) the chain
    [root.nodes("pve").qemu()] runs to the end of its last call and hands
    exactly one request to the session: a GET of the root's base URL
    followed by [/nodes/pve/qemu], with no query parameters and no body.
    The attribute steps and the call with a positional argument only add
    path builders to the heap. *)
Theorem C1_nodes_pve_qemu_one_get (w : world) (r : addr) (t : transport) :
  heap w !! r = Some (OTransport t) ->
  is_root t ->
  exists (w' : world) (res : result value) (req : request),
    run_chain net (VObj r)
      [SAttr "nodes"; SCall [AStr "pve"] []; SAttr "qemu"; SCall [] []] w
      = Some (w', res)
    /\ log w' = log w ++ [req]
    /\ method req = "GET"
    /\ url req = baseurl t +:+ "/" +:+ "nodes/pve/qemu"
    /\ params req = None
    /\ data req = None.
Proof.
  intros Hr Hroot.
  set (o1 := OAttr {| acls := ClsAttrMethod; parent := r; method_name := "nodes" |}).
  set (o2 := OAttr {| acls := ClsAttrMethod; parent := r; method_name := "nodes/pve" |}).
  set (o3 := OAttr {| acls := ClsAttrMethod; parent := r; method_name := "nodes/pve/qemu" |}).
  set (w1 := {| heap := heap w ++ [o1]; log := log w |}).
  set (w2 := {| heap := heap w1 ++ [o2]; log := log w |}).
  set (w3 := {| heap := heap w2 ++ [o3]; log := log w |}).
  assert (H1 : py_getattr (VObj r) "nodes" w = Some (w1, Ret (VObj (length (heap w))))).
  { apply (getattr_root w r t); [done | done |]. by destruct Hroot as [-> | ->]. }
  assert (H2 : py_call net (VObj (length (heap w))) [AStr "pve"] [] w1
               = Some (w2, Ret (VObj (length (heap w1))))).
  { rewrite (py_call_building net w1 _ _ _ [] (lookup_alloc_new (heap w) o1) eq_refl eq_refl).
    by rewrite (call_extend net w1 _ _ _ _ _ (lookup_alloc_new (heap w) o1)). }
  assert (H3 : py_getattr (VObj (length (heap w1))) "qemu" w2
               = Some (w3, Ret (VObj (length (heap w2))))).
  { by rewrite (getattr_segment w2 _ _ "qemu" (lookup_alloc_new (heap w1) o2)). }
  assert (Hr3 : heap w3 !! r = Some (OTransport t)).
  { cbn [heap w3 w2 w1]. by do 3 apply lookup_alloc_old. }
  assert (Ho3 : heap w3 !! length (heap w2) = Some o3) by apply lookup_alloc_new.
  assert (Hrun : exists res,
    run_chain net (VObj r)
      [SAttr "nodes"; SCall [AStr "pve"] []; SAttr "qemu"; SCall [] []] w
    = Some (logged w3 (sent_request t "GET" "nodes/pve/qemu" None), res)).
  { cbn [run_chain run_step]. unfold bind at 1. rewrite H1.
    unfold bind at 1. rewrite H2. unfold bind at 1. rewrite H3.
    unfold bind at 1.
    rewrite (py_call_building net w3 _ _ _ [] Ho3 eq_refl eq_refl).
    unfold AttrMethod___call__, bind, get_attr.
    rewrite Ho3. cbn [parent method_name o3 or_None].
    unfold ConnectorAPI_get. rewrite (request_eq net w3 r t _ _ _ Hr3).
    cbv zeta. unfold ret.
    destruct (match net _ with NetworkFailure => _ | Answer _ => _ end);
      eexists; reflexivity. }
  destruct Hrun as [res Hrun].
  exists (logged w3 (sent_request t "GET" "nodes/pve/qemu" None)), res,
    (sent_request t "GET" "nodes/pve/qemu" None).
  by repeat split.
Qed.

End Chains.

(** ** The transport: errors and the data envelope *)

Section Transport.

Variable net : request -> reply.

(** C2 (as amended).  For each of [get], [post], [put] and [delete] on a
    transport, the call hands one request to the session and then:
    a network-level failure raises [ProxmoxConnectionError]; a response
    with status 401 or 403 raises [ProxmoxAuthError]; a response with any
    other status from 400 to 599, the range for which [raise_for_status]
    reports an error, raises [ProxmoxConnectionError]; a response outside
    that range whose body is not JSON raises the base [ProxmoxError]. *)
Theorem C2_transport_error_classes (w : world) (self : addr) (t : transport)
    (v : verb) (filter_path : string) (params_ : option (pydict pyval)) :
  heap w !! self = Some (OTransport t) ->
  exists res : result pyval,
    transport_call net v self filter_path params_ w
      = Some (logged w (verb_request t v filter_path params_), res)
    /\ match net (verb_request t v filter_path params_) with
       | NetworkFailure => res = Raise ProxmoxConnectionError
       | Answer r =>
           (status_code r = 401 \/ status_code r = 403 ->
              res = Raise ProxmoxAuthError)
           /\ (400 <= status_code r < 600 ->
               status_code r <> 401 -> status_code r <> 403 ->
               res = Raise ProxmoxConnectionError)
           /\ (~ 400 <= status_code r < 600 -> json r = None ->
               res = Raise ProxmoxError)
       end.
Proof.
  intros Hs. eexists. split; [by apply transport_call_eq |].
  cbv zeta. destruct (net _) as [|r]; [reflexivity|].
  unfold raise_for_status, in_401_403.
  destruct (Z.leb_spec 400 (status_code r)), (Z.ltb_spec (status_code r) 600),
    (Z.eqb_spec (status_code r) 401), (Z.eqb_spec (status_code r) 403);
    cbn [andb orb]; repeat split; intros; try lia; try reflexivity;
    match goal with
    | H : json r = None |- _ => by rewrite H
    | _ => idtac
    end.
Qed.

(** C6.  For each of [get], [post], [put] and [delete]: when the response
    is not an HTTP error and its body is a JSON object, the call returns
    [None] if the object has no ["data"] key, and the value under
    ["data"] if it has one; it does not raise. *)
Theorem C6_data_or_None (w : world) (self : addr) (t : transport) (v : verb)
    (filter_path : string) (params_ : option (pydict pyval))
    (r : response) (payload : pydict pyval) :
  heap w !! self = Some (OTransport t) ->
  net (verb_request t v filter_path params_) = Answer r ->
  raise_for_status r = false ->
  json r = Some (PyDict payload) ->
  (dict_get "data" payload = None ->
     transport_call net v self filter_path params_ w
       = Some (logged w (verb_request t v filter_path params_), Ret PyNone))
  /\ (forall x : pyval, dict_get "data" payload = Some x ->
        transport_call net v self filter_path params_ w
          = Some (logged w (verb_request t v filter_path params_), Ret x)).
Proof.
  intros Hs Hnet Hok Hjson.
  rewrite (transport_call_eq net w self t v filter_path params_ Hs).
  cbv zeta. rewrite Hnet, Hok, Hjson.
  split; [intros -> | intros x ->]; reflexivity.
Qed.

End Transport.

(** C2, as the claim words it, fails: a response with status 600 is at
    least 400 and neither 401 nor 403, yet [raise_for_status] lets it
    through and the call returns the data instead of raising. *)
Lemma C2_status_600_returns_data :
  400 <= 600
  /\ exists (w' : world) (res : result pyval),
      transport_call (always 600 (Some (PyDict [("data", PyInt 1)]))) GET
        2%nat "version" None demo_world = Some (w', res)
      /\ res = Ret (PyInt 1)
      /\ res <> Raise ProxmoxConnectionError.
Proof.
  split; [lia |].
  exists (logged demo_world (verb_request demo_root GET "version" None)), (Ret (PyInt 1)).
  split; [reflexivity |]. split; [reflexivity | discriminate].
Qed.

Lemma C2_transport_error_classes_witness :
  exists res : result pyval,
    transport_call (always 500 None) POST 2%nat "nodes" None demo_world
      = Some (logged demo_world (verb_request demo_root POST "nodes" None), res)
    /\ res = Raise ProxmoxConnectionError.
Proof.
  destruct (C2_transport_error_classes (always 500 None) demo_world 2%nat demo_root
              POST "nodes" None eq_refl) as [res [Hrun Hcls]].
  exists res. split; [exact Hrun |].
  cbn in Hcls. apply Hcls; lia.
Defined.

Lemma C6_data_or_None_witness :
  transport_call (always 200 (Some (PyDict [("status", PyStr "ok")]))) GET
    2%nat "version" None demo_world
  = Some (logged demo_world (verb_request demo_root GET "version" None), Ret PyNone).
Proof.
  apply (proj1 (C6_data_or_None (always 200 (Some (PyDict [("status", PyStr "ok")])))
           demo_world 2%nat demo_root GET "version" None
           {| status_code := 200; json := Some (PyDict [("status", PyStr "ok")]) |}
           [("status", PyStr "ok")] eq_refl eq_refl eq_refl eq_refl)).
  reflexivity.
Defined.

(** ** Authentication *)

(** C3.  On a connector, [use_api_token] with a username that contains
    ["@"] returns normally, stores on the connector a token whose header
    is [PVEAPIToken=<username>!<token_name>=<token_value>], changes no
    other object and hands nothing to the session. *)
Theorem C3_use_api_token_header (w : world) (self : addr) (t : transport)
    (username token_name token_value : string) :
  heap w !! self = Some (OTransport t) ->
  cls t = ClsConnector ->
  contains_char "@" username = true ->
  exists (w' : world) (tok : ProxmoxAuthToken) (t' : transport),
    Connector_use_api_token self username token_name token_value w = Some (w', Ret tok)
    /\ token_header tok
       = Some ("PVEAPIToken=" +:+ username +:+ "!" +:+ token_name +:+ "=" +:+ token_value)
    /\ heap w' !! self = Some (OTransport t')
    /\ _auth t' = Some tok
    /\ (forall i : addr, i <> self -> heap w' !! i = heap w !! i)
    /\ log w' = log w.
Proof.
  intros Hs Hc Hat.
  unfold Connector_use_api_token, get_connector, bind, get_transport, put_transport, ret.
  rewrite Hs, Hc, Hat. cbn [negb heap log].
  eexists _, _, _. split; [reflexivity |]. cbn [token_header heap log].
  split; [reflexivity |].
  split; [apply list_lookup_insert_eq; by eapply lookup_old_lt |].
  split; [reflexivity |].
  split; [| reflexivity].
  intros i Hi. by apply list_lookup_insert_ne.
Qed.

Lemma C3_use_api_token_header_witness :
  exists (w' : world) (tok : ProxmoxAuthToken) (t' : transport),
    Connector_use_api_token 0%nat "api@pve" "demo" "abc123" demo_world = Some (w', Ret tok)
    /\ token_header tok = Some "PVEAPIToken=api@pve!demo=abc123"
    /\ heap w' !! 0%nat = Some (OTransport t')
    /\ _auth t' = Some tok
    /\ (forall i : addr, i <> 0%nat -> heap w' !! i = heap demo_world !! i)
    /\ log w' = log demo_world.
Proof.
  apply (C3_use_api_token_header demo_world 0%nat demo_connector "api@pve" "demo" "abc123");
    reflexivity.
Defined.

(** C5.  On a connector, [use_api_token] with a username that does not
    contain ["@"] raises [ProxmoxAuthError] and leaves the world as it
    was: the stored token, every other object and the log of requests. *)
Theorem C5_use_api_token_needs_realm (w : world) (self : addr) (t : transport)
    (username token_name token_value : string) :
  heap w !! self = Some (OTransport t) ->
  cls t = ClsConnector ->
  contains_char "@" username = false ->
  Connector_use_api_token self username token_name token_value w
    = Some (w, Raise ProxmoxAuthError).
Proof.
  intros Hs Hc Hat.
  unfold Connector_use_api_token, get_connector, bind, get_transport.
  by rewrite Hs, Hc, Hat.
Qed.

Lemma C5_use_api_token_needs_realm_witness :
  Connector_use_api_token 0%nat "api" "demo" "abc123" demo_world
    = Some (demo_world, Raise ProxmoxAuthError).
Proof.
  apply (C5_use_api_token_needs_realm demo_world 0%nat demo_connector "api" "demo" "abc123");
    reflexivity.
Defined.

Section Ticket.

Variable net : request -> reply.

(** C4 (as amended).  On a connector, [get_auth_token] posts one request
    to [access/ticket]; a response with any HTTP error status, 401 and 500
    alike, raises [ProxmoxAuthError], and a network-level failure raises
    [ProxmoxConnectionError].  In both cases the connector's stored token
    is unchanged. *)
Theorem C4_ticket_error_classes (w : world) (self : addr) (t : transport)
    (username password : string) :
  heap w !! self = Some (OTransport t) ->
  cls t = ClsConnector ->
  (forall r : response,
     net (ticket_request t username password) = Answer r ->
     400 <= status_code r < 600 ->
     Connector_get_auth_token net self username password w
       = Some (logged w (ticket_request t username password), Raise ProxmoxAuthError))
  /\ (net (ticket_request t username password) = NetworkFailure ->
      Connector_get_auth_token net self username password w
        = Some (logged w (ticket_request t username password),
                Raise ProxmoxConnectionError)).
Proof.
  intros Hs Hc.
  unfold Connector_get_auth_token, get_connector, bind, get_transport, send.
  rewrite Hs, Hc. unfold ret, raise. cbn [heap log]. cbv zeta.
  change (net _) with (net (ticket_request t username password)).
  unfold logged.
  split.
  - intros r -> Hst. unfold raise_for_status.
    destruct (Z.leb_spec 400 (status_code r)), (Z.ltb_spec (status_code r) 600);
      try lia. reflexivity.
  - by intros ->.
Qed.

End Ticket.

(** C4, as the claim words it, fails: a ticket request answered with
    status 500 raises [ProxmoxAuthError], not [ProxmoxConnectionError]. *)
Lemma C4_status_500_raises_auth_error :
  exists (w' : world) (res : result ProxmoxAuthToken),
    Connector_get_auth_token (always 500 None) 0%nat "root@pam" "secret" demo_world
      = Some (w', res)
    /\ res = Raise ProxmoxAuthError
    /\ res <> Raise ProxmoxConnectionError.
Proof.
  exists (logged demo_world (ticket_request demo_connector "root@pam" "secret")),
    (Raise ProxmoxAuthError).
  split; [reflexivity |]. split; [reflexivity | discriminate].
Qed.

Lemma C4_ticket_error_classes_witness :
  Connector_get_auth_token (always 401 None) 0%nat "root@pam" "secret" demo_world
    = Some (logged demo_world (ticket_request demo_connector "root@pam" "secret"),
            Raise ProxmoxAuthError)
  /\ Connector_get_auth_token (always 500 None) 0%nat "root@pam" "secret" demo_world
    = Some (logged demo_world (ticket_request demo_connector "root@pam" "secret"),
            Raise ProxmoxAuthError).
Proof.
  split.
  - apply (proj1 (C4_ticket_error_classes (always 401 None) demo_world 0%nat
                    demo_connector "root@pam" "secret" eq_refl eq_refl)
             {| status_code := 401; json := None |} eq_refl).
    simpl; lia.
  - apply (proj1 (C4_ticket_error_classes (always 500 None) demo_world 0%nat
                    demo_connector "root@pam" "secret" eq_refl eq_refl)
             {| status_code := 500; json := None |} eq_refl).
    simpl; lia.
Defined.

(** What the ticket request does with a body that is not JSON: the
    decoder's own error leaves [get_auth_token] as it is. *)
Example ticket_body_not_json :
  Connector_get_auth_token (always 200 None) 0%nat "root@pam" "secret" demo_world
    = Some (logged demo_world (ticket_request demo_connector "root@pam" "secret"),
            Raise JSONDecodeError).
Proof. reflexivity. Qed.

(** A ticket request that succeeds stores ticket and CSRF token. *)
Example ticket_granted :
  Connector_get_auth_token
    (always 200 (Some (PyDict [("data", PyDict [("ticket", PyStr "T");
                                                ("CSRFPreventionToken", PyStr "C")])])))
    0%nat "root@pam" "secret" demo_world
  = Some ({| heap := [OTransport (set_auth (Some {| ticket := Some "T"; csrf := Some "C";
                                                    token_header := None |}) demo_connector);
                      OSession; OTransport demo_root; OSession];
             log := [ticket_request demo_connector "root@pam" "secret"] |},
          Ret {| ticket := Some "T"; csrf := Some "C"; token_header := None |}).
Proof. reflexivity. Qed.

(** ** Path steps *)

Lemma split_on_nonempty (sep : ascii) (s : string) : split_on sep s <> [].
Proof.
  destruct s as [|a s]; cbn -[Ascii.eqb]; [discriminate |].
  destruct (Ascii.eqb a sep); [discriminate |].
  destruct (split_on sep s); discriminate.
Qed.

Lemma append_empty (s : string) : "" +:+ s = s.
Proof. reflexivity. Qed.

Lemma append_String (a : ascii) (s t : string) : String a s +:+ t = String a (s +:+ t).
Proof. reflexivity. Qed.

Lemma split_on_app (sep : ascii) (s t : string) :
  split_on sep (s +:+ String sep t) = split_on sep s ++ split_on sep t.
Proof.
  induction s as [|a s IH]; rewrite ?append_empty, ?append_String; cbn -[Ascii.eqb].
  - by rewrite Ascii.eqb_refl.
  - destruct (Ascii.eqb a sep); [by rewrite IH |].
    rewrite IH. destruct (split_on sep s) as [|p ps] eqn:E; [|reflexivity].
    by apply split_on_nonempty in E.
Qed.

Section Building.

Variable net : request -> reply.


(** C9 (as amended).  Calling a building value (an [AttrMethod] proper)
    with at least one positional argument and keyword arguments none of
    which is named [self] raises nothing and sends nothing: it returns a
    new [AttrMethod] whose path is the old one extended by the quoted
    positional arguments, exactly as the same call without the keyword
    arguments does.  A keyword argument named [self] makes the call raise
    [TypeError], with nothing built and nothing sent. *)
Theorem C9_positional_call_ignores_keywords (w : world) (self : addr) (a : attr)
    (arg : pyarg) (args : list pyarg) (kwargs : pydict pyval) :
  heap w !! self = Some (OAttr a) ->
  acls a = ClsAttrMethod ->
  (dict_get "self" kwargs = None ->
   py_call net (VObj self) (arg :: args) kwargs w
     = Some ({| heap := heap w ++ [OAttr {| acls := ClsAttrMethod; parent := parent a;
                  method_name := join "/" (method_name a
                                   :: map (fun x => quote (py_str x)) (arg :: args)) |}];
                log := log w |},
             Ret (VObj (length (heap w))))
   /\ py_call net (VObj self) (arg :: args) kwargs w
      = py_call net (VObj self) (arg :: args) [] w)
  /\ (forall x : pyval, dict_get "self" kwargs = Some x ->
      py_call net (VObj self) (arg :: args) kwargs w = Some (w, Raise TypeError)).
Proof.
  intros Hs Hc. split.
  - intros Hk.
    rewrite (py_call_building net w self a _ kwargs Hs Hc Hk).
    rewrite (py_call_building net w self a _ [] Hs Hc eq_refl).
    by rewrite !(call_extend net w self a arg args _ Hs).
  - intros x Hk. by apply (py_call_self_keyword net w self a _ kwargs x).
Qed.

(** C10.  The argument ["a/b"] is a witness: calling a building value
    with it extends the path by ["/a/b"], the slash kept as it is, so
    that the path gains two segments where one argument was given. *)
Theorem C10_slash_argument_adds_two_segments (w : world) (self : addr) (a : attr) :
  heap w !! self = Some (OAttr a) ->
  acls a = ClsAttrMethod ->
  quote "a/b" = "a/b"
  /\ exists (w' : world) (r : addr) (a' : attr),
      py_call net (VObj self) [AStr "a/b"] [] w = Some (w', Ret (VObj r))
      /\ heap w' !! r = Some (OAttr a')
      /\ acls a' = ClsAttrMethod
      /\ method_name a' = method_name a +:+ "/a/b"
      /\ split_on "/" (method_name a') = split_on "/" (method_name a) ++ ["a"; "b"].
Proof.
  intros Hs Hc. split; [reflexivity |].
  eexists _, _, _. split.
  { rewrite (py_call_building net w self a _ [] Hs Hc eq_refl).
    apply (call_extend net w self a (AStr "a/b") [] [] Hs). }
  cbn [heap]. split; [apply lookup_alloc_new |].
  split; [reflexivity |].
  cbn [method_name map join py_str]. change (quote "a/b") with "a/b".
  split; [reflexivity |].
  apply (split_on_app "/" (method_name a) "a/b").
Qed.



End Building.
(** ** The generic view *)

Lemma bind_get_heap {A : Type} (k : list obj -> M A) (w : world) :
  bind get_heap k w = k (heap w) w.
Proof. reflexivity. Qed.

Lemma lookup_generic_view (w : world) (i : addr) :
  heap (generic_view w) !! i = as_generic <$> heap w !! i.
Proof. apply list_lookup_fmap. Qed.

Lemma sent_request_generic (t : transport) (method_ filter_path : string)
    (params_ : option (pydict pyval)) :
  sent_request (generic_transport t) method_ filter_path params_
  = sent_request t method_ filter_path params_.
Proof. unfold generic_transport. by destruct (cls t). Qed.

(** ** Running the same way on the generic view *)

Lemma same_bind {A B : Type} (m : M A) (k : A -> M B) (w : world) :
  same_on_view m w ->
  (forall (a : A) (w1 : world), m w = Some (w1, Ret a) -> same_on_view (k a) w1) ->
  same_on_view (bind m k) w.
Proof.
  unfold same_on_view, bind. intros Hm Hk. rewrite Hm.
  destruct (m w) as [[w1 [a|e]]|] eqn:E; cbn [viewed]; [| reflexivity | reflexivity].
  by apply Hk.
Qed.

Lemma same_get_attr (a : addr) (w : world) : same_on_view (get_attr a) w.
Proof.
  unfold same_on_view, get_attr. rewrite lookup_generic_view.
  by destruct (heap w !! a) as [[|t|x]|].
Qed.

Lemma same_alloc_attr (x : attr) (w : world) : same_on_view (alloc (OAttr x)) w.
Proof.
  unfold same_on_view, alloc, viewed, generic_view. cbn [heap log].
  by rewrite fmap_app, length_fmap.
Qed.

Lemma node_name_only_on_Node (key : string) :
  String.eqb key "node" = false ->
  bound_name (transport_names ClsNode) key = bound_name (transport_names ClsProxmox) key.
Proof.
  intros Hk. unfold bound_name, transport_names. rewrite !existsb_app.
  cbn [existsb]. rewrite Hk. by rewrite !orb_false_r.
Qed.

Lemma same_alloc_value (x : attr) (w : world) :
  same_on_view (let! r := alloc (OAttr x) in ret (VObj r)) w.
Proof.
  apply same_bind; [apply same_alloc_attr |]. by intros.
Qed.

Lemma same_AttrMethod___getattr__ (a : addr) (key : string) (w : world) :
  same_on_view (AttrMethod___getattr__ a key) w.
Proof.
  unfold AttrMethod___getattr__. apply same_bind; [apply same_get_attr |].
  intros y w1 _.
  repeat match goal with
         | |- same_on_view (if ?b then _ else _) _ => destruct b
         end; apply same_alloc_attr.
Qed.

(** Reading an attribute runs the same way on the view, unless the
    attribute is [node] and the receiver is a root: a [Node] holds that
    name, a [Proxmox] instance does not. *)
Lemma same_getattr (v : value) (key : string) (w : world) :
  String.eqb key "node" = false \/ builder_or_data v w ->
  same_on_view (py_getattr v key) w.
Proof.
  intros Hside. destruct v as [a|d]; [| reflexivity].
  unfold same_on_view, py_getattr. rewrite !bind_get_heap, lookup_generic_view.
  destruct (heap w !! a) as [[|t|x]|] eqn:E; cbn [fmap option_fmap option_map as_generic];
    try reflexivity.
  - assert (Hk : String.eqb key "node" = false).
    { destruct Hside as [Hk | [x Hx]]; [exact Hk |]. cbn in Hx. congruence. }
    unfold generic_transport.
    destruct (cls t) eqn:Hc; cbn [cls]; rewrite ?Hc;
      rewrite ?(node_name_only_on_Node key Hk);
      (destruct (bound_name _ key); [reflexivity |]); try reflexivity;
      (apply (same_bind (Proxmox___getattr__ a key)); [apply same_alloc_attr | by intros]).
  - destruct (bound_name attr_names key); [reflexivity |].
    apply (same_bind (AttrMethod___getattr__ a key));
      [apply same_AttrMethod___getattr__ | by intros].
Qed.

Section SameOnView.

Variable net : request -> reply.

Lemma same_request (self : addr) (method_ filter_path : string)
    (params_ : option (pydict pyval)) (w : world) :
  same_on_view (ConnectorAPI__request net self method_ filter_path params_) w.
Proof.
  unfold same_on_view.
  destruct (heap w !! self) as [[|t|x]|] eqn:E.
  - unfold ConnectorAPI__request, bind, get_transport.
    by rewrite lookup_generic_view, E.
  - assert (E' : heap (generic_view w) !! self = Some (OTransport (generic_transport t))).
    { by rewrite lookup_generic_view, E. }
    rewrite (request_eq net _ self _ _ _ _ E'), sent_request_generic.
    by rewrite (request_eq net w self t _ _ _ E).
  - unfold ConnectorAPI__request, bind, get_transport.
    by rewrite lookup_generic_view, E.
  - unfold ConnectorAPI__request, bind, get_transport.
    by rewrite lookup_generic_view, E.
Qed.

Lemma same_verb_call (m : addr -> string -> option (pydict pyval) -> M pyval)
    (self : addr) (kwargs : pydict pyval) (w : world) :
  (forall p f a w1, same_on_view (m p f a) w1) ->
  same_on_view (let! a := get_attr self in
                let! d := m (parent a) (method_name a) (or_None kwargs) in
                ret (VData d)) w.
Proof.
  intros Hm. apply same_bind; [apply same_get_attr |].
  intros a w1 _. apply same_bind; [apply Hm | by intros].
Qed.

Lemma same_call (v : value) (args : list pyarg) (kwargs : pydict pyval) (w : world) :
  same_on_view (py_call net v args kwargs) w.
Proof.
  destruct v as [a|d]; [| reflexivity].
  unfold same_on_view, py_call. rewrite !bind_get_heap, lookup_generic_view.
  destruct (heap w !! a) as [[|t|x]|] eqn:E; cbn [fmap option_fmap option_map as_generic];
    try reflexivity.
  destruct (dict_get "self" kwargs); [reflexivity |].
  destruct (acls x), args as [|arg args]; try reflexivity;
    try (apply same_verb_call; intros; apply same_request).
  unfold AttrMethod___call__.
  apply same_bind; [apply same_get_attr |]. intros y w1 _. apply same_alloc_value.
Qed.

(** What a step returns is a builder it has just made, or data. *)
Lemma step_returns_builder (v v' : value) (s : step) (w w' : world) :
  run_step net v s w = Some (w', Ret v') -> builder_or_data v' w'.
Proof.
  intros Hrun. destruct v as [a|d]; [| by destruct s].
  destruct s as [key | args kwargs]; cbn [run_step] in Hrun.
  - unfold py_getattr, bind, get_heap in Hrun.
    destruct (heap w !! a) as [[|t|x]|] eqn:Ha; try discriminate.
    + destruct (bound_name _ key); [discriminate |].
      destruct (cls t); cbn in Hrun; try discriminate;
        injection Hrun as <- <-; eexists; apply lookup_alloc_new.
    + destruct (bound_name _ key); [discriminate |].
      unfold AttrMethod___getattr__, bind, get_attr in Hrun. rewrite Ha in Hrun.
      repeat match type of Hrun with
             | context [if ?b then _ else _] => destruct b
             end; cbn in Hrun; injection Hrun as <- <-; eexists; apply lookup_alloc_new.
  - unfold py_call, bind, get_heap in Hrun.
    destruct (heap w !! a) as [[|t|x]|] eqn:Ha; try discriminate.
    destruct (dict_get "self" kwargs); [discriminate |].
    destruct (acls x), args as [|arg args]; try discriminate;
      try (unfold AttrGetMethod___call__, AttrPostMethod___call__, AttrPutMethod___call__,
             AttrDeleteMethod___call__, AttrMethod___call__, bind, get_attr in Hrun;
           rewrite Ha in Hrun;
           match type of Hrun with
           | context [match ?m with _ => _ end] =>
               destruct m as [[w1 [d|e]]|]; try discriminate
           end;
           injection Hrun as <- <-; exact I).
    rewrite (call_extend net w a x arg args kwargs Ha) in Hrun.
    injection Hrun as <- <-. eexists. apply lookup_alloc_new.
Qed.

Lemma same_step (v : value) (s : step) (w : world) :
  starts_with_node [s] = false \/ builder_or_data v w ->
  same_on_view (run_step net v s) w.
Proof.
  intros Hside. destruct s as [key | args kwargs]; cbn [run_step].
  - apply same_getattr. by destruct Hside as [Hk | Hb]; [left | right].
  - apply same_call.
Qed.

Lemma same_chain_builder (steps : list step) (v : value) (w : world) :
  builder_or_data v w -> same_on_view (run_chain net v steps) w.
Proof.
  revert v w. induction steps as [|s steps IH]; intros v w Hv; [reflexivity |].
  cbn [run_chain]. apply same_bind; [apply same_step; by right |].
  intros v1 w1 Hrun. apply IH. by apply (step_returns_builder v v1 s w w1).
Qed.

(** Every chain that does not begin by reading [.node] runs the same way
    on the view, from any value. *)
Lemma same_chain (steps : list step) (v : value) (w : world) :
  starts_with_node steps = false -> same_on_view (run_chain net v steps) w.
Proof.
  destruct steps as [|s steps]; [reflexivity |]. intros Hs.
  cbn [run_chain]. apply same_bind.
  - apply same_step. left. by destruct s.
  - intros v1 w1 Hrun. apply same_chain_builder.
    by apply (step_returns_builder v v1 s w w1).
Qed.

End SameOnView.

(** ** [Proxmox(conn)] and [Node(conn, node)] *)

Lemma insert_new_pair (h : list obj) (o x s : obj) :
  <[length h := x]> ((h ++ [o]) ++ [s]) = (h ++ [x]) ++ [s].
Proof.
  rewrite insert_app_l by (rewrite length_app; cbn [length]; lia).
  rewrite (insert_app_r_alt h [o] (length h) x) by lia.
  by rewrite Nat.sub_diag.
Qed.

Lemma lookup_new_pair (h : list obj) (o s : obj) :
  ((h ++ [o]) ++ [s]) !! length h = Some o.
Proof. apply lookup_alloc_old, lookup_alloc_new. Qed.

Lemma lookup_pair_other (h : list obj) (x y s : obj) (i : addr) :
  i <> length h -> ((h ++ [x]) ++ [s]) !! i = ((h ++ [y]) ++ [s]) !! i.
Proof.
  intros Hi. rewrite <- !app_assoc.
  destruct (Nat.lt_ge_cases i (length h)) as [Hlt | Hge].
  - by rewrite !lookup_app_l by done.
  - rewrite (lookup_app_r h ([x] ++ [s])), (lookup_app_r h ([y] ++ [s])) by done.
    destruct (i - length h)%nat eqn:E; [lia | reflexivity].
Qed.

Lemma Proxmox___init___eq (c : transport_class) (w : world) (conn_ : addr)
    (ct : transport) :
  heap w !! conn_ = Some (OTransport ct) ->
  Proxmox___init__ c conn_ w
    = Some ({| heap := (heap w
                 ++ [OTransport
                       {| cls := c; host := host ct; port := port ct;
                          verify_ssl := verify_ssl ct;
                          baseurl := "https://" +:+ host ct +:+ ":" +:+ pretty (port ct)
                                     +:+ "/api2/json";
                          session := session ct; _auth := _auth ct;
                          conn := Some conn_; node := None |}])
                 ++ [OSession];
               log := log w |},
            Ret (length (heap w))).
Proof.
  intros Hc.
  unfold Proxmox___init__, ConnectorAPI___init__, bind, get_transport, get_heap, alloc,
    put_transport, ret.
  rewrite Hc. cbn [heap log]. rewrite lookup_new_pair. cbn [heap log].
  rewrite insert_new_pair. reflexivity.
Qed.

Lemma Node_eq (w : world) (conn_ : addr) (ct : transport) (node_ : string) :
  heap w !! conn_ = Some (OTransport ct) ->
  Node conn_ node_ w
    = Some ({| heap := (heap w
                 ++ [OTransport
                       {| cls := ClsNode; host := host ct; port := port ct;
                          verify_ssl := verify_ssl ct;
                          baseurl := ("https://" +:+ host ct +:+ ":" +:+ pretty (port ct)
                                      +:+ "/api2/json") +:+ "/nodes/" +:+ node_;
                          session := session ct; _auth := _auth ct;
                          conn := Some conn_; node := Some node_ |}])
                 ++ [OSession];
               log := log w |},
            Ret (length (heap w))).
Proof.
  intros Hc. unfold Node. unfold bind at 1.
  rewrite (Proxmox___init___eq ClsNode w conn_ ct Hc).
  unfold bind, get_transport, put_transport, ret. cbn [heap log].
  rewrite lookup_new_pair. cbn [heap log cls host port verify_ssl baseurl session _auth conn].
  rewrite insert_new_pair. reflexivity.
Qed.

Section NodeRoot.

Variable net : request -> reply.

(** C8 (as amended).  [Node(conn, node)] allocates, at the address where
    [Proxmox(conn)] would allocate the generic root, a root with the same
    fields except that it holds the node identifier under the name [node]
    and that its base URL is the generic one followed by [/nodes/] and the
    node identifier as given; that is the percent-encoded segment exactly
    when [quote] leaves the identifier unchanged.  Seen as a [Proxmox]
    instance it is the generic root with that base URL.  Every chain of
    steps that does not begin by reading [.node] runs on it exactly as on
    that generic root: the same result or exception, the same requests,
    the same objects, and a run on one exactly when there is a run on the
    other.  Reading [.node] is the one difference: on the [Node] it gives
    the stored identifier, on the generic root it starts the path
    [node]. *)
Theorem C8_node_root_extends_base (w : world) (c : addr) (ct : transport)
    (node_ : string) :
  heap w !! c = Some (OTransport ct) ->
  exists (wn wp : world) (n : addr) (tn tp : transport),
    Node c node_ w = Some (wn, Ret n)
    /\ Proxmox c w = Some (wp, Ret n)
    /\ heap wn !! n = Some (OTransport tn)
    /\ heap wp !! n = Some (OTransport tp)
    /\ baseurl tn = baseurl tp +:+ "/nodes/" +:+ node_
    /\ (baseurl tn = baseurl tp +:+ "/nodes/" +:+ quote node_ <-> quote node_ = node_)
    /\ generic_transport tn = set_baseurl (baseurl tp +:+ "/nodes/" +:+ node_) tp
    /\ (forall i : addr, i <> n -> heap wn !! i = heap wp !! i)
    /\ log wn = log wp
    /\ heap (generic_view wn)
       = <[n := OTransport (set_baseurl (baseurl tp +:+ "/nodes/" +:+ node_) tp)]>
           (heap (generic_view wp))
    /\ (forall steps : list step,
          starts_with_node steps = false ->
          run_chain net (VObj n) steps (generic_view wn)
          = viewed (run_chain net (VObj n) steps wn))
    /\ Node_node n wn = Some (wn, Ret (VData (PyStr node_)))
    /\ py_getattr (VObj n) "node" (generic_view wn)
       = Some ({| heap := heap (generic_view wn)
                    ++ [OAttr {| acls := ClsAttrMethod; parent := n;
                                 method_name := "node" |}];
                  log := log wn |},
               Ret (VObj (length (heap wn)))).
Proof.
  intros Hc. eexists _, _, _, _, _.
  split; [apply (Node_eq w c ct node_ Hc) |].
  split; [apply (Proxmox___init___eq ClsProxmox w c ct Hc) |].
  cbn [heap log].
  split; [apply lookup_new_pair |].
  split; [apply lookup_new_pair |].
  cbn [baseurl].
  split; [reflexivity |].
  split.
  { split; [| by intros ->].
    intros H. symmetry. by do 2 apply String.app_inj in H. }
  split; [reflexivity |].
  split; [intros i Hi; by apply lookup_pair_other |].
  split; [reflexivity |].
  split.
  { unfold generic_view. cbn [heap]. rewrite !fmap_app. cbn [fmap list_fmap as_generic].
    replace (length (heap w)) with (length (as_generic <$> heap w))
      by apply length_fmap.
    by rewrite insert_new_pair. }
  split; [intros steps Hsteps; by apply same_chain |].
  split.
  { unfold Node_node, bind, get_transport. cbn [heap]. by rewrite lookup_new_pair. }
  match goal with
  | |- py_getattr _ _ (generic_view ?wn) = _ =>
      assert (Hn : heap (generic_view wn) !! length (heap w)
                   = Some (OTransport
                             (generic_transport
                                {| cls := ClsNode; host := host ct; port := port ct;
                                   verify_ssl := verify_ssl ct;
                                   baseurl := ("https://" +:+ host ct +:+ ":"
                                               +:+ pretty (port ct) +:+ "/api2/json")
                                              +:+ "/nodes/" +:+ node_;
                                   session := session ct; _auth := _auth ct;
                                   conn := Some c; node := Some node_ |})))
        by (rewrite lookup_generic_view; cbn [heap]; by rewrite lookup_new_pair);
      rewrite (getattr_root (generic_view wn) _ _ "node" Hn (or_introl eq_refl) eq_refl)
  end.
  cbn [generic_view heap log]. by rewrite length_fmap.
Qed.

End NodeRoot.

(** C8, as the claim words it, fails: the identifier ["my node"] goes
    into the base URL as it is, where its percent-encoded form is
    ["my%20node"]. *)
Lemma C8_node_segment_not_encoded :
  exists (wn : world) (n : addr) (tn : transport),
    Node 0%nat "my node" demo_world = Some (wn, Ret n)
    /\ heap wn !! n = Some (OTransport tn)
    /\ baseurl tn = "https://pve.local:8006/api2/json/nodes/my node"
    /\ baseurl tn <> "https://pve.local:8006/api2/json" +:+ "/nodes/" +:+ quote "my node".
Proof.
  eexists _, _, _.
  split; [apply (Node_eq demo_world 0%nat demo_connector "my node" eq_refl) |].
  split; [apply lookup_new_pair |].
  split; [reflexivity | discriminate].
Qed.

(** [Node(conn, "pve1").qemu()], the call the agent script makes. *)
Example node_qemu_request :
  (let! n := Node 0%nat "pve1" in
   run_chain (always 200 (Some (PyDict [("data", PyList [])]))) (VObj n)
     [SAttr "qemu"; SCall [] []]) demo_world
  = Some ({| heap := heap demo_world
               ++ [OTransport
                     {| cls := ClsNode; host := "pve.local"; port := 8006;
                        verify_ssl := true;
                        baseurl := "https://pve.local:8006/api2/json/nodes/pve1";
                        session := 1%nat; _auth := None; conn := Some 0%nat;
                        node := Some "pve1" |};
                   OSession;
                   OAttr {| acls := ClsAttrMethod; parent := 4%nat; method_name := "qemu" |}];
             log := [{| method := "GET";
                        url := "https://pve.local:8006/api2/json/nodes/pve1/qemu";
                        params := None; data := None;
                        headers := [("Accept", "application/json")];
                        verify := true; timeout := 30; via := 1%nat |}] |},
          Ret (VData (PyList []))).
Proof. reflexivity. Qed.

Lemma C8_node_root_extends_base_witness :
  exists (wn wp : world) (n : addr) (tn tp : transport),
    Node 0%nat "pve1" demo_world = Some (wn, Ret n)
    /\ Proxmox 0%nat demo_world = Some (wp, Ret n)
    /\ heap wn !! n = Some (OTransport tn)
    /\ heap wp !! n = Some (OTransport tp)
    /\ baseurl tn = baseurl tp +:+ "/nodes/" +:+ "pve1"
    /\ (baseurl tn = baseurl tp +:+ "/nodes/" +:+ quote "pve1" <-> quote "pve1" = "pve1")
    /\ generic_transport tn = set_baseurl (baseurl tp +:+ "/nodes/" +:+ "pve1") tp
    /\ (forall i : addr, i <> n -> heap wn !! i = heap wp !! i)
    /\ log wn = log wp
    /\ heap (generic_view wn)
       = <[n := OTransport (set_baseurl (baseurl tp +:+ "/nodes/" +:+ "pve1") tp)]>
           (heap (generic_view wp))
    /\ (forall steps : list step,
          starts_with_node steps = false ->
          run_chain (always 200 None) (VObj n) steps (generic_view wn)
          = viewed (run_chain (always 200 None) (VObj n) steps wn))
    /\ Node_node n wn = Some (wn, Ret (VData (PyStr "pve1")))
    /\ py_getattr (VObj n) "node" (generic_view wn)
       = Some ({| heap := heap (generic_view wn)
                    ++ [OAttr {| acls := ClsAttrMethod; parent := n;
                                 method_name := "node" |}];
                  log := log wn |},
               Ret (VObj (length (heap wn)))).
Proof.
  apply (C8_node_root_extends_base (always 200 None) demo_world 0%nat demo_connector "pve1").
  reflexivity.
Defined.

Lemma C1_nodes_pve_qemu_one_get_witness :
  exists (w' : world) (res : result value) (req : request),
    run_chain (always 200 (Some (PyDict [("data", PyList [])]))) (VObj 2%nat)
      [SAttr "nodes"; SCall [AStr "pve"] []; SAttr "qemu"; SCall [] []] demo_world
      = Some (w', res)
    /\ log w' = log demo_world ++ [req]
    /\ method req = "GET"
    /\ url req = baseurl demo_root +:+ "/" +:+ "nodes/pve/qemu"
    /\ params req = None
    /\ data req = None.
Proof.
  apply (C1_nodes_pve_qemu_one_get (always 200 (Some (PyDict [("data", PyList [])])))
           demo_world 2%nat demo_root).
  - reflexivity.
  - left. reflexivity.
Defined.


(** A building value to call: the world after [root.nodes], with the new
    [AttrMethod] at address 4. *)
Lemma C9_positional_call_ignores_keywords_witness :
  py_call (always 200 None) (VObj 4%nat) [AStr "pve"; AInt 100] [("full", PyBool true)]
    {| heap := heap demo_world
               ++ [OAttr {| acls := ClsAttrMethod; parent := 2%nat; method_name := "nodes" |}];
       log := [] |}
  = Some ({| heap := (heap demo_world
                      ++ [OAttr {| acls := ClsAttrMethod; parent := 2%nat;
                                   method_name := "nodes" |}])
                      ++ [OAttr {| acls := ClsAttrMethod; parent := 2%nat;
                                   method_name := "nodes/pve/100" |}];
             log := [] |},
          Ret (VObj 5%nat)).
Proof.
  apply (proj1 (proj1 (C9_positional_call_ignores_keywords (always 200 None)
    {| heap := heap demo_world
               ++ [OAttr {| acls := ClsAttrMethod; parent := 2%nat; method_name := "nodes" |}];
       log := [] |}
    4%nat {| acls := ClsAttrMethod; parent := 2%nat; method_name := "nodes" |}
    (AStr "pve") [AInt 100] [("full", PyBool true)] eq_refl eq_refl) eq_refl)).
Defined.

(** C9, as the claim words it, fails: with a keyword argument named
    [self] beside the positional argument, the call raises [TypeError]
    and the path is not extended. *)
Lemma C9_keyword_self_raises :
  exists (w' : world) (res : result value),
    py_call (always 200 None) (VObj 4%nat) [AStr "pve"] [("self", PyInt 1)]
      {| heap := heap demo_world
                 ++ [OAttr {| acls := ClsAttrMethod; parent := 2%nat;
                              method_name := "nodes" |}];
         log := [] |}
    = Some (w', res)
    /\ res = Raise TypeError
    /\ heap w' = heap demo_world
                 ++ [OAttr {| acls := ClsAttrMethod; parent := 2%nat;
                              method_name := "nodes" |}]
    /\ forall a : addr, res <> Ret (VObj a).
Proof.
  eexists _, _. split; [reflexivity |]. split; [reflexivity |].
  split; [reflexivity | discriminate].
Qed.

Lemma C10_slash_argument_adds_two_segments_witness :
  exists (w' : world) (r : addr) (a' : attr),
    py_call (always 200 None) (VObj 4%nat) [AStr "a/b"] []
      {| heap := heap demo_world
                 ++ [OAttr {| acls := ClsAttrMethod; parent := 2%nat; method_name := "nodes" |}];
         log := [] |}
      = Some (w', Ret (VObj r))
    /\ heap w' !! r = Some (OAttr a')
    /\ acls a' = ClsAttrMethod
    /\ method_name a' = "nodes/a/b"
    /\ split_on "/" (method_name a') = ["nodes"; "a"; "b"].
Proof.
  apply (proj2 (C10_slash_argument_adds_two_segments (always 200 None)
    {| heap := heap demo_world
               ++ [OAttr {| acls := ClsAttrMethod; parent := 2%nat; method_name := "nodes" |}];
       log := [] |}
    4%nat {| acls := ClsAttrMethod; parent := 2%nat; method_name := "nodes" |}
    eq_refl eq_refl)).
Defined.

(** * Further properties of the client *)

(** ** Dictionaries *)

Lemma dict_get_set_eq {V : Type} (k : string) (v : V) (d : pydict V) :
  dict_get k (dict_set k v d) = Some v.
Proof.
  induction d as [|[k' v'] d IH]; cbn.
  - by rewrite String.eqb_refl.
  - destruct (String.eqb k k') eqn:E; cbn; [by rewrite String.eqb_refl | by rewrite E].
Qed.

Lemma dict_get_set_ne {V : Type} (k k' : string) (v : V) (d : pydict V) :
  k <> k' -> dict_get k' (dict_set k v d) = dict_get k' d.
Proof.
  intros Hne. induction d as [|[k0 v0] d IH]; cbn.
  - destruct (String.eqb_spec k' k); [congruence | reflexivity].
  - destruct (String.eqb_spec k k0) as [-> | Hk]; cbn.
    + destruct (String.eqb_spec k' k0); [congruence | reflexivity].
    + by rewrite IH.
Qed.

(** ** [ProxmoxAuthToken.apply] *)

(** X1.  After [apply], each of the three authentication headers holds
    the value built from the corresponding token field when that field is
    a non-empty string, and is what it was before when the field is
    [None] or empty. *)
Theorem apply_header_values (tok : ProxmoxAuthToken) (hs : pydict string) :
  dict_get "Authorization" (apply tok hs)
    = (if truthy_ostr (token_header tok) then token_header tok
       else dict_get "Authorization" hs)
  /\ dict_get "Cookie" (apply tok hs)
    = (if truthy_ostr (ticket tok)
       then option_map (fun t => "PVEAuthCookie=" +:+ t) (ticket tok)
       else dict_get "Cookie" hs)
  /\ dict_get "CSRFPreventionToken" (apply tok hs)
    = (if truthy_ostr (csrf tok) then csrf tok
       else dict_get "CSRFPreventionToken" hs).
Proof.
  destruct tok as [[t|] [c|] [h|]]; unfold apply;
    cbn [ticket csrf token_header option_map truthy_ostr];
    repeat match goal with
           | |- context [String.eqb ?x ""] => destruct (String.eqb x "")
           end;
    cbn [negb]; repeat split;
    rewrite ?dict_get_set_eq, ?dict_get_set_ne by done;
    rewrite ?dict_get_set_eq, ?dict_get_set_ne by done;
    rewrite ?dict_get_set_eq, ?dict_get_set_ne by done;
    reflexivity.
Qed.

(** X2.  [apply] touches no header other than [Authorization], [Cookie]
    and [CSRFPreventionToken]: every other name, [Accept] among them, is
    bound after the call to what it was bound before. *)
Theorem apply_keeps_other_headers (tok : ProxmoxAuthToken) (hs : pydict string)
    (k : string) :
  k <> "Authorization" -> k <> "Cookie" -> k <> "CSRFPreventionToken" ->
  dict_get k (apply tok hs) = dict_get k hs.
Proof.
  intros H1 H2 H3.
  destruct tok as [[t|] [c|] [h|]]; unfold apply;
    cbn [ticket csrf token_header truthy_ostr];
    repeat match goal with
           | |- context [String.eqb ?x ""] => destruct (String.eqb x "")
           end;
    cbn [negb]; rewrite ?dict_get_set_ne by done; reflexivity.
Qed.

Lemma apply_keeps_other_headers_witness :
  dict_get "Accept"
    (apply {| ticket := Some "T"; csrf := Some "C"; token_header := None |}
       [("Accept", "application/json")])
  = dict_get "Accept" [("Accept", "application/json")].
Proof.
  apply (apply_keeps_other_headers
           {| ticket := Some "T"; csrf := Some "C"; token_header := None |}
           [("Accept", "application/json")] "Accept"); discriminate.
Defined.

(** ** [quote] *)

Lemma quote_cons (a : ascii) (s : string) :
  quote (String a s)
  = if unescaped a then String a (quote s)
    else String "%" (String (hex_digit (nat_of_ascii a / 16))
                       (String (hex_digit (nat_of_ascii a mod 16)) (quote s))).
Proof.
  unfold quote. cbn [quote_from]. unfold quote_byte, unescaped.
  by destruct (always_safe a || str_mem a "/").
Qed.

Lemma hex_digit_safe (n : nat) : always_safe (hex_digit n) = true.
Proof. do 16 (destruct n as [|n]; [reflexivity |]). reflexivity. Qed.

Lemma hex_digit_inj (n m : nat) :
  (n < 16)%nat -> (m < 16)%nat -> hex_digit n = hex_digit m -> n = m.
Proof.
  intros Hn Hm H.
  do 16 (destruct n as [|n];
         [do 16 (destruct m as [|m]; [first [reflexivity | discriminate H] |]); lia |]).
  lia.
Qed.

Lemma percent_digits_inj (a b : ascii) :
  hex_digit (nat_of_ascii a / 16) = hex_digit (nat_of_ascii b / 16) ->
  hex_digit (nat_of_ascii a mod 16) = hex_digit (nat_of_ascii b mod 16) ->
  a = b.
Proof.
  intros Hhi Hlo.
  pose proof (nat_ascii_bounded a) as Ba. pose proof (nat_ascii_bounded b) as Bb.
  apply hex_digit_inj in Hhi;
    [| apply Nat.Div0.div_lt_upper_bound; lia | apply Nat.Div0.div_lt_upper_bound; lia].
  apply hex_digit_inj in Hlo; [| apply Nat.mod_upper_bound; lia | apply Nat.mod_upper_bound; lia].
  assert (E : nat_of_ascii a = nat_of_ascii b).
  { rewrite (Nat.div_mod_eq (nat_of_ascii a) 16), (Nat.div_mod_eq (nat_of_ascii b) 16).
    by rewrite Hhi, Hlo. }
  rewrite <- (ascii_nat_embedding a), <- (ascii_nat_embedding b). by rewrite E.
Qed.

Lemma length_quote (s : string) : (String.length s <= String.length (quote s))%nat.
Proof.
  induction s as [|a s IH]; [reflexivity |].
  rewrite quote_cons. destruct (unescaped a); cbn [String.length]; lia.
Qed.

(** [quote] returns its argument unchanged exactly when every
    character of it is a letter, a digit, one of [_.-~] or a slash. *)
Lemma quote_fixed_iff (s : string) :
  quote s = s <-> str_forall unescaped s = true.
Proof.
  induction s as [|a s IH]; [done |].
  rewrite quote_cons. cbn [str_forall]. destruct (unescaped a) eqn:Ha; cbn [andb].
  - rewrite <- IH. split; [by intros [= ->] | by intros ->].
  - split; [| discriminate]. intros [= <- Hs].
    pose proof (length_quote s) as Hlen. rewrite <- Hs in Hlen at 1.
    cbn [String.length] in Hlen. lia.
Qed.

(** What [quote] returns holds only letters, digits, [_.-~], slashes
    and percent signs: no space, question mark, hash or other reserved
    character reaches a path through it. *)
Lemma quote_output_alphabet (s : string) :
  str_forall (fun c => unescaped c || Ascii.eqb c "%") (quote s) = true.
Proof.
  induction s as [|a s IH]; [reflexivity |].
  rewrite quote_cons. destruct (unescaped a) eqn:Ha; cbn [str_forall].
  - by rewrite Ha, IH.
  - unfold unescaped at 2 3. rewrite !hex_digit_safe, IH. reflexivity.
Qed.

(** [quote] is injective: two different strings never quote to the
    same text. *)
Lemma quote_injective (s1 s2 : string) : quote s1 = quote s2 -> s1 = s2.
Proof.
  revert s2. induction s1 as [|a s1 IH]; intros [|b s2]; rewrite ?quote_cons.
  - reflexivity.
  - destruct (unescaped b); discriminate.
  - destruct (unescaped a); discriminate.
  - destruct (unescaped a) eqn:Ha, (unescaped b) eqn:Hb.
    + intros [= -> H]. by rewrite (IH _ H).
    + intros [= -> _]. by vm_compute in Ha.
    + intros [= <- _]. by vm_compute in Hb.
    + intros [= Hhi Hlo H]. by rewrite (percent_digits_inj a b Hhi Hlo), (IH _ H).
Qed.

Lemma quote_eq_unescaped (k v : string) :
  str_forall unescaped v = true -> quote k = v -> k = v.
Proof.
  intros Hv Hq. apply quote_fixed_iff in Hv. rewrite <- Hv in Hq.
  by apply quote_injective.
Qed.

(** A name selects a verb exactly when it is literally [get], [post],
    [put] or [delete]: no other name quotes to one of the four. *)
Lemma verb_names_are_literal (key : string) :
  is_verb_name (quote key) = is_verb_name key.
Proof.
  unfold is_verb_name.
  destruct (String.eqb_spec key "post") as [-> | H1]; [reflexivity |].
  destruct (String.eqb_spec key "put") as [-> | H2]; [reflexivity |].
  destruct (String.eqb_spec key "delete") as [-> | H3]; [reflexivity |].
  destruct (String.eqb_spec key "get") as [-> | H4]; [reflexivity |].
  destruct (String.eqb_spec (quote key) "post") as [E | _];
    [by apply quote_eq_unescaped in E |].
  destruct (String.eqb_spec (quote key) "put") as [E | _];
    [by apply quote_eq_unescaped in E |].
  destruct (String.eqb_spec (quote key) "delete") as [E | _];
    [by apply quote_eq_unescaped in E |].
  destruct (String.eqb_spec (quote key) "get") as [E | _];
    [by apply quote_eq_unescaped in E |].
  reflexivity.
Qed.

(** ** Attribute steps on path builders *)

Lemma AttrMethod___getattr___eq (w : world) (self : addr) (x : attr) (key : string) :
  heap w !! self = Some (OAttr x) ->
  AttrMethod___getattr__ self key w
  = Some ({| heap := heap w
               ++ [OAttr {| acls := class_of_name key; parent := parent x;
                            method_name := if is_verb_name key then method_name x
                                           else method_name x +:+ "/" +:+ quote key |}];
             log := log w |},
          Ret (length (heap w))).
Proof.
  intros Hs. unfold AttrMethod___getattr__, bind, get_attr. rewrite Hs.
  pose proof (verb_names_are_literal key) as Hv. unfold is_verb_name in *.
  unfold class_of_name.
  destruct (String.eqb_spec key "post") as [-> | H1]; [reflexivity |].
  destruct (String.eqb_spec key "put") as [-> | H2]; [reflexivity |].
  destruct (String.eqb_spec key "delete") as [-> | H3]; [reflexivity |].
  destruct (String.eqb_spec key "get") as [-> | H4]; [reflexivity |].
  cbn [orb] in Hv. apply orb_false_elim in Hv as [Hv Hv4].
  apply orb_false_elim in Hv as [Hv Hv3]. apply orb_false_elim in Hv as [Hv1 Hv2].
  by rewrite Hv1, Hv2, Hv3, Hv4.
Qed.

(** X3.  Naming an attribute on a path builder of any of the five classes:
    the names [get], [post], [put] and [delete], and only they, give a
    builder of the matching verb class over the same path; every other
    name gives a plain [AttrMethod] whose path has the quoted name
    appended.  The class of the builder the name is read from plays no
    part, so a verb can be chosen again and a path continued after a
    verb. *)
Theorem attribute_step_by_name (w : world) (self : addr) (x : attr) (key : string) :
  heap w !! self = Some (OAttr x) ->
  bound_name attr_names key = false ->
  py_getattr (VObj self) key w
  = Some ({| heap := heap w
               ++ [OAttr {| acls := class_of_name key; parent := parent x;
                            method_name := if is_verb_name key then method_name x
                                           else method_name x +:+ "/" +:+ quote key |}];
             log := log w |},
          Ret (VObj (length (heap w)))).
Proof.
  intros Hs Hk. unfold py_getattr. rewrite bind_get_heap, Hs, Hk.
  unfold bind. by rewrite (AttrMethod___getattr___eq w self x key Hs).
Qed.

Lemma attribute_step_by_name_witness :
  py_getattr (VObj 4%nat) "post"
    {| heap := heap demo_world
               ++ [OAttr {| acls := ClsAttrGetMethod; parent := 2%nat;
                            method_name := "nodes/pve" |}];
       log := [] |}
  = Some ({| heap := (heap demo_world
                      ++ [OAttr {| acls := ClsAttrGetMethod; parent := 2%nat;
                                   method_name := "nodes/pve" |}])
                      ++ [OAttr {| acls := ClsAttrPostMethod; parent := 2%nat;
                                   method_name := "nodes/pve" |}];
             log := [] |},
          Ret (VObj 5%nat)).
Proof.
  apply (attribute_step_by_name
           {| heap := heap demo_world
                      ++ [OAttr {| acls := ClsAttrGetMethod; parent := 2%nat;
                                   method_name := "nodes/pve" |}];
              log := [] |}
           4%nat {| acls := ClsAttrGetMethod; parent := 2%nat; method_name := "nodes/pve" |}
           "post"); reflexivity.
Defined.

(** X4.  Naming an attribute that extends the path and calling with that name
    as the only positional argument, and keyword arguments none of which
    is named [self], are the same step: same new object, same address,
    nothing sent. *)
Theorem attribute_step_is_call_with_name (net : request -> reply) (w : world)
    (self : addr) (x : attr) (key : string) (kwargs : pydict pyval) :
  heap w !! self = Some (OAttr x) ->
  acls x = ClsAttrMethod ->
  extends_path (SAttr key) = true ->
  dict_get "self" kwargs = None ->
  py_getattr (VObj self) key w = py_call net (VObj self) [AStr key] kwargs w.
Proof.
  intros Hs Hc Hk Hkw. cbn [extends_path] in Hk.
  apply andb_prop in Hk as [Hb Hv]. apply negb_true_iff in Hb, Hv.
  rewrite (py_call_building net w self x _ kwargs Hs Hc Hkw).
  rewrite (call_extend net w self x (AStr key) [] kwargs Hs).
  unfold py_getattr. rewrite bind_get_heap, Hs, Hb. unfold bind.
  rewrite (AttrMethod___getattr___eq w self x key Hs), Hv.
  unfold class_of_name. unfold is_verb_name in Hv.
  apply orb_false_elim in Hv as [Hv Hv4]. apply orb_false_elim in Hv as [Hv Hv3].
  apply orb_false_elim in Hv as [Hv1 Hv2]. by rewrite Hv1, Hv2, Hv3, Hv4.
Qed.

Lemma attribute_step_is_call_with_name_witness :
  py_getattr (VObj 4%nat) "qemu"
    {| heap := heap demo_world
               ++ [OAttr {| acls := ClsAttrMethod; parent := 2%nat; method_name := "nodes" |}];
       log := [] |}
  = py_call (always 200 None) (VObj 4%nat) [AStr "qemu"] [("x", PyInt 1)]
    {| heap := heap demo_world
               ++ [OAttr {| acls := ClsAttrMethod; parent := 2%nat; method_name := "nodes" |}];
       log := [] |}.
Proof.
  apply (attribute_step_is_call_with_name (always 200 None)
           {| heap := heap demo_world
                      ++ [OAttr {| acls := ClsAttrMethod; parent := 2%nat;
                                   method_name := "nodes" |}];
              log := [] |}
           4%nat {| acls := ClsAttrMethod; parent := 2%nat; method_name := "nodes" |}
           "qemu" [("x", PyInt 1)]); reflexivity.
Defined.

(** ** Chains of building steps *)

Lemma class_of_name_segment (key : string) :
  is_verb_name key = false -> class_of_name key = ClsAttrMethod.
Proof.
  unfold is_verb_name, class_of_name. intros Hv.
  apply orb_false_elim in Hv as [Hv Hv4]. apply orb_false_elim in Hv as [Hv Hv3].
  apply orb_false_elim in Hv as [Hv1 Hv2]. by rewrite Hv1, Hv2, Hv3, Hv4.
Qed.

Section BuildingChains.

Variable net : request -> reply.

Lemma run_chain_app (s1 s2 : list step) (v : value) (w : world) :
  run_chain net v (s1 ++ s2) w
  = match run_chain net v s1 w with
    | Some (w', Ret v') => run_chain net v' s2 w'
    | Some (w', Raise e) => Some (w', Raise e)
    | None => None
    end.
Proof.
  revert v w. induction s1 as [|s s1 IH]; intros v w; [reflexivity |].
  cbn [app run_chain]. unfold bind.
  destruct (run_step net v s w) as [[w1 [v1|e]]|]; [apply IH | reflexivity | reflexivity].
Qed.

Lemma build_step (w : world) (a : addr) (x : attr) (s : step) :
  heap w !! a = Some (OAttr x) ->
  acls x = ClsAttrMethod ->
  extends_path s = true ->
  run_step net (VObj a) s w
  = Some ({| heap := heap w
               ++ [OAttr {| acls := ClsAttrMethod; parent := parent x;
                            method_name := seg_path (method_name x) s |}];
             log := log w |},
          Ret (VObj (length (heap w)))).
Proof.
  intros Hs Hc Hok. destruct s as [key | [|arg args] kwargs]; cbn [run_step seg_path].
  - cbn [extends_path] in Hok. apply andb_prop in Hok as [Hb Hv].
    apply negb_true_iff in Hb, Hv.
    unfold py_getattr. rewrite bind_get_heap, Hs, Hb. unfold bind.
    by rewrite (AttrMethod___getattr___eq w a x key Hs), Hv, (class_of_name_segment key Hv).
  - discriminate Hok.
  - cbn [extends_path] in Hok. apply negb_true_iff in Hok. unfold binds_self in Hok.
    destruct (dict_get "self" kwargs) eqn:Hkw; [discriminate Hok |].
    rewrite (py_call_building net w a x _ kwargs Hs Hc Hkw).
    by rewrite (call_extend net w a x arg args kwargs Hs).
Qed.

Lemma build_chain_run (steps : list step) (w : world) (a : addr) (x : attr) :
  heap w !! a = Some (OAttr x) ->
  acls x = ClsAttrMethod ->
  forallb extends_path steps = true ->
  exists (w' : world) (a' : addr),
    run_chain net (VObj a) steps w = Some (w', Ret (VObj a'))
    /\ heap w' !! a'
       = Some (OAttr {| acls := ClsAttrMethod; parent := parent x;
                        method_name := fold_left seg_path steps (method_name x) |})
    /\ log w' = log w
    /\ exists objs : list obj, heap w' = heap w ++ objs.
Proof.
  revert w a x. induction steps as [|s steps IH]; intros w a x Hs Hc Hok.
  - exists w, a. split; [reflexivity |]. split.
    + destruct x as [c p m]. cbn in Hc. by subst c.
    + split; [reflexivity |]. exists []. by rewrite app_nil_r.
  - cbn [forallb] in Hok. apply andb_prop in Hok as [Hs1 Hrest].
    set (x1 := {| acls := ClsAttrMethod; parent := parent x;
                  method_name := seg_path (method_name x) s |}).
    set (w1 := {| heap := heap w ++ [OAttr x1]; log := log w |}).
    destruct (IH w1 (length (heap w)) x1 (lookup_alloc_new (heap w) (OAttr x1))
                eq_refl Hrest) as (w' & a' & Hrun & Hobj & Hlog & objs & Hheap).
    exists w', a'. split.
    { cbn [run_chain]. unfold bind. by rewrite (build_step w a x s Hs Hc Hs1). }
    split; [exact Hobj |]. split; [exact Hlog |].
    exists (OAttr x1 :: objs). rewrite Hheap. cbn [heap w1]. by rewrite <- app_assoc.
Qed.

Lemma root_chain_run (steps : list step) (w : world) (r : addr) (t : transport)
    (k0 : string) :
  heap w !! r = Some (OTransport t) ->
  is_root t ->
  bound_name (transport_names (cls t)) k0 = false ->
  forallb extends_path steps = true ->
  exists (w' : world) (a' : addr),
    run_chain net (VObj r) (SAttr k0 :: steps) w = Some (w', Ret (VObj a'))
    /\ heap w' !! a'
       = Some (OAttr {| acls := ClsAttrMethod; parent := r;
                        method_name := fold_left seg_path steps k0 |})
    /\ log w' = log w
    /\ exists objs : list obj, heap w' = heap w ++ objs.
Proof.
  intros Hr Hroot Hk Hok.
  set (x0 := {| acls := ClsAttrMethod; parent := r; method_name := k0 |}).
  set (w0 := {| heap := heap w ++ [OAttr x0]; log := log w |}).
  destruct (build_chain_run steps w0 (length (heap w)) x0
              (lookup_alloc_new (heap w) (OAttr x0)) eq_refl Hok)
    as (w' & a' & Hrun & Hobj & Hlog & objs & Hheap).
  exists w', a'. split.
  { cbn [run_chain run_step]. unfold bind.
    by rewrite (getattr_root w r t k0 Hr Hroot Hk). }
  split; [exact Hobj |]. split; [exact Hlog |].
  exists (OAttr x0 :: objs). rewrite Hheap. cbn [heap w0]. by rewrite <- app_assoc.
Qed.

(** X5.  From any root, a first attribute that the root does not bind,
    followed by any steps that extend the path (attributes that are
    neither bound nor a verb, and calls with positional arguments and no
    keyword argument named [self]), runs without raising and sends
    nothing; it changes no object that existed, and it ends in a plain
    [AttrMethod] over that root whose path is the first name, as given,
    with the quoted names and arguments of the later steps appended in
    order. *)
Theorem building_chain_accumulates_path (steps : list step) (w : world) (r : addr)
    (t : transport) (k0 : string) :
  heap w !! r = Some (OTransport t) ->
  is_root t ->
  bound_name (transport_names (cls t)) k0 = false ->
  forallb extends_path steps = true ->
  exists (w' : world) (a' : addr),
    run_chain net (VObj r) (SAttr k0 :: steps) w = Some (w', Ret (VObj a'))
    /\ heap w' !! a'
       = Some (OAttr {| acls := ClsAttrMethod; parent := r;
                        method_name := fold_left seg_path steps k0 |})
    /\ log w' = log w
    /\ forall (i : addr) (o : obj), heap w !! i = Some o -> heap w' !! i = Some o.
Proof.
  intros Hr Hroot Hk Hok.
  destruct (root_chain_run steps w r t k0 Hr Hroot Hk Hok)
    as (w' & a' & Hrun & Hobj & Hlog & objs & Hheap).
  exists w', a'. repeat split; try done.
  intros i o Hi. rewrite Hheap. by apply lookup_app_l_Some.
Qed.

End BuildingChains.

Lemma building_chain_accumulates_path_witness :
  exists (w' : world) (a' : addr),
    run_chain (always 200 None) (VObj 2%nat)
      [SAttr "nodes"; SCall [AStr "pve 1"] []; SAttr "qemu"; SCall [AInt 100] [];
       SAttr "status"; SAttr "current"] demo_world
      = Some (w', Ret (VObj a'))
    /\ heap w' !! a'
       = Some (OAttr {| acls := ClsAttrMethod; parent := 2%nat;
                        method_name := "nodes/pve%201/qemu/100/status/current" |})
    /\ log w' = log demo_world
    /\ forall (i : addr) (o : obj), heap demo_world !! i = Some o -> heap w' !! i = Some o.
Proof.
  apply (building_chain_accumulates_path (always 200 None)
           [SCall [AStr "pve 1"] []; SAttr "qemu"; SCall [AInt 100] [];
            SAttr "status"; SAttr "current"]
           demo_world 2%nat demo_root "nodes"); first [reflexivity | by left].
Defined.

(** ** Calls that execute *)

Lemma or_empty_or_None (kwargs : pydict pyval) : or_empty (or_None kwargs) = kwargs.
Proof. by destruct kwargs. Qed.

Section Executing.

Variable net : request -> reply.

Lemma verb_call_eq (w : world) (a : addr) (x : attr) (v : verb) (kwargs : pydict pyval) :
  heap w !! a = Some (OAttr x) ->
  acls x = verb_class v ->
  dict_get "self" kwargs = None ->
  py_call net (VObj a) [] kwargs w
  = (let! d := transport_call net v (parent x) (method_name x) (or_None kwargs) in
     ret (VData d)) w.
Proof.
  intros Hs Hc Hkw. unfold py_call. rewrite bind_get_heap, Hs, Hkw, Hc.
  destruct v; cbn [verb_class transport_call];
    unfold AttrGetMethod___call__, AttrPostMethod___call__, AttrPutMethod___call__,
      AttrDeleteMethod___call__;
    unfold bind at 1; unfold get_attr; by rewrite Hs.
Qed.

Lemma bare_call_eq (w : world) (a : addr) (x : attr) (kwargs : pydict pyval) :
  heap w !! a = Some (OAttr x) ->
  acls x = ClsAttrMethod ->
  dict_get "self" kwargs = None ->
  py_call net (VObj a) [] kwargs w
  = (let! d := transport_call net GET (parent x) (method_name x) (or_None kwargs) in
     ret (VData d)) w.
Proof.
  intros Hs Hc Hkw. rewrite (py_call_building net w a x _ kwargs Hs Hc Hkw).
  unfold AttrMethod___call__. unfold bind at 1. unfold get_attr. by rewrite Hs.
Qed.

Lemma bind_transport_call (w : world) (p : addr) (t : transport) (v : verb)
    (path : string) (params_ : option (pydict pyval)) :
  heap w !! p = Some (OTransport t) ->
  exists res : result pyval,
    transport_call net v p path params_ w
      = Some (logged w (verb_request t v path params_), res)
    /\ (let! d := transport_call net v p path params_ in ret (VData d)) w
      = Some (logged w (verb_request t v path params_), as_data res).
Proof.
  intros Hp. rewrite (transport_call_eq net w p t v path params_ Hp). cbv zeta.
  eexists. split; [reflexivity |]. unfold bind.
  rewrite (transport_call_eq net w p t v path params_ Hp). cbv zeta.
  by destruct (match net _ with NetworkFailure => _ | Answer _ => _ end).
Qed.

(** X6.  Calling a builder of a verb class without positional arguments,
    and with keyword arguments none of which is named [self], hands
    exactly one request to the session and changes no object.  The request
    goes to the parent's base URL followed by the path; for [get] the
    keyword arguments are the query parameters ([None] when there are
    none) and there is no body; for [post], [put] and [delete] there are
    no query parameters and the keyword arguments are the form body, an
    empty dictionary when there are none.  What the call returns is what
    the transport call of that verb returns. *)
Theorem verb_call_request (w : world) (a : addr) (x : attr) (t : transport)
    (v : verb) (kwargs : pydict pyval) :
  heap w !! a = Some (OAttr x) ->
  acls x = verb_class v ->
  heap w !! parent x = Some (OTransport t) ->
  dict_get "self" kwargs = None ->
  exists (req : request) (res : result pyval),
    py_call net (VObj a) [] kwargs w = Some (logged w req, as_data res)
    /\ transport_call net v (parent x) (method_name x) (or_None kwargs) w
       = Some (logged w req, res)
    /\ url req = baseurl t +:+ "/" +:+ method_name x
    /\ match v with
       | GET => method req = "GET" /\ params req = or_None kwargs /\ data req = None
       | POST => method req = "POST" /\ params req = None /\ data req = Some kwargs
       | PUT => method req = "PUT" /\ params req = None /\ data req = Some kwargs
       | DELETE => method req = "DELETE" /\ params req = None /\ data req = Some kwargs
       end.
Proof.
  intros Hs Hc Hp Hkw.
  destruct (bind_transport_call w (parent x) t v (method_name x) (or_None kwargs) Hp)
    as (res & Hcall & Hbind).
  exists (verb_request t v (method_name x) (or_None kwargs)), res.
  rewrite (verb_call_eq w a x v kwargs Hs Hc Hkw).
  split; [exact Hbind |]. split; [exact Hcall |].
  destruct v; cbn [verb_request sent_request url method params data String.eqb negb];
    rewrite ?or_empty_or_None; by repeat split.
Qed.

(** A builder of a verb class takes keyword arguments only: called with
    a positional argument it raises [TypeError], sends nothing and changes
    nothing. *)
Theorem verb_call_rejects_positional (w : world) (a : addr) (x : attr) (v : verb)
    (arg : pyarg) (args : list pyarg) (kwargs : pydict pyval) :
  heap w !! a = Some (OAttr x) ->
  acls x = verb_class v ->
  py_call net (VObj a) (arg :: args) kwargs w = Some (w, Raise TypeError).
Proof.
  intros Hs Hc. unfold py_call. rewrite bind_get_heap, Hs, Hc.
  destruct (dict_get "self" kwargs); [reflexivity |]. by destruct v.
Qed.

(** X7.  A chain from a root that builds a path, selects a verb and calls
    without positional arguments returns what the transport call of that
    verb returns on the root, for the accumulated path and the keyword
    arguments; building has sent nothing before.  No call of the chain is
    given a keyword argument named [self]. *)
Theorem chain_executes_verb (steps : list step) (w : world) (r : addr)
    (t : transport) (k0 : string) (v : verb) (kwargs : pydict pyval) :
  heap w !! r = Some (OTransport t) ->
  is_root t ->
  bound_name (transport_names (cls t)) k0 = false ->
  forallb extends_path steps = true ->
  dict_get "self" kwargs = None ->
  exists (w1 : world) (res : result pyval),
    log w1 = log w
    /\ heap w1 !! r = Some (OTransport t)
    /\ transport_call net v r (fold_left seg_path steps k0) (or_None kwargs) w1
       = Some (logged w1 (verb_request t v (fold_left seg_path steps k0) (or_None kwargs)),
               res)
    /\ run_chain net (VObj r)
         (SAttr k0 :: steps ++ [SAttr (verb_attr v); SCall [] kwargs]) w
       = Some (logged w1 (verb_request t v (fold_left seg_path steps k0) (or_None kwargs)),
               as_data res).
Proof.
  intros Hr Hroot Hk Hok Hkw.
  destruct (root_chain_run net steps w r t k0 Hr Hroot Hk Hok)
    as (w' & a' & Hrun & Hobj & Hlog & objs & Hheap).
  set (x := {| acls := ClsAttrMethod; parent := r;
               method_name := fold_left seg_path steps k0 |}) in *.
  set (xv := {| acls := verb_class v; parent := r;
                method_name := fold_left seg_path steps k0 |}).
  set (w1 := {| heap := heap w' ++ [OAttr xv]; log := log w' |}).
  assert (Hr1 : heap w1 !! r = Some (OTransport t)).
  { cbn [heap w1]. apply lookup_alloc_old. rewrite Hheap. by apply lookup_app_l_Some. }
  destruct (bind_transport_call w1 r t v (fold_left seg_path steps k0) (or_None kwargs) Hr1)
    as (res & Hcall & Hbind).
  exists w1, res. split; [exact Hlog |]. split; [exact Hr1 |]. split; [exact Hcall |].
  change (SAttr k0 :: steps ++ [SAttr (verb_attr v); SCall [] kwargs])
    with ((SAttr k0 :: steps) ++ [SAttr (verb_attr v); SCall [] kwargs]).
  rewrite run_chain_app, Hrun. cbn [run_chain run_step]. unfold bind at 1.
  assert (Hsel : py_getattr (VObj a') (verb_attr v) w'
                 = Some (w1, Ret (VObj (length (heap w'))))).
  { unfold py_getattr. rewrite bind_get_heap, Hobj.
    replace (bound_name attr_names (verb_attr v)) with false by (by destruct v).
    unfold bind. rewrite (AttrMethod___getattr___eq w' a' x _ Hobj).
    by destruct v. }
  rewrite Hsel. unfold bind at 1.
  rewrite (verb_call_eq w1 (length (heap w')) xv v kwargs
             (lookup_alloc_new (heap w') (OAttr xv)) eq_refl Hkw).
  cbn [parent method_name xv]. rewrite Hbind. by destruct res.
Qed.

End Executing.

Lemma verb_call_request_witness :
  exists (req : request) (res : result pyval),
    py_call (always 200 (Some (PyDict [("data", PyStr "UPID")]))) (VObj 4%nat) [] []
      {| heap := heap demo_world
                 ++ [OAttr {| acls := ClsAttrPostMethod; parent := 2%nat;
                              method_name := "nodes/pve/qemu" |}];
         log := [] |}
    = Some (logged {| heap := heap demo_world
                        ++ [OAttr {| acls := ClsAttrPostMethod; parent := 2%nat;
                                     method_name := "nodes/pve/qemu" |}];
                      log := [] |} req, as_data res)
    /\ method req = "POST" /\ params req = None /\ data req = Some [].
Proof.
  destruct (verb_call_request (always 200 (Some (PyDict [("data", PyStr "UPID")])))
              {| heap := heap demo_world
                         ++ [OAttr {| acls := ClsAttrPostMethod; parent := 2%nat;
                                      method_name := "nodes/pve/qemu" |}];
                 log := [] |}
              4%nat
              {| acls := ClsAttrPostMethod; parent := 2%nat; method_name := "nodes/pve/qemu" |}
              demo_root POST [] eq_refl eq_refl eq_refl eq_refl)
    as (req & res & Hcall & _ & _ & Hshape).
  exists req, res. split; [exact Hcall | exact Hshape].
Defined.

Lemma verb_call_rejects_positional_witness :
  py_call (always 200 None) (VObj 4%nat) [AStr "100"] []
    {| heap := heap demo_world
               ++ [OAttr {| acls := ClsAttrGetMethod; parent := 2%nat;
                            method_name := "nodes/pve/qemu" |}];
       log := [] |}
  = Some ({| heap := heap demo_world
                     ++ [OAttr {| acls := ClsAttrGetMethod; parent := 2%nat;
                                  method_name := "nodes/pve/qemu" |}];
             log := [] |}, Raise TypeError).
Proof.
  apply (verb_call_rejects_positional (always 200 None)
           {| heap := heap demo_world
                      ++ [OAttr {| acls := ClsAttrGetMethod; parent := 2%nat;
                                   method_name := "nodes/pve/qemu" |}];
              log := [] |}
           4%nat {| acls := ClsAttrGetMethod; parent := 2%nat; method_name := "nodes/pve/qemu" |}
           GET (AStr "100") [] []); reflexivity.
Defined.

Lemma chain_executes_verb_witness :
  exists (w1 : world) (res : result pyval),
    log w1 = log demo_world
    /\ heap w1 !! 2%nat = Some (OTransport demo_root)
    /\ transport_call (always 200 (Some (PyDict [("data", PyNone)]))) DELETE 2%nat
         "nodes/pve/qemu/100" (or_None [("purge", PyInt 1)]) w1
       = Some (logged w1 (verb_request demo_root DELETE "nodes/pve/qemu/100"
                            (or_None [("purge", PyInt 1)])), res)
    /\ run_chain (always 200 (Some (PyDict [("data", PyNone)]))) (VObj 2%nat)
         (SAttr "nodes" :: [SCall [AStr "pve"] []; SAttr "qemu"; SCall [AInt 100] []]
            ++ [SAttr (verb_attr DELETE); SCall [] [("purge", PyInt 1)]]) demo_world
       = Some (logged w1 (verb_request demo_root DELETE "nodes/pve/qemu/100"
                            (or_None [("purge", PyInt 1)])), as_data res).
Proof.
  apply (chain_executes_verb (always 200 (Some (PyDict [("data", PyNone)])))
           [SCall [AStr "pve"] []; SAttr "qemu"; SCall [AInt 100] []]
           demo_world 2%nat demo_root "nodes" DELETE [("purge", PyInt 1)]);
    first [reflexivity | by left].
Defined.

Lemma bind_of_call (m : M pyval) (w w' : world) (res : result pyval) :
  m w = Some (w', res) ->
  (let! d := m in ret (VData d)) w = Some (w', as_data res).
Proof. intros H. unfold bind. rewrite H. by destruct res. Qed.

Lemma transport_call_frame (net : request -> reply) (w w2 : world) (p : addr)
    (t : transport) (v : verb) (path : string) (params_ : option (pydict pyval))
    (req : request) (res : result pyval) :
  heap w !! p = Some (OTransport t) ->
  heap w2 !! p = Some (OTransport t) ->
  transport_call net v p path params_ w = Some (logged w req, res) ->
  transport_call net v p path params_ w2 = Some (logged w2 req, res).
Proof.
  intros H1 H2. rewrite (transport_call_eq net w p t v path params_ H1).
  rewrite (transport_call_eq net w2 p t v path params_ H2). cbv zeta.
  unfold logged. intros [= Hl ->]. apply app_inv_head in Hl. by injection Hl as <-.
Qed.

Section CallsAndSegments.

Variable net : request -> reply.

(** X8.  Calling a plain [AttrMethod] without positional arguments, and
    with keyword arguments none of which is named [self], is the call of
    [.get] on it: the same request is sent and the same result
    comes back; selecting [get] first only leaves one more builder in the
    heap. *)
Theorem bare_call_is_get (w : world) (a : addr) (x : attr) (t : transport)
    (kwargs : pydict pyval) :
  heap w !! a = Some (OAttr x) ->
  acls x = ClsAttrMethod ->
  heap w !! parent x = Some (OTransport t) ->
  dict_get "self" kwargs = None ->
  exists (req : request) (res : result value),
    py_call net (VObj a) [] kwargs w = Some (logged w req, res)
    /\ run_chain net (VObj a) [SAttr "get"; SCall [] kwargs] w
       = Some (logged {| heap := heap w
                           ++ [OAttr {| acls := ClsAttrGetMethod; parent := parent x;
                                        method_name := method_name x |}];
                         log := log w |} req, res)
    /\ method req = "GET"
    /\ url req = baseurl t +:+ "/" +:+ method_name x
    /\ params req = or_None kwargs
    /\ data req = None.
Proof.
  intros Hs Hc Hp Hkw.
  set (xg := {| acls := ClsAttrGetMethod; parent := parent x; method_name := method_name x |}).
  set (w1 := {| heap := heap w ++ [OAttr xg]; log := log w |}).
  destruct (bind_transport_call net w (parent x) t GET (method_name x) (or_None kwargs) Hp)
    as (res & Hcall & Hbind).
  pose proof (transport_call_frame net w w1 (parent x) t GET _ _ _ res Hp
                (lookup_alloc_old _ _ _ _ Hp) Hcall) as Hcall1.
  exists (verb_request t GET (method_name x) (or_None kwargs)), (as_data res).
  split; [by rewrite (bare_call_eq net w a x kwargs Hs Hc Hkw) |].
  split; [| by repeat split].
  assert (Hsel : py_getattr (VObj a) "get" w = Some (w1, Ret (VObj (length (heap w))))).
  { unfold py_getattr. rewrite bind_get_heap, Hs.
    change (bound_name attr_names "get") with false. cbv iota.
    unfold bind. by rewrite (AttrMethod___getattr___eq w a x "get" Hs). }
  cbn [run_chain run_step]. unfold bind at 1. rewrite Hsel. unfold bind at 1.
  rewrite (verb_call_eq net w1 (length (heap w)) xg GET kwargs
             (lookup_alloc_new (heap w) (OAttr xg)) eq_refl Hkw).
  cbn [parent method_name xg]. rewrite (bind_of_call _ _ _ _ Hcall1).
  by destruct (as_data res).
Qed.

Lemma append_assoc (s1 s2 s3 : string) : (s1 +:+ s2) +:+ s3 = s1 +:+ (s2 +:+ s3).
Proof.
  induction s1 as [|a s1 IH]; [reflexivity |].
  by rewrite !append_String, IH.
Qed.

Lemma join_cons_nonempty (sep p : string) (l : list string) :
  l <> [] -> join sep (p :: l) = p +:+ sep +:+ join sep l.
Proof. by destruct l. Qed.

Lemma join_app (sep : string) (l1 l2 : list string) :
  l1 <> [] -> l2 <> [] ->
  join sep (l1 ++ l2) = join sep l1 +:+ sep +:+ join sep l2.
Proof.
  intros H1 H2. induction l1 as [|p l1 IH]; [done |].
  destruct l1 as [|q l1].
  - cbn [app]. by rewrite join_cons_nonempty.
  - change ((p :: q :: l1) ++ l2) with (p :: ((q :: l1) ++ l2)).
    rewrite !join_cons_nonempty by done. rewrite IH by done.
    by rewrite !append_assoc.
Qed.

(** X9.  One call with several positional arguments leads to the same path as
    the calls with the first arguments and then with the remaining ones:
    [x(a, b)] and [x(a)(b)] name the same resource.  The calls may carry
    keyword arguments, none of which is named [self]. *)
Theorem call_arguments_split (w : world) (a : addr) (x : attr)
    (args1 args2 : list pyarg) (kw kw1 kw2 : pydict pyval) :
  heap w !! a = Some (OAttr x) ->
  acls x = ClsAttrMethod ->
  args1 <> [] -> args2 <> [] ->
  dict_get "self" kw = None ->
  dict_get "self" kw1 = None ->
  dict_get "self" kw2 = None ->
  exists (w1 w2 : world) (a1 a2 : addr) (y : attr),
    run_chain net (VObj a) [SCall (args1 ++ args2) kw] w = Some (w1, Ret (VObj a1))
    /\ run_chain net (VObj a) [SCall args1 kw1; SCall args2 kw2] w = Some (w2, Ret (VObj a2))
    /\ heap w1 !! a1 = Some (OAttr y)
    /\ heap w2 !! a2 = Some (OAttr y)
    /\ log w1 = log w /\ log w2 = log w.
Proof.
  intros Hs Hc H1 H2 Hkw Hkw1 Hkw2.
  assert (Hok1 : forallb extends_path [SCall (args1 ++ args2) kw] = true).
  { destruct args1; [done |]. cbn [app forallb extends_path]. unfold binds_self.
    by rewrite Hkw. }
  assert (Hok2 : forallb extends_path [SCall args1 kw1; SCall args2 kw2] = true).
  { destruct args1, args2; try done. cbn [forallb extends_path]. unfold binds_self.
    by rewrite Hkw1, Hkw2. }
  destruct (build_chain_run net _ w a x Hs Hc Hok1) as (w1 & a1 & R1 & O1 & L1 & _).
  destruct (build_chain_run net _ w a x Hs Hc Hok2) as (w2 & a2 & R2 & O2 & L2 & _).
  exists w1, w2, a1, a2. eexists. split; [exact R1 |]. split; [exact R2 |].
  split; [exact O1 |]. split; [| done].
  rewrite O2. do 3 f_equal. cbn [fold_left seg_path].
  rewrite map_app.
  change (method_name x :: map (fun arg => quote (py_str arg)) args1
            ++ map (fun arg => quote (py_str arg)) args2)
    with ((method_name x :: map (fun arg => quote (py_str arg)) args1)
            ++ map (fun arg => quote (py_str arg)) args2).
  rewrite join_app; [| done | by destruct args2].
  rewrite join_cons_nonempty; [done | by destruct args2].
Qed.

(** X10.  A call with one string argument, and keyword arguments none of
    which is named [self], appends a slash and a text that holds only
    letters, digits, [_.-~], slashes and percent signs.  That text is the
    argument itself exactly when the argument holds only letters, digits,
    [_.-~] and slashes: a percent sign in the argument is escaped like
    any other character outside that set. *)
Theorem call_appends_quoted_segment (w : world) (a : addr) (x : attr) (s : string)
    (kwargs : pydict pyval) :
  heap w !! a = Some (OAttr x) ->
  acls x = ClsAttrMethod ->
  dict_get "self" kwargs = None ->
  exists seg : string,
    py_call net (VObj a) [AStr s] kwargs w
    = Some ({| heap := heap w
                 ++ [OAttr {| acls := ClsAttrMethod; parent := parent x;
                              method_name := method_name x +:+ "/" +:+ seg |}];
               log := log w |},
            Ret (VObj (length (heap w))))
    /\ str_forall (fun c => unescaped c || Ascii.eqb c "%") seg = true
    /\ (seg = s <-> str_forall unescaped s = true).
Proof.
  intros Hs Hc Hkw. exists (quote s).
  rewrite (py_call_building net w a x _ kwargs Hs Hc Hkw).
  rewrite (call_extend net w a x (AStr s) [] kwargs Hs).
  split; [reflexivity |]. split; [apply quote_output_alphabet | apply quote_fixed_iff].
Qed.

(** X11.  Two calls on the same builder with different string arguments,
    and keyword arguments none of which is named [self], lead to different
    paths. *)
Theorem call_argument_determines_path (w : world) (a : addr) (x : attr)
    (s1 s2 : string) (kw1 kw2 : pydict pyval) :
  heap w !! a = Some (OAttr x) ->
  acls x = ClsAttrMethod ->
  dict_get "self" kw1 = None ->
  dict_get "self" kw2 = None ->
  py_call net (VObj a) [AStr s1] kw1 w = py_call net (VObj a) [AStr s2] kw2 w ->
  s1 = s2.
Proof.
  intros Hs Hc Hkw1 Hkw2.
  rewrite (py_call_building net w a x _ kw1 Hs Hc Hkw1).
  rewrite (py_call_building net w a x _ kw2 Hs Hc Hkw2).
  rewrite !(call_extend net w a x _ [] _ Hs). cbn [map join py_str].
  intros [= H]. apply app_inv_head in H. injection H as H.
  apply (inj (String.append (method_name x))) in H.
  apply (inj (String.append "/")) in H.
  by apply quote_injective.
Qed.

(** X12.  A body that is valid JSON but not an object (a list, a string, a
    number, [true], [false] or [null]) makes every transport call raise
    [AttributeError], an exception outside the module's own classes. *)
Theorem payload_not_an_object (w : world) (self : addr) (t : transport) (v : verb)
    (filter_path : string) (params_ : option (pydict pyval))
    (r : response) (payload : pyval) :
  heap w !! self = Some (OTransport t) ->
  net (verb_request t v filter_path params_) = Answer r ->
  raise_for_status r = false ->
  json r = Some payload ->
  (forall kv, payload <> PyDict kv) ->
  transport_call net v self filter_path params_ w
  = Some (logged w (verb_request t v filter_path params_), Raise AttributeError).
Proof.
  intros Hs Hnet Hok Hjson Hnd.
  rewrite (transport_call_eq net w self t v filter_path params_ Hs).
  cbv zeta. rewrite Hnet, Hok, Hjson.
  destruct payload; try reflexivity. by destruct (Hnd kv).
Qed.

End CallsAndSegments.

(** ** Authentication and the requests that follow *)

Ltac ticket_unfold net Hs Hc t username password :=
  unfold Connector_get_auth_token, get_connector, bind, get_transport, send;
  rewrite Hs, Hc; unfold ret, raise; cbn [heap log]; cbv zeta;
  change (net _) with (net (ticket_request t username password));
  unfold logged.

Section Tickets.

Variable net : request -> reply.

Lemma ticket_granted_is_stored_aux (w : world) (self : addr) (t : transport)
    (username password : string) (r : response) (payload d : pydict pyval)
    (tk cs : string) :
  heap w !! self = Some (OTransport t) ->
  cls t = ClsConnector ->
  net (ticket_request t username password) = Answer r ->
  raise_for_status r = false ->
  json r = Some (PyDict payload) ->
  dict_get "data" payload = Some (PyDict d) ->
  dict_get "ticket" d = Some (PyStr tk) ->
  dict_get "CSRFPreventionToken" d = Some (PyStr cs) ->
  Connector_get_auth_token net self username password w
  = Some ({| heap := <[self := OTransport
                        (set_auth (Some {| ticket := Some tk; csrf := Some cs;
                                           token_header := None |}) t)]> (heap w);
             log := log w ++ [ticket_request t username password] |},
          Ret {| ticket := Some tk; csrf := Some cs; token_header := None |}).
Proof.
  intros Hs Hc Hnet Hok Hjson Hdata Htk Hcs.
  ticket_unfold net Hs Hc t username password.
  rewrite Hnet, Hok, Hjson, Hdata.
  destruct d as [|b d]; [discriminate Htk |].
  cbn [truthy negb]. rewrite Htk, Hcs. reflexivity.
Qed.

(** X13.  A ticket request answered without an HTTP error by a JSON object
    whose ["data"] is an object holding the strings [ticket] and
    [CSRFPreventionToken] returns the token made of the two and stores it
    on the connector; no other object changes and one request is sent. *)
Theorem ticket_granted_is_stored (w : world) (self : addr) (t : transport)
    (username password : string) (r : response) (payload d : pydict pyval)
    (tk cs : string) :
  heap w !! self = Some (OTransport t) ->
  cls t = ClsConnector ->
  net (ticket_request t username password) = Answer r ->
  raise_for_status r = false ->
  json r = Some (PyDict payload) ->
  dict_get "data" payload = Some (PyDict d) ->
  dict_get "ticket" d = Some (PyStr tk) ->
  dict_get "CSRFPreventionToken" d = Some (PyStr cs) ->
  Connector_get_auth_token net self username password w
  = Some ({| heap := <[self := OTransport
                        (set_auth (Some {| ticket := Some tk; csrf := Some cs;
                                           token_header := None |}) t)]> (heap w);
             log := log w ++ [ticket_request t username password] |},
          Ret {| ticket := Some tk; csrf := Some cs; token_header := None |}).
Proof. apply ticket_granted_is_stored_aux. Qed.

(** X14.  A ticket request answered without an HTTP error by a JSON object
    whose ["data"] is missing, [null], [false], zero, an empty string, an
    empty list or an empty object raises [ProxmoxAuthError]. *)
Theorem ticket_without_data (w : world) (self : addr) (t : transport)
    (username password : string) (r : response) (payload : pydict pyval) :
  heap w !! self = Some (OTransport t) ->
  cls t = ClsConnector ->
  net (ticket_request t username password) = Answer r ->
  raise_for_status r = false ->
  json r = Some (PyDict payload) ->
  truthy (match dict_get "data" payload with Some v => v | None => PyNone end) = false ->
  Connector_get_auth_token net self username password w
  = Some (logged w (ticket_request t username password), Raise ProxmoxAuthError).
Proof.
  intros Hs Hc Hnet Hok Hjson Hdata.
  ticket_unfold net Hs Hc t username password.
  by rewrite Hnet, Hok, Hjson, Hdata.
Qed.

(** X15.  A ticket request answered without an HTTP error by a JSON object
    whose ["data"] is a non-empty object that lacks [ticket], or holds
    [ticket] and lacks [CSRFPreventionToken], raises [KeyError], which is
    none of the module's own classes. *)
Theorem ticket_field_missing (w : world) (self : addr) (t : transport)
    (username password : string) (r : response) (payload d : pydict pyval) :
  heap w !! self = Some (OTransport t) ->
  cls t = ClsConnector ->
  net (ticket_request t username password) = Answer r ->
  raise_for_status r = false ->
  json r = Some (PyDict payload) ->
  dict_get "data" payload = Some (PyDict d) ->
  d <> [] ->
  dict_get "ticket" d = None
  \/ (is_Some (dict_get "ticket" d) /\ dict_get "CSRFPreventionToken" d = None) ->
  Connector_get_auth_token net self username password w
  = Some (logged w (ticket_request t username password), Raise KeyError).
Proof.
  intros Hs Hc Hnet Hok Hjson Hdata Hd Hmiss.
  ticket_unfold net Hs Hc t username password.
  rewrite Hnet, Hok, Hjson, Hdata.
  destruct d as [|b d]; [done |]. cbn [truthy negb].
  destruct Hmiss as [-> | [[x ->] ->]]; reflexivity.
Qed.

(** X16.  Whatever the server does, a ticket request that raises has sent its
    one request and changed no object: the connector keeps the token it
    had. *)
Theorem ticket_failure_changes_nothing (w w' : world) (self : addr)
    (username password : string) (e : exn) (t : transport) :
  heap w !! self = Some (OTransport t) ->
  Connector_get_auth_token net self username password w = Some (w', Raise e) ->
  heap w' = heap w /\ log w' = log w ++ [ticket_request t username password].
Proof.
  intros Hs H.
  unfold Connector_get_auth_token, get_connector, bind, get_transport, send in H.
  rewrite Hs in H. unfold ret, raise, stuck, put_transport in H.
  destruct (cls t) eqn:Hc; try discriminate H.
  cbn [heap log] in H. cbv zeta in H.
  change (net _) with (net (ticket_request t username password)) in H.
  repeat match type of H with
         | context [match ?x with _ => _ end] => destruct x eqn:?
         | context [if ?b then _ else _] => destruct b eqn:?
         end; try discriminate H; by injection H as <- _.
Qed.

End Tickets.

(** ** A chain that ends in a bare call *)

Lemma root_chain_bare_call (net : request -> reply) (steps : list step) (w : world)
    (r : addr) (t : transport) (k0 : string) (kwargs : pydict pyval) :
  heap w !! r = Some (OTransport t) ->
  is_root t ->
  bound_name (transport_names (cls t)) k0 = false ->
  forallb extends_path steps = true ->
  dict_get "self" kwargs = None ->
  exists (w1 : world) (res : result pyval),
    log w1 = log w
    /\ heap w1 !! r = Some (OTransport t)
    /\ (exists objs : list obj, heap w1 = heap w ++ objs)
    /\ transport_call net GET r (fold_left seg_path steps k0) (or_None kwargs) w1
       = Some (logged w1 (verb_request t GET (fold_left seg_path steps k0) (or_None kwargs)),
               res)
    /\ run_chain net (VObj r) (SAttr k0 :: steps ++ [SCall [] kwargs]) w
       = Some (logged w1 (verb_request t GET (fold_left seg_path steps k0) (or_None kwargs)),
               as_data res).
Proof.
  intros Hr Hroot Hk Hok Hkw.
  destruct (root_chain_run net steps w r t k0 Hr Hroot Hk Hok)
    as (w' & a' & Hrun & Hobj & Hlog & objs & Hheap).
  assert (Hr1 : heap w' !! r = Some (OTransport t)).
  { rewrite Hheap. by apply lookup_app_l_Some. }
  destruct (bind_transport_call net w' r t GET (fold_left seg_path steps k0)
              (or_None kwargs) Hr1) as (res & Hcall & Hbind).
  exists w', res. split; [exact Hlog |]. split; [exact Hr1 |].
  split; [by exists objs |]. split; [exact Hcall |].
  change (SAttr k0 :: steps ++ [SCall [] kwargs])
    with ((SAttr k0 :: steps) ++ [SCall [] kwargs]).
  rewrite run_chain_app, Hrun. cbn [run_chain run_step]. unfold bind at 1.
  rewrite (bare_call_eq net w' a' _ kwargs Hobj eq_refl Hkw).
  cbn [parent method_name]. rewrite Hbind. by destruct res.
Qed.

(** ** [load_config] *)

Lemma dict_set_same {V : Type} (k : string) (v : V) (d : pydict V) :
  dict_get k d = Some v -> dict_set k v d = d.
Proof.
  induction d as [|[k' v'] d IH]; cbn; [discriminate |].
  destruct (String.eqb_spec k k') as [-> | Hne].
  - by intros [= ->].
  - intros H. by rewrite (IH H).
Qed.

Section LoadConfig.

Import ProxmoxiaAgent.

Variable fs : string -> file.
Variable env : string -> option string.

(** X17.  A configuration that [load_config] returns always carries a token:
    its ["auth"] section is an object whose ["token_value"] is present
    and true in the sense of [bool]. *)
Theorem load_config_token_is_set (config_path : string) (data : pyval) :
  load_config fs env config_path = Loaded data ->
  exists (auth : pydict pyval) (tv : pyval),
    subscript data "auth" = Ret (PyDict auth)
    /\ dict_get "token_value" auth = Some tv
    /\ truthy tv = true.
Proof.
  unfold load_config. destruct (fs config_path) as [| |d0]; try discriminate.
  destruct d0 as [| | | | | |d]; try discriminate.
  cbn [subscript]. destruct (dict_get "auth" d) as [[| | | | | |auth]|] eqn:Ha;
    try discriminate.
  assert (Hstore : forall tv, truthy tv = true ->
            store_token (PyDict d) auth tv = Loaded data ->
            exists (auth' : pydict pyval) (tv' : pyval),
              subscript data "auth" = Ret (PyDict auth')
              /\ dict_get "token_value" auth' = Some tv' /\ truthy tv' = true).
  { intros tv Htv [= <-]. eexists _, tv. cbn [subscript].
    rewrite dict_get_set_eq. split; [reflexivity |].
    by rewrite dict_get_set_eq. }
  cbv zeta.
  destruct (truthy match dict_get "token_value" auth with Some v => v | None => PyNone end)
    eqn:Htv; [by apply Hstore |].
  destruct (negb (truthy match dict_get "token_env_var" auth with
                         | Some v => v | None => PyNone end)); [discriminate |].
  destruct (match dict_get "token_env_var" auth with Some v => v | None => PyNone end);
    try discriminate.
  destruct (env s) as [s'|]; [| discriminate].
  destruct (truthy (PyStr s')) eqn:Hs'; [by apply Hstore | discriminate].
Qed.

(** X18.  A token in the file wins: when the ["auth"] section of the file has a
    true ["token_value"], [load_config] returns the document as it was
    read, whatever the environment holds. *)
Theorem load_config_prefers_file_token (config_path : string) (data : pyval)
    (auth : pydict pyval) (tv : pyval) :
  fs config_path = Json data ->
  subscript data "auth" = Ret (PyDict auth) ->
  dict_get "token_value" auth = Some tv ->
  truthy tv = true ->
  load_config fs env config_path = Loaded data.
Proof.
  intros Hfs Ha Htv Ht. unfold load_config. rewrite Hfs, Ha, Htv, Ht.
  destruct data as [| | | | | |d]; try discriminate Ha.
  cbn [subscript] in Ha. destruct (dict_get "auth" d) as [x|] eqn:E; [| discriminate Ha].
  injection Ha as ->. unfold store_token.
  by rewrite (dict_set_same "token_value" tv auth Htv), (dict_set_same "auth" _ d E).
Qed.

(** X19.  Without a true ["token_value"] in the file, a ["token_env_var"] that
    names a variable set to a non-empty string supplies the token: the
    returned document has that string under ["auth"]["token_value"], and
    every other key of the ["auth"] section and of the document is bound
    as in the file. *)
Theorem load_config_env_fallback (config_path : string) (d auth : pydict pyval)
    (name s : string) :
  fs config_path = Json (PyDict d) ->
  dict_get "auth" d = Some (PyDict auth) ->
  truthy (match dict_get "token_value" auth with Some v => v | None => PyNone end) = false ->
  dict_get "token_env_var" auth = Some (PyStr name) ->
  name <> "" ->
  env name = Some s ->
  s <> "" ->
  exists d' auth' : pydict pyval,
    load_config fs env config_path = Loaded (PyDict d')
    /\ dict_get "auth" d' = Some (PyDict auth')
    /\ dict_get "token_value" auth' = Some (PyStr s)
    /\ (forall k : string, k <> "token_value" -> dict_get k auth' = dict_get k auth)
    /\ (forall k : string, k <> "auth" -> dict_get k d' = dict_get k d).
Proof.
  intros Hfs Ha Htv Hvar Hname Henv Hs.
  exists (dict_set "auth" (PyDict (dict_set "token_value" (PyStr s) auth)) d),
    (dict_set "token_value" (PyStr s) auth).
  split.
  { unfold load_config. rewrite Hfs. cbn [subscript]. rewrite Ha. cbv zeta.
    rewrite Htv, Hvar. cbn [truthy negb].
    destruct (String.eqb_spec name "") as [-> | _]; [done |]. cbn [negb].
    rewrite Henv. destruct (String.eqb_spec s "") as [-> | _]; [done |]. reflexivity. }
  split; [apply dict_get_set_eq |]. split; [apply dict_get_set_eq |].
  split; intros k Hk; apply dict_get_set_ne; congruence.
Qed.

(** X20.  Without a true ["token_value"] in the file, [load_config] raises
    [RuntimeError]: with one message when ["token_env_var"] is missing or
    empty, and with a message that names the variable when the variable
    is unset or set to the empty string. *)
Theorem load_config_token_unresolved (config_path : string) (d auth : pydict pyval) :
  fs config_path = Json (PyDict d) ->
  dict_get "auth" d = Some (PyDict auth) ->
  truthy (match dict_get "token_value" auth with Some v => v | None => PyNone end) = false ->
  (truthy (match dict_get "token_env_var" auth with Some v => v | None => PyNone end) = false ->
   load_config fs env config_path
   = Failed (RuntimeError "No token_value or token_env_var configured"))
  /\ (forall name : string,
        dict_get "token_env_var" auth = Some (PyStr name) ->
        name <> "" ->
        env name = None \/ env name = Some "" ->
        load_config fs env config_path
        = Failed (RuntimeError ("Environment variable " +:+ name +:+ " is not set"))).
Proof.
  intros Hfs Ha Htv. unfold load_config. rewrite Hfs. cbn [subscript]. rewrite Ha.
  cbv zeta. rewrite Htv. split.
  - by intros ->.
  - intros name -> Hname Henv. cbn [truthy].
    destruct (String.eqb_spec name "") as [-> | _]; [done |]. cbn [negb].
    by destruct Henv as [-> | ->].
Qed.

End LoadConfig.

(** ** [connect] and the requests of a connected client *)

Lemma ConnectorAPI___init___eq (c : transport_class) (hostname : string) (port_ : Z)
    (verify_ssl_ : bool) (w : world) :
  ConnectorAPI___init__ c hostname port_ verify_ssl_ w
  = Some ({| heap := (heap w
               ++ [OTransport
                     {| cls := c; host := hostname; port := port_;
                        verify_ssl := verify_ssl_;
                        baseurl := "https://" +:+ hostname +:+ ":" +:+ pretty port_
                                   +:+ "/api2/json";
                        session := S (length (heap w)); _auth := None;
                        conn := None; node := None |}])
               ++ [OSession];
             log := log w |},
          Ret (length (heap w))).
Proof. reflexivity. Qed.

Lemma use_api_token_eq (w : world) (self : addr) (t : transport)
    (username token_name token_value : string) :
  heap w !! self = Some (OTransport t) ->
  cls t = ClsConnector ->
  contains_char "@" username = true ->
  Connector_use_api_token self username token_name token_value w
  = Some ({| heap := <[self := OTransport
                        (set_auth (Some {| ticket := None; csrf := None;
                                           token_header :=
                                             Some ("PVEAPIToken=" +:+ username +:+ "!"
                                                   +:+ token_name +:+ "=" +:+ token_value) |})
                           t)]> (heap w);
             log := log w |},
          Ret {| ticket := None; csrf := None;
                 token_header := Some ("PVEAPIToken=" +:+ username +:+ "!"
                                       +:+ token_name +:+ "=" +:+ token_value) |}).
Proof.
  intros Hs Hc Hat.
  unfold Connector_use_api_token, get_connector, bind, get_transport, put_transport, ret.
  by rewrite Hs, Hc, Hat.
Qed.

Section Connect.

Import ProxmoxiaAgent.

Variable net : request -> reply.

(** X21.  [connect] sends nothing: whatever the configuration, and whether it
    returns or raises, the log of requests is as it was. *)
Theorem connect_sends_nothing (cfg : pyval) (w w' : world) (res : result addr) :
  connect cfg w = Some (w', res) -> log w' = log w.
Proof.
  unfold connect, lift, bind.
  destruct (subscript cfg "proxmox") as [prox|e]; [| by intros [= <- _]].
  destruct (subscript cfg "auth") as [auth|e]; [| by intros [= <- _]].
  destruct (subscript prox "host") as [h|e]; [| by intros [= <- _]].
  destruct (get_default prox "port" (PyInt 8006)) as [p|e]; [| by intros [= <- _]].
  destruct (get_default prox "verify_ssl" (PyBool true)) as [b|e]; [| by intros [= <- _]].
  destruct h as [| | | |h| |]; try discriminate.
  destruct p as [| |p| | | |]; try discriminate.
  destruct b as [|b| | | | |]; try discriminate.
  rewrite ConnectorAPI___init___eq.
  destruct (subscript auth "user") as [u|e]; [| by intros [= <- _]].
  destruct (subscript auth "token_name") as [tn|e]; [| by intros [= <- _]].
  destruct (subscript auth "token_value") as [tv|e]; [| by intros [= <- _]].
  destruct u as [| | | |u| |]; try discriminate.
  destruct tn as [| | | |tn| |]; try discriminate.
  destruct tv as [| | | |tv| |]; try discriminate.
  set (w1 := {| heap := _; log := log w |}).
  assert (Hc : heap w1 !! length (heap w) = Some (OTransport
            {| cls := ClsConnector; host := h; port := p; verify_ssl := b;
               baseurl := "https://" +:+ h +:+ ":" +:+ pretty p +:+ "/api2/json";
               session := S (length (heap w)); _auth := None;
               conn := None; node := None |})) by apply lookup_new_pair.
  destruct (contains_char "@" u) eqn:Hat.
  - rewrite (use_api_token_eq w1 _ _ u tn tv Hc eq_refl Hat).
    set (w2 := {| heap := _; log := log w1 |}).
    eassert (Hc2 : heap w2 !! length (heap w) = Some (OTransport _)).
    { cbn [heap w2]. apply list_lookup_insert_eq. by eapply lookup_old_lt. }
    unfold Proxmox. rewrite (Proxmox___init___eq ClsProxmox w2 _ _ Hc2).
    by intros [= <- _].
  - unfold Connector_use_api_token, get_connector, bind, get_transport.
    rewrite Hc. cbn [cls]. unfold ret. rewrite Hat. by intros [= <- _].
Qed.

End Connect.

Section ConnectedClient.

Import ProxmoxiaAgent.

Variable net : request -> reply.

Lemma connect_run (cfg : pyval) (w : world) (px au : pydict pyval)
    (h u tn tv : string) (p : Z) (b : bool) :
  subscript cfg "proxmox" = Ret (PyDict px) ->
  subscript cfg "auth" = Ret (PyDict au) ->
  dict_get "host" px = Some (PyStr h) ->
  get_default (PyDict px) "port" (PyInt 8006) = Ret (PyInt p) ->
  get_default (PyDict px) "verify_ssl" (PyBool true) = Ret (PyBool b) ->
  dict_get "user" au = Some (PyStr u) ->
  dict_get "token_name" au = Some (PyStr tn) ->
  dict_get "token_value" au = Some (PyStr tv) ->
  contains_char "@" u = true ->
  let tok := {| ticket := None; csrf := None;
                token_header := Some ("PVEAPIToken=" +:+ u +:+ "!" +:+ tn +:+ "=" +:+ tv) |} in
  let base := "https://" +:+ h +:+ ":" +:+ pretty p +:+ "/api2/json" in
  connect cfg w
  = Some ({| heap := (((heap w
               ++ [OTransport {| cls := ClsConnector; host := h; port := p;
                                 verify_ssl := b; baseurl := base;
                                 session := S (length (heap w)); _auth := Some tok;
                                 conn := None; node := None |}])
               ++ [OSession])
               ++ [OTransport {| cls := ClsProxmox; host := h; port := p;
                                 verify_ssl := b; baseurl := base;
                                 session := S (length (heap w)); _auth := Some tok;
                                 conn := Some (length (heap w)); node := None |}])
               ++ [OSession];
             log := log w |},
          Ret (S (S (length (heap w))))).
Proof.
  intros Hpx Hau Hh Hp Hb Hu Htn Htv Hat. cbv zeta.
  set (tok := {| ticket := None; csrf := None;
                 token_header := Some ("PVEAPIToken=" +:+ u +:+ "!" +:+ tn +:+ "=" +:+ tv) |}).
  set (base := "https://" +:+ h +:+ ":" +:+ pretty p +:+ "/api2/json").
  unfold connect, lift. unfold bind at 1. rewrite Hpx.
  unfold bind at 1. rewrite Hau. unfold bind at 1. cbn [subscript]. rewrite Hh.
  unfold bind at 1. rewrite Hp. unfold bind at 1. rewrite Hb.
  unfold bind at 1. rewrite ConnectorAPI___init___eq. fold base.
  unfold bind at 1. rewrite Hu. unfold bind at 1. rewrite Htn.
  unfold bind at 1. rewrite Htv. unfold bind at 1.
  set (c0 := {| cls := ClsConnector; host := h; port := p; verify_ssl := b;
               baseurl := base; session := S (length (heap w)); _auth := None;
               conn := None; node := None |}).
  set (w1 := {| heap := (heap w ++ [OTransport c0]) ++ [OSession]; log := log w |}).
  assert (Hc : heap w1 !! length (heap w) = Some (OTransport c0)) by apply lookup_new_pair.
  rewrite (use_api_token_eq w1 _ c0 u tn tv Hc eq_refl Hat).
  cbn [heap log w1]. rewrite insert_new_pair. fold tok.
  set (w2 := {| heap := (heap w ++ [OTransport (set_auth (Some tok) c0)]) ++ [OSession];
                log := log w |}).
  assert (Hc2 : heap w2 !! length (heap w) = Some (OTransport (set_auth (Some tok) c0)))
    by apply lookup_new_pair.
  unfold Proxmox. rewrite (Proxmox___init___eq ClsProxmox w2 _ _ Hc2).
  cbn [heap log w2 set_auth c0 cls host port verify_ssl baseurl session _auth conn node].
  rewrite !length_app. cbn [length]. rewrite !Nat.add_1_r. reflexivity.
Qed.

(** X22.  A client made by [connect] from a configuration with a host, a user
    that contains ["@"], a token name and a token value (the port
    defaulting to 8006 and certificate verification to [True]) sends, for
    a chain that builds a path and ends in a bare call, exactly one
    request: a GET of [https://<host>:<port>/api2/json/<path>] with the
    keyword arguments as query parameters, the headers [Accept] and
    [Authorization: PVEAPIToken=<user>!<token_name>=<token_value>], and
    the configured verification flag.  No call of the chain is given a
    keyword argument named [self]. *)
Theorem connect_then_get (cfg : pyval) (w : world) (px au : pydict pyval)
    (h u tn tv : string) (p : Z) (b : bool) (k0 : string) (steps : list step)
    (kwargs : pydict pyval) :
  subscript cfg "proxmox" = Ret (PyDict px) ->
  subscript cfg "auth" = Ret (PyDict au) ->
  dict_get "host" px = Some (PyStr h) ->
  get_default (PyDict px) "port" (PyInt 8006) = Ret (PyInt p) ->
  get_default (PyDict px) "verify_ssl" (PyBool true) = Ret (PyBool b) ->
  dict_get "user" au = Some (PyStr u) ->
  dict_get "token_name" au = Some (PyStr tn) ->
  dict_get "token_value" au = Some (PyStr tv) ->
  contains_char "@" u = true ->
  bound_name (transport_names ClsProxmox) k0 = false ->
  forallb extends_path steps = true ->
  dict_get "self" kwargs = None ->
  exists (w' : world) (res : result value),
    (let! client := connect cfg in
     run_chain net (VObj client) (SAttr k0 :: steps ++ [SCall [] kwargs])) w
    = Some (w', res)
    /\ log w'
       = log w
         ++ [{| method := "GET";
                url := ("https://" +:+ h +:+ ":" +:+ pretty p +:+ "/api2/json")
                       +:+ "/" +:+ fold_left seg_path steps k0;
                params := or_None kwargs; data := None;
                headers := [("Accept", "application/json");
                            ("Authorization",
                             "PVEAPIToken=" +:+ u +:+ "!" +:+ tn +:+ "=" +:+ tv)];
                verify := b; timeout := 30; via := S (length (heap w)) |}].
Proof.
  intros Hpx Hau Hh Hp Hb Hu Htn Htv Hat Hk Hok Hkw.
  pose proof (connect_run cfg w px au h u tn tv p b Hpx Hau Hh Hp Hb Hu Htn Htv Hat) as Hrun.
  cbv zeta in Hrun. unfold bind at 1. rewrite Hrun.
  set (tok := {| ticket := None; csrf := None;
                 token_header := Some ("PVEAPIToken=" +:+ u +:+ "!" +:+ tn +:+ "=" +:+ tv) |}).
  set (root := {| cls := ClsProxmox; host := h; port := p; verify_ssl := b;
                  baseurl := "https://" +:+ h +:+ ":" +:+ pretty p +:+ "/api2/json";
                  session := S (length (heap w)); _auth := Some tok;
                  conn := Some (length (heap w)); node := None |}).
  set (w2 := {| heap := _; log := log w |}).
  assert (Hr : heap w2 !! S (S (length (heap w))) = Some (OTransport root)).
  { cbn [heap w2]. apply lookup_alloc_old.
    match goal with
    | |- (?l ++ [_]) !! _ = _ =>
        replace (S (S (length (heap w)))) with (length l)
          by (rewrite !length_app; cbn [length]; lia)
    end.
    apply lookup_alloc_new. }
  destruct (root_chain_bare_call net steps w2 _ root k0 kwargs Hr (or_introl eq_refl) Hk Hok
              Hkw)
    as (w3 & res & Hlog & _ & _ & _ & Hchain).
  rewrite Hchain. eexists _, _. split; [reflexivity |].
  cbn [log logged]. rewrite Hlog. reflexivity.
Qed.

End ConnectedClient.

Lemma connect_then_get_witness :
  exists (w' : world) (res : result value),
    (let! client := ProxmoxiaAgent.connect
        (PyDict [("proxmox", PyDict [("host", PyStr "pve.local")]);
                 ("auth", PyDict [("user", PyStr "api@pve"); ("token_name", PyStr "demo");
                                  ("token_value", PyStr "abc123")])]) in
     run_chain (always 200 (Some (PyDict [("data", PyList [])]))) (VObj client)
       (SAttr "nodes" :: [SCall [AStr "pve1"] []; SAttr "qemu"] ++ [SCall [] []]))
      {| heap := []; log := [] |}
    = Some (w', res)
    /\ log w'
       = [] ++ [{| method := "GET";
                   url := "https://pve.local:8006/api2/json/nodes/pve1/qemu";
                   params := None; data := None;
                   headers := [("Accept", "application/json");
                               ("Authorization", "PVEAPIToken=api@pve!demo=abc123")];
                   verify := true; timeout := 30; via := 1%nat |}].
Proof.
  apply (connect_then_get (always 200 (Some (PyDict [("data", PyList [])])))
           (PyDict [("proxmox", PyDict [("host", PyStr "pve.local")]);
                    ("auth", PyDict [("user", PyStr "api@pve"); ("token_name", PyStr "demo");
                                     ("token_value", PyStr "abc123")])])
           {| heap := []; log := [] |}
           [("host", PyStr "pve.local")]
           [("user", PyStr "api@pve"); ("token_name", PyStr "demo");
            ("token_value", PyStr "abc123")]
           "pve.local" "api@pve" "demo" "abc123" 8006 true "nodes"
           [SCall [AStr "pve1"] []; SAttr "qemu"] []); reflexivity.
Defined.

(** ** Which token a request carries *)

Section TokensAndRoots.

Variable net : request -> reply.

(** X23.  [Proxmox(conn)] reads the connector's token once, when it is built.
    A token set on the connector afterwards is stored on the connector
    and not on the root: the root's requests go out with the headers of
    the token the connector had at construction, none beyond [Accept] if
    it had none. *)
Theorem root_keeps_token_of_construction (w : world) (c : addr) (ct : transport)
    (username token_name token_value : string) :
  heap w !! c = Some (OTransport ct) ->
  cls ct = ClsConnector ->
  contains_char "@" username = true ->
  exists (w' : world) (r : addr) (tr tc : transport),
    (let! r := Proxmox c in
     let! _ := Connector_use_api_token c username token_name token_value in
     ret r) w = Some (w', Ret r)
    /\ heap w' !! r = Some (OTransport tr)
    /\ _auth tr = _auth ct
    /\ heap w' !! c = Some (OTransport tc)
    /\ _auth tc = Some {| ticket := None; csrf := None;
                          token_header := Some ("PVEAPIToken=" +:+ username +:+ "!"
                                                +:+ token_name +:+ "=" +:+ token_value) |}
    /\ forall (v : verb) (path : string) (ps : option (pydict pyval)),
         exists (req : request) (res : result pyval),
           transport_call net v r path ps w' = Some (logged w' req, res)
           /\ headers req = match _auth ct with
                            | Some a => apply a [("Accept", "application/json")]
                            | None => [("Accept", "application/json")]
                            end.
Proof.
  intros Hc Hcls Hat. unfold bind at 1. unfold Proxmox.
  rewrite (Proxmox___init___eq ClsProxmox w c ct Hc).
  set (root := {| cls := ClsProxmox; host := host ct; port := port ct;
                  verify_ssl := verify_ssl ct;
                  baseurl := "https://" +:+ host ct +:+ ":" +:+ pretty (port ct)
                             +:+ "/api2/json";
                  session := session ct; _auth := _auth ct; conn := Some c;
                  node := None |}).
  set (w1 := {| heap := (heap w ++ [OTransport root]) ++ [OSession]; log := log w |}).
  assert (Hc1 : heap w1 !! c = Some (OTransport ct)) by (by do 2 apply lookup_alloc_old).
  unfold bind at 1.
  rewrite (use_api_token_eq w1 c ct username token_name token_value Hc1 Hcls Hat).
  unfold ret.
  assert (Hlt : (c < length (heap w))%nat) by (by eapply lookup_old_lt).
  eexists _, _, root, _. split; [reflexivity |]. cbn [heap log w1].
  assert (Hr : <[c := OTransport
                   (set_auth (Some {| ticket := None; csrf := None;
                                      token_header :=
                                        Some ("PVEAPIToken=" +:+ username +:+ "!"
                                              +:+ token_name +:+ "=" +:+ token_value) |})
                      ct)]> ((heap w ++ [OTransport root]) ++ [OSession])
               !! length (heap w) = Some (OTransport root)).
  { rewrite list_lookup_insert_ne by lia. apply lookup_new_pair. }
  split; [exact Hr |]. split; [reflexivity |].
  split; [apply list_lookup_insert_eq; rewrite !length_app; cbn [length]; lia |].
  split; [reflexivity |].
  intros v path ps. eexists _, _. split.
  - apply transport_call_eq. exact Hr.
  - by destruct v.
Qed.

(** X24.  [use_api_token] replaces the stored token as a whole: whatever ticket
    or token the connector held before, its requests afterwards carry
    [Accept] and [Authorization] and no cookie or CSRF header. *)
Theorem token_replaces_previous_authentication (w : world) (c : addr) (ct : transport)
    (username token_name token_value : string) :
  heap w !! c = Some (OTransport ct) ->
  cls ct = ClsConnector ->
  contains_char "@" username = true ->
  exists (w' : world) (tok : ProxmoxAuthToken),
    Connector_use_api_token c username token_name token_value w = Some (w', Ret tok)
    /\ forall (v : verb) (path : string) (ps : option (pydict pyval)),
         exists (req : request) (res : result pyval),
           transport_call net v c path ps w' = Some (logged w' req, res)
           /\ headers req
              = [("Accept", "application/json");
                 ("Authorization",
                  "PVEAPIToken=" +:+ username +:+ "!" +:+ token_name
                  +:+ "=" +:+ token_value)].
Proof.
  intros Hc Hcls Hat.
  rewrite (use_api_token_eq w c ct username token_name token_value Hc Hcls Hat).
  eexists _, _. split; [reflexivity |].
  intros v path ps. eexists _, _. split.
  - apply transport_call_eq. cbn [heap]. apply list_lookup_insert_eq.
    by eapply lookup_old_lt.
  - by destruct v.
Qed.

(** X25.  After a ticket has been granted, a root built from the connector
    sends the ticket as a cookie and the CSRF token as a header, beside
    [Accept], when both are non-empty. *)
Theorem ticket_headers_on_requests (w : world) (c : addr) (ct : transport)
    (username password : string) (r : response) (payload d : pydict pyval)
    (tk cs : string) :
  heap w !! c = Some (OTransport ct) ->
  cls ct = ClsConnector ->
  net (ticket_request ct username password) = Answer r ->
  raise_for_status r = false ->
  json r = Some (PyDict payload) ->
  dict_get "data" payload = Some (PyDict d) ->
  dict_get "ticket" d = Some (PyStr tk) ->
  dict_get "CSRFPreventionToken" d = Some (PyStr cs) ->
  tk <> "" -> cs <> "" ->
  exists (w' : world) (root : addr),
    (let! _ := Connector_get_auth_token net c username password in Proxmox c) w
    = Some (w', Ret root)
    /\ log w' = log w ++ [ticket_request ct username password]
    /\ forall (v : verb) (path : string) (ps : option (pydict pyval)),
         exists (req : request) (res : result pyval),
           transport_call net v root path ps w' = Some (logged w' req, res)
           /\ headers req
              = [("Accept", "application/json");
                 ("Cookie", "PVEAuthCookie=" +:+ tk);
                 ("CSRFPreventionToken", cs)].
Proof.
  intros Hc Hcls Hnet Hok Hjson Hdata Htk Hcs Htk0 Hcs0. unfold bind.
  rewrite (ticket_granted_is_stored_aux net w c ct username password r payload d tk cs
             Hc Hcls Hnet Hok Hjson Hdata Htk Hcs).
  set (tok := {| ticket := Some tk; csrf := Some cs; token_header := None |}).
  set (w1 := {| heap := _; log := _ |}).
  assert (Hc1 : heap w1 !! c = Some (OTransport (set_auth (Some tok) ct))).
  { cbn [heap w1]. apply list_lookup_insert_eq. by eapply lookup_old_lt. }
  unfold Proxmox. rewrite (Proxmox___init___eq ClsProxmox w1 c _ Hc1).
  eexists _, _. split; [reflexivity |]. split; [reflexivity |].
  intros v path ps. eexists _, _. split.
  - apply transport_call_eq. cbn [heap]. apply lookup_new_pair.
  - apply String.eqb_neq in Htk0, Hcs0.
    destruct v; cbn [verb_request sent_request headers _auth set_auth];
      unfold apply; cbn [ticket csrf token_header truthy_ostr tok];
      rewrite Htk0, Hcs0; reflexivity.
Qed.

End TokensAndRoots.

(** ** [cmd_vms] *)

Section CmdVms.

Import ProxmoxiaAgent.

Variable net : request -> reply.

Lemma transport_call_answers (w : world) (p : addr) (t : transport) (v : verb)
    (path : string) (ps : option (pydict pyval)) (d : pyval) :
  heap w !! p = Some (OTransport t) ->
  answers net (verb_request t v path ps) d ->
  transport_call net v p path ps w = Some (logged w (verb_request t v path ps), Ret d).
Proof.
  intros Hp (r & payload & Hnet & Hok & Hjson & Hd).
  rewrite (transport_call_eq net w p t v path ps Hp). cbv zeta.
  by rewrite Hnet, Hok, Hjson, Hd.
Qed.

(** One [Node(conn, name).qemu()]: three objects more, one request. *)
Lemma node_qemu_chain (w : world) (c : addr) (ct : transport) (name : string) :
  heap w !! c = Some (OTransport ct) ->
  exists (w1 : world) (res : result pyval),
    (let! n := Node c name in
     run_chain net (VObj n) [SAttr "qemu"; SCall [] []]) w
    = Some (logged w1 (qemu_request_of ct name), as_data res)
    /\ log w1 = log w
    /\ (exists objs : list obj, heap w1 = heap w ++ objs)
    /\ (forall d : pyval, answers net (qemu_request_of ct name) d -> res = Ret d).
Proof.
  intros Hc. unfold bind at 1. rewrite (Node_eq w c ct name Hc).
  set (tn := {| cls := ClsNode; host := host ct; port := port ct;
                verify_ssl := verify_ssl ct;
                baseurl := ("https://" +:+ host ct +:+ ":" +:+ pretty (port ct)
                            +:+ "/api2/json") +:+ "/nodes/" +:+ name;
                session := session ct; _auth := _auth ct; conn := Some c;
                node := Some name |}).
  set (w0 := {| heap := (heap w ++ [OTransport tn]) ++ [OSession]; log := log w |}).
  assert (Hn : heap w0 !! length (heap w) = Some (OTransport tn)) by apply lookup_new_pair.
  destruct (root_chain_bare_call net [] w0 (length (heap w)) tn "qemu" []
              Hn (or_intror eq_refl) eq_refl eq_refl eq_refl)
    as (w1 & res & Hlog & Hn1 & (objs & Hheap) & Hcall & Hchain).
  exists w1, res. split; [exact Hchain |]. split; [exact Hlog |]. split.
  - exists ([OTransport tn; OSession] ++ objs). rewrite Hheap. cbn [heap w0].
    by rewrite <- !app_assoc.
  - intros d Hd.
    pose proof (transport_call_answers w1 _ tn GET "qemu" None d Hn1 Hd) as Hret.
    cbn [fold_left or_None] in Hcall. rewrite Hret in Hcall. by injection Hcall as <-.
Qed.

Lemma cmd_vms_loop_run (entries : list pyval) (names : list string)
    (vmss : list (list pyval)) (client c : addr) (tr ct : transport) :
  conn tr = Some c ->
  Forall2 (fun e name => subscript e "node" = Ret (PyStr name)) entries names ->
  Forall2 (fun name l => answers net (qemu_request_of ct name) (PyList l)) names vmss ->
  forall (w : world) (vms : list pyval),
    heap w !! client = Some (OTransport tr) ->
    heap w !! c = Some (OTransport ct) ->
    exists w' : world,
      cmd_vms_loop net client entries vms w = Some (w', Ret (vms ++ concat vmss))
      /\ log w' = log w ++ map (qemu_request_of ct) names.
Proof.
  intros Hconn He. revert vmss.
  induction He as [|e name entries names Hname He IH]; intros vmss Hv w vms Hcl Hc.
  - inversion Hv; subst. exists w. cbn [cmd_vms_loop concat map].
    by rewrite !app_nil_r.
  - inversion Hv as [|? l ? vmss' Hl Hv']; subst.
    destruct (node_qemu_chain w c ct name Hc)
      as (w1 & res & Hchain & Hlog & (objs & Hheap) & Hans).
    rewrite (Hans _ Hl) in Hchain.
    set (w2 := logged w1 (qemu_request_of ct name)) in *.
    destruct (IH vmss' Hv' w2 (vms ++ l)) as (w' & Hloop & Hlog').
    { cbn [heap w2 logged]. rewrite Hheap. by apply lookup_app_l_Some. }
    { cbn [heap w2 logged]. rewrite Hheap. by apply lookup_app_l_Some. }
    exists w'. split.
    + cbn [cmd_vms_loop]. unfold client_conn, lift.
      unfold bind at 1. unfold bind at 1. unfold get_transport. rewrite Hcl, Hconn.
      unfold ret at 1. unfold bind at 1. rewrite Hname.
      unfold bind in Hchain. unfold bind at 1.
      destruct (Node c name w) as [[wn [n|en]]|]; try discriminate Hchain.
      unfold bind at 1. rewrite Hchain. cbn [as_data data_of].
      unfold bind at 1. unfold ret at 1. unfold bind at 1. cbn [iterate]. unfold ret at 1.
      rewrite Hloop. cbn [concat]. by rewrite app_assoc.
    + rewrite Hlog'. cbn [log w2 logged map]. rewrite Hlog. by rewrite <- app_assoc.
Qed.

(** X26.  [cmd_vms] without a node name (or with an empty one) asks the client
    for the nodes and then each named node for its machines, in the order
    of the listing, through a new [Node] over the client's connector:
    when the server answers each of these requests with a list, the
    requests sent are exactly the listing followed by one per node, and
    the value printed is the lists put end to end. *)
Theorem cmd_vms_visits_every_node (w : world) (client c : addr) (tr ct : transport)
    (entries : list pyval) (names : list string) (vmss : list (list pyval)) :
  heap w !! client = Some (OTransport tr) ->
  is_root tr ->
  conn tr = Some c ->
  heap w !! c = Some (OTransport ct) ->
  answers net (sent_request tr "GET" "nodes" None) (PyList entries) ->
  Forall2 (fun e name => subscript e "node" = Ret (PyStr name)) entries names ->
  Forall2 (fun name l => answers net (qemu_request_of ct name) (PyList l)) names vmss ->
  exists w' : world,
    cmd_vms net client None w = Some (w', Ret (PyList (concat vmss)))
    /\ cmd_vms net client (Some "") w = cmd_vms net client None w
    /\ log w' = log w ++ sent_request tr "GET" "nodes" None
                         :: map (qemu_request_of ct) names.
Proof.
  intros Hcl Hroot Hconn Hc Hnodes He Hv.
  assert (Hk : bound_name (transport_names (cls tr)) "nodes" = false)
    by (by destruct Hroot as [-> | ->]).
  destruct (root_chain_bare_call net [] w client tr "nodes" [] Hcl Hroot Hk eq_refl eq_refl)
    as (w1 & res & Hlog & Hcl1 & (objs & Hheap) & Hcall & Hchain).
  cbn [fold_left or_None app] in Hcall, Hchain.
  rewrite (transport_call_answers w1 client tr GET "nodes" None _ Hcl1 Hnodes) in Hcall.
  injection Hcall as <-.
  set (w2 := logged w1 (sent_request tr "GET" "nodes" None)) in *.
  destruct (cmd_vms_loop_run entries names vmss client c tr ct Hconn He Hv w2 [])
    as (w' & Hloop & Hlog').
  { cbn [heap w2 logged]. exact Hcl1. }
  { cbn [heap w2 logged]. rewrite Hheap. by apply lookup_app_l_Some. }
  exists w'. split; [| split; [reflexivity |]].
  - cbn [cmd_vms]. unfold cmd_vms_all. unfold bind at 1.
    cbn [verb_request] in Hchain. rewrite Hchain. cbn [as_data].
    unfold bind at 1. cbn [data_of]. unfold ret at 1.
    unfold bind at 1. cbn [iterate]. unfold ret at 1.
    unfold bind at 1. fold w2. rewrite Hloop. reflexivity.
  - rewrite Hlog'. cbn [log w2 logged]. rewrite Hlog. by rewrite <- app_assoc.
Qed.

(** X27.  [cmd_vms] with a non-empty node name sends one request, through a
    new [Node] over the client's connector: a GET of the connector's base
    URL followed by [/nodes/<name>/qemu], the name as given, with the
    headers of the token the connector holds at that moment; the value
    printed is the data of the answer. *)
Theorem cmd_vms_one_node (w : world) (client c : addr) (tr ct : transport)
    (name : string) :
  heap w !! client = Some (OTransport tr) ->
  conn tr = Some c ->
  heap w !! c = Some (OTransport ct) ->
  name <> "" ->
  exists (w' : world) (res : result pyval),
    cmd_vms net client (Some name) w = Some (w', res)
    /\ log w' = log w ++ [qemu_request_of ct name]
    /\ (forall d : pyval, answers net (qemu_request_of ct name) d -> res = Ret d).
Proof.
  intros Hcl Hconn Hc Hname.
  destruct (node_qemu_chain w c ct name Hc)
    as (w1 & res & Hchain & Hlog & _ & Hans).
  exists (logged w1 (qemu_request_of ct name)), res.
  split.
  - cbn [cmd_vms truthy_ostr]. apply String.eqb_neq in Hname. rewrite Hname. cbn [negb].
    unfold node_qemu, client_conn. unfold bind at 1. unfold bind at 1.
    unfold get_transport. rewrite Hcl, Hconn. unfold ret at 1.
    unfold bind in Hchain. unfold bind at 1.
    destruct (Node c name w) as [[wn [n|en]]|]; try discriminate Hchain.
    + unfold bind at 1. rewrite Hchain. by destruct res.
    + injection Hchain as -> Hres. destruct res; [discriminate Hres |].
      by injection Hres as ->.
  - split; [| exact Hans]. cbn [log logged]. by rewrite Hlog.
Qed.

End CmdVms.

(** ** The agent adapter *)

Lemma dict_get_absent {V : Type} (k : string) (d : pydict V) :
  k ∉ map fst d -> dict_get k d = None.
Proof.
  induction d as [|[k' v'] d IH]; [reflexivity |].
  cbn [map fst dict_get]. intros Hnin.
  apply not_elem_of_cons in Hnin as [Hne Hnin].
  destruct (String.eqb_spec k k'); [done | by apply IH].
Qed.

Lemma dict_update_get (m d : pydict pyval) (k : string) :
  NoDup (map fst m) ->
  dict_get k (Adapter.dict_update d m)
  = match dict_get k m with
    | Some v => Some v
    | None => dict_get k d
    end.
Proof.
  revert d. induction m as [|[k0 v0] m IH]; intros d Hnd; [reflexivity |].
  cbn [map fst] in Hnd. apply NoDup_cons in Hnd as [Hnin Hnd].
  unfold Adapter.dict_update. cbn [fold_left fst snd].
  fold (Adapter.dict_update (dict_set k0 v0 d) m). rewrite (IH _ Hnd).
  cbn [dict_get]. destruct (String.eqb_spec k k0) as [-> | Hne].
  - by rewrite (dict_get_absent k0 m Hnin), dict_get_set_eq.
  - rewrite dict_get_set_ne by congruence. reflexivity.
Qed.

(** X28.  The parameters of a plan made by [plan_vm_creation] bind each key of
    the metadata to the metadata's value, and each of [node], [vmid],
    [name], [cpu], [memory_mb] and [disk_gb] that the metadata does not
    bind to the corresponding argument: metadata overrides the named
    arguments.  The plan's action is [create_vm] and its [dry_run] flag is
    the one given. *)
Theorem plan_parameters_metadata_wins (node_ : string) (vm_id : Z) (name : string)
    (cpu memory_mb disk_gb : Z) (dry_run_ : bool) (md : pydict pyval) (k : string) :
  NoDup (map fst md) ->
  let plan := Adapter.plan_vm_creation node_ vm_id name cpu memory_mb disk_gb dry_run_
                (Some md) in
  dict_get k (Adapter.parameters plan)
  = match dict_get k md with
    | Some v => Some v
    | None =>
        dict_get k
          [("node", PyStr node_); ("vmid", PyInt vm_id); ("name", PyStr name);
           ("cpu", PyInt cpu); ("memory_mb", PyInt memory_mb); ("disk_gb", PyInt disk_gb)]
    end
  /\ Adapter.action plan = "create_vm"
  /\ Adapter.dry_run plan = dry_run_.
Proof.
  intros Hnd plan. split; [| by split].
  unfold plan, Adapter.plan_vm_creation. cbn [Adapter.parameters].
  destruct md as [|b md]; [reflexivity |]. by apply dict_update_get.
Qed.

Lemma owner_vmid_NoDup : NoDup (map fst [("owner", PyStr "ops"); ("vmid", PyInt 999)]).
Proof.
  cbn [map fst]. apply NoDup_cons. split.
  - intros H. apply list_elem_of_singleton in H. discriminate H.
  - apply NoDup_singleton.
Qed.

Lemma plan_parameters_metadata_wins_witness :
  dict_get "vmid"
    (Adapter.parameters
       (Adapter.plan_vm_creation "pve" 101 "demo-vm" 2 2048 32 true
          (Some [("owner", PyStr "ops"); ("vmid", PyInt 999)])))
  = Some (PyInt 999).
Proof.
  apply (proj1 (plan_parameters_metadata_wins "pve" 101 "demo-vm" 2 2048 32 true
                  [("owner", PyStr "ops"); ("vmid", PyInt 999)] "vmid"
                  owner_vmid_NoDup)).
Defined.

(** X29.  After a [connect] that returns a client, [api] returns that client,
    and [connect()] returns it again and leaves the adapter as it is: the
    factory is not called a second time. *)
Theorem adapter_connect_is_cached (Client Error : Type)
    (factory : nat -> Adapter.made Client Error) (force : bool)
    (a a' : Adapter.adapter Client) (c : Client) :
  Adapter.connect Client Error factory force a = (a', Adapter.Made Client Error (Some c)) ->
  Adapter.api Client a' = inl c
  /\ Adapter.connect Client Error factory false a'
     = (a', Adapter.Made Client Error (Some c)).
Proof.
  unfold Adapter.connect, Adapter.api.
  destruct (Adapter._api Client a) as [c0|] eqn:Ha.
  - destruct force; cbn [negb].
    + destruct (factory (Adapter.calls Client a)) as [r|e]; [| discriminate].
      intros [= <- ->]. by cbn.
    + intros [= <- <-]. by rewrite Ha.
  - destruct (factory (Adapter.calls Client a)) as [r|e]; [| discriminate].
    intros [= <- ->]. by cbn.
Qed.

Lemma adapter_connect_is_cached_witness :
  Adapter.api nat {| Adapter._api := Some 7%nat; Adapter.calls := 1 |} = inl 7%nat
  /\ Adapter.connect nat unit (fun k => Adapter.Made nat unit (Some (7 + k)%nat)) false
       {| Adapter._api := Some 7%nat; Adapter.calls := 1 |}
     = ({| Adapter._api := Some 7%nat; Adapter.calls := 1 |},
        Adapter.Made nat unit (Some 7%nat)).
Proof.
  apply (adapter_connect_is_cached nat unit
           (fun k => Adapter.Made nat unit (Some (7 + k)%nat)) false
           {| Adapter._api := None; Adapter.calls := 0 |}
           {| Adapter._api := Some 7%nat; Adapter.calls := 1 |} 7%nat).
  reflexivity.
Defined.

(** ** The properties above on the small world *)

Lemma bare_call_is_get_witness :
  exists (req : request) (res : result value),
    py_call (always 200 None) (VObj 4%nat) [] [] demo_built = Some (logged demo_built req, res)
    /\ run_chain (always 200 None) (VObj 4%nat) [SAttr "get"; SCall [] []] demo_built
       = Some (logged {| heap := heap demo_built
                           ++ [OAttr {| acls := ClsAttrGetMethod; parent := parent demo_nodes;
                                        method_name := method_name demo_nodes |}];
                         log := log demo_built |} req, res)
    /\ method req = "GET"
    /\ url req = baseurl demo_root +:+ "/" +:+ method_name demo_nodes
    /\ params req = or_None []
    /\ data req = None.
Proof.
  apply (bare_call_is_get (always 200 None) demo_built 4%nat demo_nodes demo_root []);
    reflexivity.
Defined.

Lemma call_arguments_split_witness :
  exists (w1 w2 : world) (a1 a2 : addr) (y : attr),
    run_chain (always 200 None) (VObj 4%nat) [SCall ([AStr "pve"] ++ [AInt 100]) []] demo_built
      = Some (w1, Ret (VObj a1))
    /\ run_chain (always 200 None) (VObj 4%nat) [SCall [AStr "pve"] []; SCall [AInt 100] []]
         demo_built = Some (w2, Ret (VObj a2))
    /\ heap w1 !! a1 = Some (OAttr y)
    /\ heap w2 !! a2 = Some (OAttr y)
    /\ log w1 = log demo_built /\ log w2 = log demo_built.
Proof.
  apply (call_arguments_split (always 200 None) demo_built 4%nat demo_nodes
           [AStr "pve"] [AInt 100] [] [] []); first [reflexivity | discriminate].
Defined.

Lemma call_appends_quoted_segment_witness :
  exists seg : string,
    py_call (always 200 None) (VObj 4%nat) [AStr "my node"] [] demo_built
    = Some ({| heap := heap demo_built
                 ++ [OAttr {| acls := ClsAttrMethod; parent := parent demo_nodes;
                              method_name := method_name demo_nodes +:+ "/" +:+ seg |}];
               log := log demo_built |},
            Ret (VObj (length (heap demo_built))))
    /\ str_forall (fun c => unescaped c || Ascii.eqb c "%") seg = true
    /\ (seg = "my node" <-> str_forall unescaped "my node" = true).
Proof.
  apply (call_appends_quoted_segment (always 200 None) demo_built 4%nat demo_nodes
           "my node" []); reflexivity.
Defined.

Lemma call_argument_determines_path_witness : "pve1" = "pve1".
Proof.
  apply (call_argument_determines_path (always 200 None) demo_built 4%nat demo_nodes
           "pve1" "pve1" [] [("x", PyInt 1)]); reflexivity.
Defined.

Lemma payload_not_an_object_witness :
  transport_call (always 200 (Some (PyList []))) GET 2%nat "nodes" None demo_world
  = Some (logged demo_world (verb_request demo_root GET "nodes" None), Raise AttributeError).
Proof.
  apply (payload_not_an_object (always 200 (Some (PyList []))) demo_world 2%nat demo_root
           GET "nodes" None {| status_code := 200; json := Some (PyList []) |} (PyList []));
    first [reflexivity | discriminate].
Defined.

Lemma ticket_granted_is_stored_witness :
  Connector_get_auth_token (always 200 (Some demo_ticket)) 0%nat "root@pam" "secret" demo_world
  = Some ({| heap := <[0%nat := OTransport
                        (set_auth (Some {| ticket := Some "T"; csrf := Some "C";
                                           token_header := None |}) demo_connector)]>
                       (heap demo_world);
             log := log demo_world ++ [ticket_request demo_connector "root@pam" "secret"] |},
          Ret {| ticket := Some "T"; csrf := Some "C"; token_header := None |}).
Proof.
  apply (ticket_granted_is_stored (always 200 (Some demo_ticket)) demo_world 0%nat
           demo_connector "root@pam" "secret"
           {| status_code := 200; json := Some demo_ticket |}
           [("data", PyDict [("ticket", PyStr "T"); ("CSRFPreventionToken", PyStr "C")])]
           [("ticket", PyStr "T"); ("CSRFPreventionToken", PyStr "C")] "T" "C");
    reflexivity.
Defined.

Lemma ticket_without_data_witness :
  Connector_get_auth_token (always 200 (Some (PyDict [("data", PyDict [])]))) 0%nat
    "root@pam" "secret" demo_world
  = Some (logged demo_world (ticket_request demo_connector "root@pam" "secret"),
          Raise ProxmoxAuthError).
Proof.
  apply (ticket_without_data (always 200 (Some (PyDict [("data", PyDict [])]))) demo_world
           0%nat demo_connector "root@pam" "secret"
           {| status_code := 200; json := Some (PyDict [("data", PyDict [])]) |}
           [("data", PyDict [])]); reflexivity.
Defined.

Lemma ticket_field_missing_witness :
  Connector_get_auth_token
    (always 200 (Some (PyDict [("data", PyDict [("ticket", PyStr "T")])]))) 0%nat
    "root@pam" "secret" demo_world
  = Some (logged demo_world (ticket_request demo_connector "root@pam" "secret"),
          Raise KeyError).
Proof.
  apply (ticket_field_missing
           (always 200 (Some (PyDict [("data", PyDict [("ticket", PyStr "T")])])))
           demo_world 0%nat demo_connector "root@pam" "secret"
           {| status_code := 200;
              json := Some (PyDict [("data", PyDict [("ticket", PyStr "T")])]) |}
           [("data", PyDict [("ticket", PyStr "T")])] [("ticket", PyStr "T")]);
    first [reflexivity | discriminate | right; split; [by eexists | reflexivity]].
Defined.

Lemma ticket_failure_changes_nothing_witness :
  heap (logged demo_world (ticket_request demo_connector "root@pam" "secret"))
    = heap demo_world
  /\ log (logged demo_world (ticket_request demo_connector "root@pam" "secret"))
    = log demo_world ++ [ticket_request demo_connector "root@pam" "secret"].
Proof.
  apply (ticket_failure_changes_nothing (always 500 None) demo_world
           (logged demo_world (ticket_request demo_connector "root@pam" "secret"))
           0%nat "root@pam" "secret" ProxmoxAuthError demo_connector); reflexivity.
Defined.

Lemma load_config_token_is_set_witness :
  exists (auth : pydict pyval) (tv : pyval),
    subscript (PyDict [("auth", PyDict [("user", PyStr "api@pve");
                                        ("token_env_var", PyStr "PVE_TOKEN");
                                        ("token_value", PyStr "s3cret")])]) "auth"
      = Ret (PyDict auth)
    /\ dict_get "token_value" auth = Some tv
    /\ truthy tv = true.
Proof.
  apply (load_config_token_is_set demo_files demo_env "with-variable.json").
  reflexivity.
Defined.

Lemma load_config_prefers_file_token_witness :
  ProxmoxiaAgent.load_config demo_files demo_env "with-token.json"
  = ProxmoxiaAgent.Loaded
      (PyDict [("auth", PyDict [("user", PyStr "api@pve"); ("token_value", PyStr "abc123")])]).
Proof.
  apply (load_config_prefers_file_token demo_files demo_env "with-token.json"
           (PyDict [("auth", PyDict [("user", PyStr "api@pve");
                                     ("token_value", PyStr "abc123")])])
           [("user", PyStr "api@pve"); ("token_value", PyStr "abc123")] (PyStr "abc123"));
    reflexivity.
Defined.

Lemma load_config_env_fallback_witness :
  exists d' auth' : pydict pyval,
    ProxmoxiaAgent.load_config demo_files demo_env "with-variable.json"
      = ProxmoxiaAgent.Loaded (PyDict d')
    /\ dict_get "auth" d' = Some (PyDict auth')
    /\ dict_get "token_value" auth' = Some (PyStr "s3cret")
    /\ (forall k : string, k <> "token_value" ->
          dict_get k auth'
          = dict_get k [("user", PyStr "api@pve"); ("token_env_var", PyStr "PVE_TOKEN")])
    /\ (forall k : string, k <> "auth" ->
          dict_get k d'
          = dict_get k [("auth", PyDict [("user", PyStr "api@pve");
                                         ("token_env_var", PyStr "PVE_TOKEN")])]).
Proof.
  apply (load_config_env_fallback demo_files demo_env "with-variable.json"
           [("auth", PyDict [("user", PyStr "api@pve"); ("token_env_var", PyStr "PVE_TOKEN")])]
           [("user", PyStr "api@pve"); ("token_env_var", PyStr "PVE_TOKEN")]
           "PVE_TOKEN" "s3cret"); first [reflexivity | discriminate].
Defined.

Lemma load_config_token_unresolved_witness :
  ProxmoxiaAgent.load_config demo_files (fun _ => None) "with-variable.json"
  = ProxmoxiaAgent.Failed
      (ProxmoxiaAgent.RuntimeError ("Environment variable " +:+ "PVE_TOKEN" +:+ " is not set")).
Proof.
  apply (proj2 (load_config_token_unresolved demo_files (fun _ => None) "with-variable.json"
                  [("auth", PyDict [("user", PyStr "api@pve");
                                    ("token_env_var", PyStr "PVE_TOKEN")])]
                  [("user", PyStr "api@pve"); ("token_env_var", PyStr "PVE_TOKEN")]
                  eq_refl eq_refl eq_refl) "PVE_TOKEN" eq_refl);
    first [discriminate | by left].
Defined.

Lemma connect_sends_nothing_witness :
  log {| heap := [OTransport
                    {| cls := ClsConnector; host := "pve.local"; port := 8006;
                       verify_ssl := true;
                       baseurl := "https://pve.local:8006/api2/json";
                       session := 1%nat; _auth := None; conn := None; node := None |};
                  OSession];
         log := [] |}
  = log {| heap := []; log := [] |}.
Proof.
  apply (connect_sends_nothing
           (PyDict [("proxmox", PyDict [("host", PyStr "pve.local")]);
                    ("auth", PyDict [("user", PyStr "api"); ("token_name", PyStr "demo");
                                     ("token_value", PyStr "abc123")])])
           {| heap := []; log := [] |} _ (Raise ProxmoxAuthError)).
  reflexivity.
Defined.

Lemma root_keeps_token_of_construction_witness :
  exists (w' : world) (r : addr) (tr tc : transport),
    (let! r := Proxmox 0%nat in
     let! _ := Connector_use_api_token 0%nat "api@pve" "demo" "abc123" in
     ret r) demo_world = Some (w', Ret r)
    /\ heap w' !! r = Some (OTransport tr)
    /\ _auth tr = _auth demo_connector
    /\ heap w' !! 0%nat = Some (OTransport tc)
    /\ _auth tc = Some {| ticket := None; csrf := None;
                          token_header := Some ("PVEAPIToken=" +:+ "api@pve" +:+ "!"
                                                +:+ "demo" +:+ "=" +:+ "abc123") |}
    /\ forall (v : verb) (path : string) (ps : option (pydict pyval)),
         exists (req : request) (res : result pyval),
           transport_call (always 200 None) v r path ps w' = Some (logged w' req, res)
           /\ headers req = match _auth demo_connector with
                            | Some a => apply a [("Accept", "application/json")]
                            | None => [("Accept", "application/json")]
                            end.
Proof.
  apply (root_keeps_token_of_construction (always 200 None) demo_world 0%nat demo_connector
           "api@pve" "demo" "abc123"); reflexivity.
Defined.

Lemma token_replaces_previous_authentication_witness :
  exists (w' : world) (tok : ProxmoxAuthToken),
    Connector_use_api_token 0%nat "api@pve" "demo" "abc123" demo_world = Some (w', Ret tok)
    /\ forall (v : verb) (path : string) (ps : option (pydict pyval)),
         exists (req : request) (res : result pyval),
           transport_call (always 200 None) v 0%nat path ps w' = Some (logged w' req, res)
           /\ headers req
              = [("Accept", "application/json");
                 ("Authorization",
                  "PVEAPIToken=" +:+ "api@pve" +:+ "!" +:+ "demo" +:+ "=" +:+ "abc123")].
Proof.
  apply (token_replaces_previous_authentication (always 200 None) demo_world 0%nat
           demo_connector "api@pve" "demo" "abc123"); reflexivity.
Defined.

Lemma ticket_headers_on_requests_witness :
  exists (w' : world) (root : addr),
    (let! _ := Connector_get_auth_token (always 200 (Some demo_ticket)) 0%nat
                 "root@pam" "secret" in Proxmox 0%nat) demo_world
    = Some (w', Ret root)
    /\ log w' = log demo_world ++ [ticket_request demo_connector "root@pam" "secret"]
    /\ forall (v : verb) (path : string) (ps : option (pydict pyval)),
         exists (req : request) (res : result pyval),
           transport_call (always 200 (Some demo_ticket)) v root path ps w'
           = Some (logged w' req, res)
           /\ headers req
              = [("Accept", "application/json");
                 ("Cookie", "PVEAuthCookie=" +:+ "T");
                 ("CSRFPreventionToken", "C")].
Proof.
  apply (ticket_headers_on_requests (always 200 (Some demo_ticket)) demo_world 0%nat
           demo_connector "root@pam" "secret"
           {| status_code := 200; json := Some demo_ticket |}
           [("data", PyDict [("ticket", PyStr "T"); ("CSRFPreventionToken", PyStr "C")])]
           [("ticket", PyStr "T"); ("CSRFPreventionToken", PyStr "C")] "T" "C");
    first [reflexivity | discriminate].
Defined.

Lemma demo_cluster_answers_nodes :
  answers demo_cluster (sent_request demo_root "GET" "nodes" None)
    (PyList [PyDict [("node", PyStr "pve1")]]).
Proof. eexists _, _. repeat split; reflexivity. Qed.

Lemma demo_cluster_answers_qemu :
  answers demo_cluster (qemu_request_of demo_connector "pve1")
    (PyList [PyDict [("vmid", PyInt 100)]]).
Proof. eexists _, _. repeat split; reflexivity. Qed.

Lemma cmd_vms_visits_every_node_witness :
  exists w' : world,
    ProxmoxiaAgent.cmd_vms demo_cluster 2%nat None demo_world
      = Some (w', Ret (PyList (concat [[PyDict [("vmid", PyInt 100)]]])))
    /\ ProxmoxiaAgent.cmd_vms demo_cluster 2%nat (Some "") demo_world
       = ProxmoxiaAgent.cmd_vms demo_cluster 2%nat None demo_world
    /\ log w' = log demo_world ++ sent_request demo_root "GET" "nodes" None
                                   :: map (qemu_request_of demo_connector) ["pve1"].
Proof.
  apply (cmd_vms_visits_every_node demo_cluster demo_world 2%nat 0%nat demo_root
           demo_connector [PyDict [("node", PyStr "pve1")]] ["pve1"]
           [[PyDict [("vmid", PyInt 100)]]]).
  - reflexivity.
  - by left.
  - reflexivity.
  - reflexivity.
  - exact demo_cluster_answers_nodes.
  - repeat constructor.
  - repeat constructor. exact demo_cluster_answers_qemu.
Defined.

Lemma cmd_vms_one_node_witness :
  exists (w' : world) (res : result pyval),
    ProxmoxiaAgent.cmd_vms demo_cluster 2%nat (Some "pve1") demo_world = Some (w', res)
    /\ log w' = log demo_world ++ [qemu_request_of demo_connector "pve1"]
    /\ (forall d : pyval,
          answers demo_cluster (qemu_request_of demo_connector "pve1") d -> res = Ret d).
Proof.
  apply (cmd_vms_one_node demo_cluster demo_world 2%nat 0%nat demo_root demo_connector
           "pve1"); first [reflexivity | discriminate].
Defined.
